(** * The NVIDIA NIM OpenAI proxy (fastapi_nvidia_nim_proxy.py)

    A shallow embedding of the proxy's credential gate, translators and relay
    handlers, and the properties of its specification.

    Python values live in a store of objects addressed by location, so that
    [dict.copy] can be told apart from aliasing.  Handlers are computations
    in a state-and-exception monad over a [world]: the object store, the
    [httpx] clients and their open/closed state, the requests sent to the
    backend, the chunks written to the caller's stream and the error log.
    The libraries the program calls (httpx, Starlette, FastAPI, json,
    urllib) are modelled by their documented behaviour; what they compute
    from data the program never inspects is left as a parameter.

    A [str] is held as the bytes of its UTF-8 form, and a lone surrogate
    (which [json.loads] makes of an escape such as [\ud800]) as the three
    bytes that stand for it.  The limits of the interpreter (recursion depth,
    memory, the length of an integer's decimal form) are not part of the
    model: where they are met inside [request.json()] or [response.json()],
    the exception is that call's outcome, which is data here. *)

From stdpp Require Import base list strings option.
From Stdlib Require Import ZArith Lia Ascii.

Local Open Scope string_scope.
Local Open Scope list_scope.

(** ** Python strings *)

Module PyStr.

(** [s.startswith(p)] *)
Definition startswith (s p : string) : bool := String.prefix p s.

(** [s.split(sep)] for a non-empty [sep]: the pieces between the
    non-overlapping occurrences of [sep], scanning from the left.  [skip]
    counts the characters of a matched separator still to be consumed and
    [cur] is the piece being read. *)
Fixpoint split_from (sep : string) (skip : nat) (cur s : string) : list string :=
  match s with
  | EmptyString => [cur]
  | String c s' =>
      match skip with
      | S k => split_from sep k cur s'
      | O =>
          if String.prefix sep s
          then cur :: split_from sep (String.length sep - 1) "" s'
          else split_from sep 0 (cur +:+ String c "") s'
      end
  end.

Definition split (s sep : string) : list string := split_from sep 0 "" s.

(** Truth value of a string: non-empty. *)
Definition nonempty (s : string) : bool :=
  match s with EmptyString => false | String _ _ => true end.

(** [x in xs] on a list of strings. *)
Definition mem (x : string) (xs : list string) : bool := existsb (String.eqb x) xs.

(** Whether [s.encode("utf-8")] succeeds: it raises [UnicodeEncodeError] on
    a lone surrogate, U+D800 to U+DFFF, whose three bytes begin with [ED]
    followed by a byte from [A0] up. *)
Fixpoint encodable (s : string) : bool :=
  match s with
  | EmptyString => true
  | String c s' =>
      match s' with
      | EmptyString => true
      | String d _ =>
          negb (Ascii.eqb c "237" && (160 <=? N_of_ascii d)%N) && encodable s'
      end
  end.

End PyStr.

(** ** JSON documents and Python objects *)

#[local] Unset Elimination Schemes.

(** A Python [float]: a finite double [m * 2 ^ e], an infinity or a NaN.
    [json.loads] returns an infinity for a number too large for a double,
    such as [1e400], and reads the words [NaN], [Infinity] and
    [-Infinity]. *)
Inductive pyfloat : Type :=
| Finite (m e : Z)
| Infinite (negative : bool)
| NaN.

Definition is_finite (x : pyfloat) : bool :=
  match x with
  | Finite _ _ => true
  | _ => false
  end.

(** Truth value of a float: zero is false; infinities and NaN are true. *)
Definition float_truth (x : pyfloat) : bool :=
  match x with
  | Finite m _ => negb (m =? 0)%Z
  | _ => true
  end.

(** A parsed JSON document.  [JInt] is a number written without fraction
    or exponent; any other number is the float it parses to.  The members
    of an object are in document order. *)
Inductive json : Type :=
| JNull
| JBool (b : bool)
| JInt (n : Z)
| JFloat (x : pyfloat)
| JStr (s : string)
| JArr (items : list json)
| JObj (members : list (string * json)).

#[local] Set Elimination Schemes.

(** Locations in the store. *)
Abbreviation loc := nat (only parsing).

(** The objects of the store.  Containers hold the locations of their
    elements; a dict keeps its items in insertion order. *)
Inductive obj : Type :=
| ONone
| OBool (b : bool)
| OInt (n : Z)
| OFloat (x : pyfloat)
| OStr (s : string)
| OList (items : list loc)
| ODict (items : list (string * loc)).

(** The exception classes the program meets; all derive from [Exception]. *)
Inductive exn : Type :=
| JSONDecodeError
| AttributeError (msg : string)
| IndexError
| ValueError (msg : string)
| TypeError (msg : string)
| UnicodeDecodeError
| UnicodeEncodeError
| RuntimeError (msg : string)
| TransportError (msg : string)
| HTTPException (status_code : Z) (detail : string).

(** How a call ends: with a value, or by raising an exception. *)
Inductive outcome (A : Type) : Type :=
| Ok (a : A)
| Raise (e : exn).

Arguments Ok {A} a.
Arguments Raise {A} e.

(** A request sent to the backend; the timeout is in seconds. *)
Record backend_call : Type := {
  call_method : string;
  call_url : string;
  call_json : option json;
  call_headers : list (string * string);
  call_timeout : Z;
  call_stream : bool
}.

(** What [httpx] gives back for a response.  The decoding and parsing of the
    body are [httpx]'s and [json]'s: their results are part of the data;
    [resp_json] is how [response.json()] ends, [aread_decode] how
    [(await response.aread()).decode()] ends, and [aiter_failure] the
    exception that breaks the stream of lines, if any. *)
Record response : Type := {
  status_code : Z;
  text : string;
  resp_json : outcome json;
  aread_decode : outcome string;
  aiter_lines : list string;
  aiter_failure : option exn
}.

Inductive backend_reply : Type :=
| Unreachable (e : exn)
| Reply (r : response).

(** The state a request is served in: the object store, the [httpx] clients
    created so far ([true] while open), the requests sent to the backend,
    the chunks written to the caller's stream, and the records of
    [logger.error]. *)
Record world : Type := {
  heap : list obj;
  clients : list bool;
  sent : list backend_call;
  out : list string;
  errlog : list string
}.

Definition empty_world : world :=
  {| heap := []; clients := []; sent := []; out := []; errlog := [] |}.

Definition set_heap (h : list obj) (w : world) : world :=
  {| heap := h; clients := clients w; sent := sent w; out := out w; errlog := errlog w |}.

Definition set_clients (c : list bool) (w : world) : world :=
  {| heap := heap w; clients := c; sent := sent w; out := out w; errlog := errlog w |}.

Definition add_sent (c : backend_call) (w : world) : world :=
  {| heap := heap w; clients := clients w; sent := sent w ++ [c]; out := out w;
     errlog := errlog w |}.

Definition add_out (s : string) (w : world) : world :=
  {| heap := heap w; clients := clients w; sent := sent w; out := out w ++ [s];
     errlog := errlog w |}.

Definition add_errlog (s : string) (w : world) : world :=
  {| heap := heap w; clients := clients w; sent := sent w; out := out w;
     errlog := errlog w ++ [s] |}.

(** ** The monad of Python computations *)

Definition M (A : Type) : Type := world -> outcome A * world.

Definition ret {A} (a : A) : M A := fun w => (Ok a, w).

Definition raise {A} (e : exn) : M A := fun w => (Raise e, w).

Definition bind {A B} (m : M A) (k : A -> M B) : M B :=
  fun w =>
    match m w with
    | (Ok a, w') => k a w'
    | (Raise e, w') => (Raise e, w')
    end.

Notation "'let*' x ':=' m 'in' k" := (bind m (fun x => k))
  (at level 10, x name, m at level 100, k at level 200).

Notation "m ';;' k" := (bind m (fun _ => k))
  (at level 100, k at level 200, right associativity).

(** [try: body except ...]: [handlers e] is the suite of the first [except]
    clause that matches [e], if any. *)
Definition try_except {A} (body : M A) (handlers : exn -> option (M A)) : M A :=
  fun w =>
    match body w with
    | (Ok a, w') => (Ok a, w')
    | (Raise e, w') =>
        match handlers e with
        | Some h => h w'
        | None => (Raise e, w')
        end
    end.

(** A call that ends as [o] and leaves the state alone. *)
Definition of_outcome {A} (o : outcome A) : M A := fun w => (o, w).

Definition get_heap : M (list obj) := fun w => (Ok (heap w), w).

(** A new object, at the first unused location. *)
Definition alloc (o : obj) : M loc :=
  fun w => (Ok (length (heap w)), set_heap (heap w ++ [o]) w).

Definition deref (l : loc) : M obj :=
  fun w =>
    match heap w !! l with
    | Some o => (Ok o, w)
    | None => (Raise (RuntimeError "dangling reference"), w)
    end.

(** [yield s] in the body iterator of a streaming response: the chunk goes
    out to the caller. *)
Definition yield_ (s : string) : M unit := fun w => (Ok tt, add_out s w).

(** [logger.error(s)] *)
Definition logger_error (s : string) : M unit := fun w => (Ok tt, add_errlog s w).

(** [for x in xs: body x] *)
Fixpoint for_each {A} (xs : list A) (body : A -> M unit) : M unit :=
  match xs with
  | [] => ret tt
  | x :: xs' => body x ;; for_each xs' body
  end.

(** ** Objects in the store *)

Module PyObj.

(** Loading the elements of a list in order, threading the store. *)
Definition load_all {A} (load1 : A -> list obj -> loc * list obj)
    : list A -> list obj -> list loc * list obj :=
  fix go (xs : list A) (h : list obj) : list loc * list obj :=
    match xs with
    | [] => ([], h)
    | x :: xs' =>
        let '(l, h1) := load1 x h in
        let '(ls, h2) := go xs' h1 in
        (l :: ls, h2)
    end.

(** [json.loads]: the objects of a document, children before their parent,
    each at a new location. *)
Fixpoint load (j : json) (h : list obj) : loc * list obj :=
  match j with
  | JNull => (length h, h ++ [ONone])
  | JBool b => (length h, h ++ [OBool b])
  | JInt n => (length h, h ++ [OInt n])
  | JFloat x => (length h, h ++ [OFloat x])
  | JStr s => (length h, h ++ [OStr s])
  | JArr items =>
      let '(ls, h') := load_all load items h in
      (length h', h' ++ [OList ls])
  | JObj members =>
      let '(ls, h') := load_all (fun kv : string * json => load (snd kv)) members h in
      (length h', h' ++ [ODict (zip (map fst members) ls)])
  end.

Definition loads (j : json) : M loc :=
  fun w => let '(l, h') := load j (heap w) in (Ok l, set_heap h' w).

(** The document an object denotes, read back through the store.  [fuel]
    bounds the nesting depth that is followed. *)
Fixpoint dump (fuel : nat) (h : list obj) (l : loc) : option json :=
  match fuel with
  | O => None
  | S n =>
      match h !! l with
      | None => None
      | Some ONone => Some JNull
      | Some (OBool b) => Some (JBool b)
      | Some (OInt z) => Some (JInt z)
      | Some (OFloat x) => Some (JFloat x)
      | Some (OStr s) => Some (JStr s)
      | Some (OList ls) => JArr <$> mapM (dump n h) ls
      | Some (ODict kvs) =>
          JObj <$> mapM (fun kv : string * loc => pair (fst kv) <$> dump n h (snd kv)) kvs
      end
  end.

(** A document holds a float that is not finite. *)
Fixpoint has_non_finite (j : json) : bool :=
  match j with
  | JFloat x => negb (is_finite x)
  | JArr items => existsb has_non_finite items
  | JObj members => existsb (fun kv : string * json => has_non_finite (snd kv)) members
  | _ => false
  end.

(** Every string and key of a document can be encoded as UTF-8. *)
Fixpoint encodable_text (j : json) : bool :=
  match j with
  | JStr s => PyStr.encodable s
  | JArr items => forallb encodable_text items
  | JObj members =>
      forallb (fun kv : string * json =>
                 PyStr.encodable (fst kv) && encodable_text (snd kv)) members
  | _ => true
  end.

(** What
    [json.dumps(j, ensure_ascii=False, allow_nan=False).encode("utf-8")]
    raises, if anything: [json.dumps] refuses a float that is not finite,
    and the text it returns is encoded afterwards. *)
Definition json_error (j : json) : option exn :=
  if has_non_finite j
  then Some (ValueError "Out of range float values are not JSON compliant")
  else if encodable_text j then None else Some UnicodeEncodeError.

(** Serialisation of an object as the bytes of a JSON document, by [httpx]
    (from version 0.28) for a request body and by Starlette's [JSONResponse]
    for a returned value, both as [json_error] describes.  The result is the
    document written.  A store without cycles nests no deeper than it has
    objects. *)
Definition encode (l : loc) : M json :=
  fun w =>
    match dump (length (heap w)) (heap w) l with
    | Some j =>
        match json_error j with
        | None => (Ok j, w)
        | Some e => (Raise e, w)
        end
    | None => (Raise (ValueError "Circular reference detected"), w)
    end.

Definition type_name (o : obj) : string :=
  match o with
  | ONone => "NoneType"
  | OBool _ => "bool"
  | OInt _ => "int"
  | OFloat _ => "float"
  | OStr _ => "str"
  | OList _ => "list"
  | ODict _ => "dict"
  end.

Definition no_attribute (o : obj) (attr : string) : exn :=
  AttributeError ("'" +:+ type_name o +:+ "' object has no attribute '" +:+ attr +:+ "'").

(** [x.copy()]: dicts and lists have the method; it makes a new container
    holding the same element objects. *)
Definition copy (x : loc) : M loc :=
  let* o := deref x in
  match o with
  | ODict items => alloc (ODict items)
  | OList items => alloc (OList items)
  | _ => raise (no_attribute o "copy")
  end.

Definition dict_lookup (key : string) (items : list (string * loc)) : option loc :=
  snd <$> find (fun kv : string * loc => String.eqb key (fst kv)) items.

Fixpoint is_substring (p s : string) : bool :=
  String.prefix p s ||
  match s with
  | EmptyString => false
  | String _ s' => is_substring p s'
  end.

(** [key in x] for a string [key]. *)
Definition contains (key : string) (x : loc) : M bool :=
  let* o := deref x in
  match o with
  | ODict items => ret (bool_decide (is_Some (dict_lookup key items)))
  | OList items =>
      let* h := get_heap in
      ret (existsb (fun l : loc =>
                      match h !! l with
                      | Some (OStr s) => String.eqb key s
                      | _ => false
                      end) items)
  | OStr s => ret (is_substring key s)
  | _ => raise (TypeError ("argument of type '" +:+ type_name o +:+ "' is not iterable"))
  end.

(** [x.get(key, default)]: [None] stands for the default. *)
Definition get (x : loc) (key : string) : M (option loc) :=
  let* o := deref x in
  match o with
  | ODict items => ret (dict_lookup key items)
  | _ => raise (no_attribute o "get")
  end.

(** Truth value of an object. *)
Definition truth (o : obj) : bool :=
  match o with
  | ONone => false
  | OBool b => b
  | OInt n => negb (n =? 0)%Z
  | OFloat x => float_truth x
  | OStr s => PyStr.nonempty s
  | OList items => negb (bool_decide (items = []))
  | ODict items => negb (bool_decide (items = []))
  end.

Definition truthy (x : loc) : M bool :=
  let* o := deref x in ret (truth o).

(** [a == b] on containers.  The elements are compared as CPython's
    [PyObject_RichCompareBool] does: identical objects are equal, and distinct
    ones are compared by [elem_eq], which is left open. *)
Section Equality.

Variable elem_eq : list obj -> loc -> loc -> bool.





End Equality.

End PyObj.

(** ** The libraries: httpx, Starlette, FastAPI *)

(** The line feed, written [\n] in the source. *)
Definition nl : string := String "010"%char EmptyString.

Module Httpx.

(** [async with httpx.AsyncClient() as client: body].  The client is open
    inside the block and closed when the block is left, whether by [return]
    or by an exception.  Making the client is taken to succeed. *)
Definition with_AsyncClient {A} (body : nat -> M A) : M A :=
  fun w =>
    let client := length (clients w) in
    let '(r, w') := body client (set_clients (clients w ++ [true]) w) in
    (r, set_clients (<[client := false]> (clients w')) w').

(** [client.send]: a closed client refuses to send. *)
Definition send (backend : backend_call -> backend_reply) (client : nat)
    (call : backend_call) : M response :=
  fun w =>
    match clients w !! client with
    | Some true =>
        match backend call with
        | Reply r => (Ok r, add_sent call w)
        | Unreachable e => (Raise e, add_sent call w)
        end
    | _ => (Raise (RuntimeError "Cannot send a request, as the client has been closed."), w)
    end.

(** [client.post(url, json=..., headers=..., timeout=...)] *)
Definition post (backend : backend_call -> backend_reply) (client : nat) (url : string)
    (json_arg : loc) (headers : list (string * string)) (timeout : Z) : M response :=
  let* content := PyObj.encode json_arg in
  send backend client
    {| call_method := "POST"; call_url := url; call_json := Some content;
       call_headers := headers; call_timeout := timeout; call_stream := false |}.

(** [client.get(url, headers=..., timeout=...)] *)
Definition get (backend : backend_call -> backend_reply) (client : nat) (url : string)
    (headers : list (string * string)) (timeout : Z) : M response :=
  send backend client
    {| call_method := "GET"; call_url := url; call_json := None;
       call_headers := headers; call_timeout := timeout; call_stream := false |}.

(** Entering [async with client.stream(method, url, json=..., ...) as response] *)
Definition stream (backend : backend_call -> backend_reply) (client : nat)
    (method url : string) (json_arg : loc) (headers : list (string * string))
    (timeout : Z) : M response :=
  let* content := PyObj.encode json_arg in
  send backend client
    {| call_method := method; call_url := url; call_json := Some content;
       call_headers := headers; call_timeout := timeout; call_stream := true |}.

(** [response.json()] *)
Definition response_json (r : response) : M loc :=
  match resp_json r with
  | Ok j => PyObj.loads j
  | Raise e => raise e
  end.

(** [(await response.aread()).decode()] *)
Definition aread_then_decode (r : response) : M string :=
  match aread_decode r with
  | Ok s => ret s
  | Raise e => raise e
  end.

(** [async for chunk in response.aiter_lines(): body chunk] *)
Definition for_aiter_lines (r : response) (body : string -> M unit) : M unit :=
  for_each (aiter_lines r) body ;;
  match aiter_failure r with
  | Some e => raise e
  | None => ret tt
  end.

End Httpx.

(** [urllib.parse.urlsplit], for a URL [scheme://rest] with the scheme
    [http] or [https]; the functions take [rest]. *)
Module Urllib.

(** Tabs, line feeds and carriage returns are taken out of a URL before it
    is split. *)
Definition unsafe (c : ascii) : bool :=
  Ascii.eqb c "009" || Ascii.eqb c "010" || Ascii.eqb c "013".

Fixpoint remove_unsafe (s : string) : string :=
  match s with
  | EmptyString => EmptyString
  | String c s' => if unsafe c then remove_unsafe s' else String c (remove_unsafe s')
  end.

(** The authority ends at the first [/], [?] or [#]; the path that follows
    it ends at the first [?] or [#]. *)
Definition ends_netloc (c : ascii) : bool :=
  Ascii.eqb c "/" || Ascii.eqb c "?" || Ascii.eqb c "#".

Definition ends_path (c : ascii) : bool := Ascii.eqb c "?" || Ascii.eqb c "#".

Fixpoint netloc (s : string) : string :=
  match s with
  | EmptyString => EmptyString
  | String c s' => if ends_netloc c then EmptyString else String c (netloc s')
  end.

Fixpoint after_netloc (s : string) : string :=
  match s with
  | EmptyString => EmptyString
  | String c s' => if ends_netloc c then s else after_netloc s'
  end.

Fixpoint upto_query (s : string) : string :=
  match s with
  | EmptyString => EmptyString
  | String c s' => if ends_path c then EmptyString else String c (upto_query s')
  end.

Definition path (s : string) : string := upto_query (after_netloc s).

End Urllib.

(** An inbound request, as Starlette presents it.  [req_path] is the path of
    the request line, percent-decoded (the [path] of the ASGI scope), by
    which the request is routed; [req_query] is how decoding the query
    string of the request line ends, with its text or with the exception
    [bytes.decode] raises; [req_server] is the address the server listens
    on, written [host:port] as in a URL, which stands in for a missing
    [Host] header; header names are lower-cased; [req_json] is how
    [request.json()] ends: with the parsed document, or with the exception
    [json.loads] raises on the body. *)
Record Request : Type := {
  req_method : string;
  req_server : string;
  req_path : string;
  req_query : outcome string;
  req_headers : list (string * string);
  req_json : outcome json
}.

Inductive body : Type :=
| BodyJSON (content : json)
| BodyText (content : string)
| BodyStream (chunks : list string) (failure : option exn).

Record http_response : Type := {
  status : Z;
  media_type : string;
  headers : list (string * string);
  content : body
}.

(** What a path operation function returns. *)
Inductive retval : Type :=
| RetObj (value : loc)
| RetStreaming (body_iterator : M unit) (media : string) (hdrs : list (string * string)).

Module Starlette.

(** [request.headers.get(name)]: the first header of that name. *)
Definition headers_get (request : Request) (name : string) : option string :=
  snd <$> find (fun kv : string * string => String.eqb name (fst kv)) (req_headers request).

(** [await request.json()] *)
Definition request_json (request : Request) : M loc :=
  match req_json request with
  | Ok j => PyObj.loads j
  | Raise e => raise e
  end.

(** [request.url] is put together from the scheme, the [Host] header (the
    address of the server when there is none), the path and the decoded
    query string, and split again by [urlsplit].  [url] is the text after
    [scheme://], as [urlsplit] goes on with it, without the query string:
    that one follows a [?], which ends the authority and the path in any
    case. *)
Definition url_authority (request : Request) : string :=
  match headers_get request "host" with
  | Some host => host
  | None => req_server request
  end.

Definition url (request : Request) : string :=
  Urllib.remove_unsafe (url_authority request +:+ req_path request).

Definition url_netloc (request : Request) : string := Urllib.netloc (url request).

(** What [request.url.path] raises, if anything: the exception of decoding
    the query string, or the [ValueError] of [urlsplit], which checks the
    authority it has found (the brackets of an IPv6 address and what they
    hold, the characters that normalisation would turn into delimiters);
    [netloc_error] is that check. *)
Definition url_error (netloc_error : string -> option exn) (request : Request)
    : option exn :=
  match req_query request with
  | Raise e => Some e
  | Ok _ => netloc_error (url_netloc request)
  end.

(** [request.url.path] *)
Definition url_path (netloc_error : string -> option exn) (request : Request)
    : outcome string :=
  match url_error netloc_error request with
  | Some e => Raise e
  | None => Ok (Urllib.path (url request))
  end.

(** A route declared for [pattern] is compiled to the regular expression
    [^pattern$] and matched against the path of the request; [$] also
    matches before a line feed that ends the path. *)
Fixpoint route_matches (pattern path : string) : bool :=
  match pattern, path with
  | EmptyString, EmptyString => true
  | EmptyString, String c EmptyString => Ascii.eqb c "010"
  | String a pattern', String b path' => Ascii.eqb a b && route_matches pattern' path'
  | _, _ => false
  end.

(** A [JSONResponse] with its body rendered. *)
Definition json_response (status_code : Z) (content : json) : http_response :=
  {| status := status_code; media_type := "application/json"; headers := [];
     content := BodyJSON content |}.

(** [JSONResponse(status_code=..., content=...)]: the body is rendered when
    the response is made, which raises what [json_error] tells. *)
Definition JSONResponse (status_code : Z) (content : json) : M http_response :=
  match PyObj.json_error content with
  | Some e => raise e
  | None => ret (json_response status_code content)
  end.

(** Sending a [StreamingResponse]: status and headers go out first, then the
    body iterator is run, each chunk going out as it is yielded; an exception
    in the iterator cuts the body short. *)
Definition send_streaming (body_iterator : M unit) (media : string)
    (hdrs : list (string * string)) : M http_response :=
  fun w =>
    let '(r, w') := body_iterator w in
    let chunks := drop (length (out w)) (out w') in
    (Ok {| status := 200; media_type := media; headers := hdrs;
           content := BodyStream chunks
                        match r with Ok _ => None | Raise e => Some e end |},
     w').

End Starlette.

Module FastAPI.

(** The response for a value returned by a path operation function. *)
Definition render (r : retval) : M http_response :=
  match r with
  | RetObj value =>
      let* content := PyObj.encode value in
      ret (Starlette.json_response 200 content)
  | RetStreaming body_iterator media hdrs =>
      Starlette.send_streaming body_iterator media hdrs
  end.

(** The handler of [HTTPException]. *)
Definition http_exception_handler (status_code : Z) (detail : string) : M http_response :=
  Starlette.JSONResponse status_code (JObj [("detail", JStr detail)]).

(** A route: run the path operation function, then send what it returned or
    the response for the [HTTPException] it raised. *)
Definition route (endpoint : M retval) : M http_response :=
  fun w =>
    match endpoint w with
    | (Ok r, w') => render r w'
    | (Raise (HTTPException status_code detail), w') =>
        http_exception_handler status_code detail w'
    | (Raise e, w') => (Raise e, w')
    end.

(** The answer of the outermost middleware to an exception. *)
Definition internal_server_error : http_response :=
  {| status := 500; media_type := "text/plain"; headers := [];
     content := BodyText "Internal Server Error" |}.

(** The outermost middleware: any exception left becomes a plain 500. *)
Definition server_error_middleware (app : M http_response) : world -> http_response * world :=
  fun w =>
    match app w with
    | (Ok r, w') => (r, w')
    | (Raise e, w') => (internal_server_error, w')
    end.

End FastAPI.

(** ** The program *)

Section Proxy.

(** Configuration, read from the environment at start-up. *)
Variable NVIDIA_NIM_BASE_URL : string.
Variable NVIDIA_NIM_API_KEY : string.
Variable PROXY_API_KEY : string.

(** The backend: what it answers to each request sent to it. *)
Variable backend : backend_call -> backend_reply.

(** [str(e)] of an exception and [json.dumps] of a document. *)
Variable py_str : exn -> string.
Variable json_dumps : json -> string.

(** The check [urlsplit] makes of the authority of a URL. *)
Variable netloc_error : string -> option exn.

(** The routes FastAPI serves by itself (the documentation pages, and the
    404 and 405 answers). *)
Variable framework_route : Request -> http_response.

Definition translate_request (openai_request : loc) : M loc :=
  let* nim_request := PyObj.copy openai_request in
  let* has_model := PyObj.contains "model" nim_request in
  (if has_model then ret tt else ret tt) ;;
  ret nim_request.

Definition translate_response (nim_response : loc) : M loc :=
  let* openai_response := PyObj.copy nim_response in
  ret openai_response.

(** [xs[i]] *)
Definition subscript (xs : list string) (i : nat) : M string :=
  match xs !! i with
  | Some x => ret x
  | None => raise IndexError
  end.

Definition authenticate_request (request : Request) : M bool :=
  match Starlette.headers_get request "authorization" with
  | None => ret false
  | Some auth_header =>
      if negb (PyStr.nonempty auth_header) || negb (PyStr.startswith auth_header "Bearer ")
      then ret false
      else
        let* token := subscript (PyStr.split auth_header "Bearer ") 1 in
        ret (String.eqb token PROXY_API_KEY)
  end.

Definition auth_middleware (request : Request)
    (call_next : Request -> M http_response) : M http_response :=
  let* path := of_outcome (Starlette.url_path netloc_error request) in
  if PyStr.mem path ["/"; "/health"; "/docs"; "/openapi.json"]
  then call_next request
  else
    let* authenticated := authenticate_request request in
    if negb authenticated
    then
      Starlette.JSONResponse 401
        (JObj [("error", JObj [("message", JStr "Invalid API key");
                               ("type", JStr "invalid_request_error")])])
    else call_next request.

Definition root : M retval :=
  let* r := PyObj.loads (JObj [("message", JStr "NVIDIA NIM OpenAI Proxy Server");
                               ("status", JStr "running")]) in
  ret (RetObj r).

Definition health : M retval :=
  let* r := PyObj.loads (JObj [("status", JStr "healthy")]) in
  ret (RetObj r).

Definition list_models : M retval :=
  try_except
    (Httpx.with_AsyncClient (fun client =>
       let headers :=
         if PyStr.nonempty NVIDIA_NIM_API_KEY
         then [("Authorization", "Bearer " +:+ NVIDIA_NIM_API_KEY)]
         else [] in
       let* response :=
         Httpx.get backend client (NVIDIA_NIM_BASE_URL +:+ "/v1/models") headers 30 in
       if (status_code response =? 200)%Z
       then
         let* r := Httpx.response_json response in
         ret (RetObj r)
       else raise (HTTPException (status_code response) (text response))))
    (fun e =>
       Some (logger_error ("Error fetching models: " +:+ py_str e) ;;
             raise (HTTPException 500 "Failed to fetch models"))).

(** The headers sent to the backend by both generation endpoints. *)
Definition nim_headers : list (string * string) :=
  [("Content-Type", "application/json")] ++
  (if PyStr.nonempty NVIDIA_NIM_API_KEY
   then [("Authorization", "Bearer " +:+ NVIDIA_NIM_API_KEY)]
   else []).

(** [is_stream] as the condition of [if is_stream:], where
    [is_stream = request_data.get("stream", False)]. *)
Definition if_is_stream (is_stream : option loc) : M bool :=
  match is_stream with
  | Some v => PyObj.truthy v
  | None => ret false
  end.

Definition streaming_headers : list (string * string) :=
  [("Cache-Control", "no-cache"); ("Connection", "keep-alive")].

(** [generate_stream], the generator nested in [chat_completions]; [client],
    [nim_request] and [headers] are the variables it closes over. *)
Definition chat_completions_generate_stream (client : nat) (nim_request : loc)
    (headers : list (string * string)) : M unit :=
  let* response :=
    Httpx.stream backend client "POST" (NVIDIA_NIM_BASE_URL +:+ "/v1/chat/completions")
      nim_request headers 60 in
  if negb (status_code response =? 200)%Z
  then
    let* error_text := Httpx.aread_then_decode response in
    yield_ ("data: " +:+
            json_dumps (JObj [("error", JObj [("message", JStr error_text);
                                              ("type", JStr "api_error")])]) +:+
            nl +:+ nl)
  else
    Httpx.for_aiter_lines response (fun chunk =>
      if PyStr.nonempty chunk then yield_ (chunk +:+ nl) else ret tt).

Definition chat_completions (request : Request) : M retval :=
  try_except
    (let* request_data := Starlette.request_json request in
     let* nim_request := translate_request request_data in
     let headers := nim_headers in
     let* is_stream := PyObj.get request_data "stream" in
     Httpx.with_AsyncClient (fun client =>
       let* streaming := if_is_stream is_stream in
       if streaming
       then
         ret (RetStreaming (chat_completions_generate_stream client nim_request headers)
                "text/plain" streaming_headers)
       else
         let* response :=
           Httpx.post backend client (NVIDIA_NIM_BASE_URL +:+ "/v1/chat/completions")
             nim_request headers 60 in
         if (status_code response =? 200)%Z
         then
           let* nim_response := Httpx.response_json response in
           let* openai_response := translate_response nim_response in
           ret (RetObj openai_response)
         else
           let error_data := text response in
           raise (HTTPException (status_code response) error_data)))
    (fun e =>
       match e with
       | JSONDecodeError => Some (raise (HTTPException 400 "Invalid JSON in request body"))
       | _ =>
           Some (logger_error ("Error in chat completions: " +:+ py_str e) ;;
                 raise (HTTPException 500 (py_str e)))
       end).

(** [generate_stream], the generator nested in [completions]. *)
Definition completions_generate_stream (client : nat) (nim_request : loc)
    (headers : list (string * string)) : M unit :=
  let* response :=
    Httpx.stream backend client "POST" (NVIDIA_NIM_BASE_URL +:+ "/v1/completions")
      nim_request headers 60 in
  if negb (status_code response =? 200)%Z
  then
    let* error_text := Httpx.aread_then_decode response in
    yield_ ("data: " +:+
            json_dumps (JObj [("error", JObj [("message", JStr error_text);
                                              ("type", JStr "api_error")])]) +:+
            nl +:+ nl)
  else
    Httpx.for_aiter_lines response (fun chunk =>
      if PyStr.nonempty chunk then yield_ (chunk +:+ nl) else ret tt).

Definition completions (request : Request) : M retval :=
  try_except
    (let* request_data := Starlette.request_json request in
     let* nim_request := translate_request request_data in
     let headers := nim_headers in
     let* is_stream := PyObj.get request_data "stream" in
     Httpx.with_AsyncClient (fun client =>
       let* streaming := if_is_stream is_stream in
       if streaming
       then
         ret (RetStreaming (completions_generate_stream client nim_request headers)
                "text/plain" streaming_headers)
       else
         let* response :=
           Httpx.post backend client (NVIDIA_NIM_BASE_URL +:+ "/v1/completions")
             nim_request headers 60 in
         if (status_code response =? 200)%Z
         then
           let* nim_response := Httpx.response_json response in
           let* openai_response := translate_response nim_response in
           ret (RetObj openai_response)
         else
           let error_data := text response in
           raise (HTTPException (status_code response) error_data)))
    (fun e =>
       match e with
       | JSONDecodeError => Some (raise (HTTPException 400 "Invalid JSON in request body"))
       | _ =>
           Some (logger_error ("Error in completions: " +:+ py_str e) ;;
                 raise (HTTPException 500 (py_str e)))
       end).

(** The routes declared with [@app.get] and [@app.post]; every other request
    is answered by the framework. *)
Definition router (request : Request) : M http_response :=
  let method := req_method request in
  let path := req_path request in
  if Starlette.route_matches "/" path && String.eqb method "GET"
  then FastAPI.route root
  else if Starlette.route_matches "/health" path && String.eqb method "GET"
  then FastAPI.route health
  else if Starlette.route_matches "/v1/models" path && String.eqb method "GET"
  then FastAPI.route list_models
  else if Starlette.route_matches "/v1/chat/completions" path && String.eqb method "POST"
  then FastAPI.route (chat_completions request)
  else if Starlette.route_matches "/v1/completions" path && String.eqb method "POST"
  then FastAPI.route (completions request)
  else ret (framework_route request).

(** The application: the authentication middleware around the router. *)
Definition app (request : Request) : world -> http_response * world :=
  FastAPI.server_error_middleware (auth_middleware request router).

End Proxy.

(** ** The relay, with the endpoint as a parameter

    [chat_completions] and [completions] are written out twice in the source.
    [relay_handler] is the one function they are both instances of: [path] is
    the backend endpoint and [name] the words used in the log record. *)

Section Relay.

Variable NVIDIA_NIM_BASE_URL : string.
Variable NVIDIA_NIM_API_KEY : string.
Variable backend : backend_call -> backend_reply.
Variable py_str : exn -> string.
Variable json_dumps : json -> string.

Definition relay_generate_stream (path : string) (client : nat) (nim_request : loc)
    (headers : list (string * string)) : M unit :=
  let* response :=
    Httpx.stream backend client "POST" (NVIDIA_NIM_BASE_URL +:+ path)
      nim_request headers 60 in
  if negb (status_code response =? 200)%Z
  then
    let* error_text := Httpx.aread_then_decode response in
    yield_ ("data: " +:+
            json_dumps (JObj [("error", JObj [("message", JStr error_text);
                                              ("type", JStr "api_error")])]) +:+
            nl +:+ nl)
  else
    Httpx.for_aiter_lines response (fun chunk =>
      if PyStr.nonempty chunk then yield_ (chunk +:+ nl) else ret tt).

Definition relay_handler (path name : string) (request : Request) : M retval :=
  try_except
    (let* request_data := Starlette.request_json request in
     let* nim_request := translate_request request_data in
     let headers := nim_headers NVIDIA_NIM_API_KEY in
     let* is_stream := PyObj.get request_data "stream" in
     Httpx.with_AsyncClient (fun client =>
       let* streaming := if_is_stream is_stream in
       if streaming
       then
         ret (RetStreaming (relay_generate_stream path client nim_request headers)
                "text/plain" streaming_headers)
       else
         let* response :=
           Httpx.post backend client (NVIDIA_NIM_BASE_URL +:+ path)
             nim_request headers 60 in
         if (status_code response =? 200)%Z
         then
           let* nim_response := Httpx.response_json response in
           let* openai_response := translate_response nim_response in
           ret (RetObj openai_response)
         else
           let error_data := text response in
           raise (HTTPException (status_code response) error_data)))
    (fun e =>
       match e with
       | JSONDecodeError => Some (raise (HTTPException 400 "Invalid JSON in request body"))
       | _ =>
           Some (logger_error ("Error in " +:+ name +:+ ": " +:+ py_str e) ;;
                 raise (HTTPException 500 (py_str e)))
       end).

(** The request a generation endpoint sends to the backend for the document
    [doc]. *)
Definition generation_call (path : string) (doc : json) (streamed : bool) : backend_call :=
  {| call_method := "POST"; call_url := NVIDIA_NIM_BASE_URL +:+ path;
     call_json := Some doc; call_headers := nim_headers NVIDIA_NIM_API_KEY;
     call_timeout := 60; call_stream := streamed |}.

End Relay.

(** ** Vocabulary of the statements *)

(** Objects with a [copy] method. *)
Definition copyable (o : obj) : bool :=
  match o with
  | ODict _ | OList _ => true
  | _ => false
  end.


(** Documents that load as a dict or a list. *)
Definition container_doc (j : json) : bool :=
  match j with
  | JObj _ | JArr _ => true
  | _ => false
  end.

(** [x] denotes the document [j] in the store [h]. *)
Definition denotes (h : list obj) (x : loc) (j : json) : Prop :=
  PyObj.dump (length h) h x = Some j.

Definition json_lookup (key : string) (members : list (string * json)) : option json :=
  snd <$> find (fun kv : string * json => String.eqb key (fst kv)) members.

(** Truth value of the object a document loads as. *)
Definition json_truth (j : json) : bool :=
  match j with
  | JNull => false
  | JBool b => b
  | JInt n => negb (n =? 0)%Z
  | JFloat x => float_truth x
  | JStr s => PyStr.nonempty s
  | JArr items => negb (bool_decide (items = []))
  | JObj members => negb (bool_decide (members = []))
  end.

(** The [stream] flag of a request document: absent counts as false. *)
Definition stream_flag (members : list (string * json)) : bool :=
  match json_lookup "stream" members with
  | Some v => json_truth v
  | None => false
  end.

(** Worlds that agree on all the caller can observe and the program can read
    back: the store, the clients and the caller's stream.  The record of
    backend calls and the error log are left out. *)
Definition sim (w1 w2 : world) : Prop :=
  heap w1 = heap w2 /\ clients w1 = clients w2 /\ out w1 = out w2.

(** Two computations that, from agreeing worlds, end alike in agreeing
    worlds with results related by [R]. *)
Definition simM {A} (R : A -> A -> Prop) (m1 m2 : M A) : Prop :=
  forall w1 w2, sim w1 w2 ->
    match m1 w1, m2 w2 with
    | (Ok a1, w1'), (Ok a2, w2') => R a1 a2 /\ sim w1' w2'
    | (Raise e1, w1'), (Raise e2, w2') => e1 = e2 /\ sim w1' w2'
    | _, _ => False
    end.

Definition sim_retval (r1 r2 : retval) : Prop :=
  match r1, r2 with
  | RetObj l1, RetObj l2 => l1 = l2
  | RetStreaming g1 m1 h1, RetStreaming g2 m2 h2 => simM eq g1 g2 /\ m1 = m2 /\ h1 = h2
  | _, _ => False
  end.





(** The backend answers alike at two URLs. *)
Definition agree_on (backend : backend_call -> backend_reply) (url1 url2 : string) : Prop :=
  forall method doc hdrs timeout streamed,
    backend {| call_method := method; call_url := url1; call_json := doc;
               call_headers := hdrs; call_timeout := timeout; call_stream := streamed |} =
    backend {| call_method := method; call_url := url2; call_json := doc;
               call_headers := hdrs; call_timeout := timeout; call_stream := streamed |}.

(** What the streaming loop makes of the backend's lines: the empty ones are
    skipped, the others get a line feed. *)
Definition forwarded (lines : list string) : list string :=
  map (fun line => line +:+ nl) (List.filter PyStr.nonempty lines).

(** The one event the streaming generator emits for a backend error. *)
Definition error_event (json_dumps : json -> string) (error_text : string) : string :=
  "data: " +:+
  json_dumps (JObj [("error", JObj [("message", JStr error_text);
                                    ("type", JStr "api_error")])]) +:+
  nl +:+ nl.

Definition add_outs (chunks : list string) (w : world) : world :=
  {| heap := heap w; clients := clients w; sent := sent w; out := out w ++ chunks;
     errlog := errlog w |}.

(** The streaming response whose body iterator failed before its first
    chunk, the client being closed. *)
Definition aborted_stream : http_response :=
  {| status := 200; media_type := "text/plain";
     headers := [("Cache-Control", "no-cache"); ("Connection", "keep-alive")];
     content := BodyStream []
                  (Some (RuntimeError
                           "Cannot send a request, as the client has been closed.")) |}.

(** The paths the credential gate lets through unchecked. *)
Definition unauthenticated_paths : list string :=
  ["/"; "/health"; "/docs"; "/openapi.json"].

(** The rejection of the credential gate. *)
Definition auth_error : http_response :=
  Starlette.json_response 401
    (JObj [("error", JObj [("message", JStr "Invalid API key");
                           ("type", JStr "invalid_request_error")])]).

(** [load] has put the document [j] at [l], extending the store [h] to [h']. *)
Definition loaded (j : json) (h : list obj) (l : loc) (h' : list obj) : Prop :=
  exists cells, h' = h ++ cells /\ PyObj.dump (length cells) h' l = Some j.

(** ** Sample deployments and requests *)

Definition base_url : string := "http://localhost:8000".
Definition proxy_key : string := "your-proxy-api-key".

(** How [json.loads] ends on a body: with the document it holds, or with
    [JSONDecodeError] when it holds none. *)
Definition parsed (doc : option json) : outcome json :=
  match doc with
  | Some j => Ok j
  | None => Raise JSONDecodeError
  end.

Definition plain_response (code : Z) (body : string) (doc : option json)
    (lines : list string) : response :=
  {| status_code := code; text := body; resp_json := parsed doc; aread_decode := Ok body;
     aiter_lines := lines; aiter_failure := None |}.

(** A backend that answers every request with [r]. *)
Definition always (r : response) : backend_call -> backend_reply := fun _ => Reply r.

(** The decimal form of a three-digit number. *)
Definition digit (n : Z) : string := String (ascii_of_N (48 + Z.to_N n)) EmptyString.

Definition decimal3 (n : Z) : string :=
  digit (n / 100) +:+ digit (n / 10 mod 10) +:+ digit (n mod 10).

(** A sample [str]: the message an exception carries; for an
    [HTTPException], as Starlette writes it, the status, a colon and the
    detail. *)
Definition detail_str (e : exn) : string :=
  match e with
  | HTTPException code detail => decimal3 code +:+ ": " +:+ detail
  | AttributeError msg | ValueError msg | TypeError msg
  | RuntimeError msg | TransportError msg => msg
  | JSONDecodeError => "Expecting value"
  | IndexError => "list index out of range"
  | UnicodeDecodeError => "invalid start byte"
  | UnicodeEncodeError => "surrogates not allowed"
  end.

(** A sample of the check of the authority: the brackets of an IPv6
    address come in pairs. *)
Definition bracket_check (netloc : string) : option exn :=
  if xorb (PyObj.is_substring "[" netloc) (PyObj.is_substring "]" netloc)
  then Some (ValueError "Invalid IPv6 URL")
  else None.

(** The address of a sample server. *)
Definition local_server : string := "127.0.0.1:8080".

Definition no_dumps (j : json) : string := "{}".

Definition not_found (request : Request) : http_response :=
  Starlette.json_response 404 (JObj [("detail", JStr "Not Found")]).

Definition post_request (path : string) (auth : option string) (doc : option json)
    : Request :=
  {| req_method := "POST"; req_server := local_server; req_path := path; req_query := Ok "";
     req_headers := match auth with
                    | Some v => [("authorization", v)]
                    | None => []
                    end;
     req_json := parsed doc |}.

Definition get_request (path : string) (auth : option string) : Request :=
  {| req_method := "GET"; req_server := local_server; req_path := path; req_query := Ok "";
     req_headers := match auth with
                    | Some v => [("authorization", v)]
                    | None => []
                    end;
     req_json := parsed None |}.

Definition valid_auth : option string := Some ("Bearer " +:+ proxy_key).

(** A request document and the world in which it has been loaded; the dict
    is at location 2. *)
Definition sample_document : json := JObj [("model", JStr "m"); ("stream", JBool false)].

Definition sample_world : world := snd (PyObj.loads sample_document empty_world).

Definition three_lines : list string :=
  ["data: one"; "data: two"; "data: [DONE]"].

(** ** Vocabulary of further properties *)

(** The request [list_models] sends to the backend. *)
Definition models_call (BASE NIM_KEY : string) : backend_call :=
  {| call_method := "GET"; call_url := BASE +:+ "/v1/models"; call_json := None;
     call_headers := if PyStr.nonempty NIM_KEY
                     then [("Authorization", "Bearer " +:+ NIM_KEY)]
                     else [];
     call_timeout := 30; call_stream := false |}.

(** The exception that ends the [try] block of [list_models], if any: the
    one the client raised, the [HTTPException] made of a status other than
    200, or the one [response.json()] raised. *)
Definition models_failure (reply : backend_reply) : option exn :=
  match reply with
  | Unreachable e => Some e
  | Reply r =>
      if (status_code r =? 200)%Z
      then match resp_json r with
           | Ok _ => None
           | Raise e => Some e
           end
      else Some (HTTPException (status_code r) (text r))
  end.

(** What the two [except] clauses of a generation handler make of the
    exception [e]. *)
Definition except_clauses (name : string) (py_str : exn -> string) (e : exn) : M retval :=
  match e with
  | JSONDecodeError => raise (HTTPException 400 "Invalid JSON in request body")
  | _ =>
      logger_error ("Error in " +:+ name +:+ ": " +:+ py_str e) ;;
      raise (HTTPException 500 (py_str e))
  end.

(** Leaving [async with httpx.AsyncClient()]: the client made in [w] is closed. *)
Definition close_client (w w' : world) : world :=
  set_clients (<[length (clients w) := false]> (clients w')) w'.

(** The words a generation handler uses for itself in the log. *)
Definition endpoint_name (path : string) : string :=
  if String.eqb path "/v1/chat/completions" then "chat completions" else "completions".

(** The document is a JSON object. *)
Definition is_object (j : json) : bool :=
  match j with
  | JObj _ => true
  | _ => false
  end.

(** The name of the type a document loads as. *)
Definition json_type_name (j : json) : string :=
  match j with
  | JNull => "NoneType"
  | JBool _ => "bool"
  | JInt _ => "int"
  | JFloat _ => "float"
  | JStr _ => "str"
  | JArr _ => "list"
  | JObj _ => "dict"
  end.

(** The [AttributeError] a generation handler meets on a document that is
    not an object: a list has no [get], the other types have no [copy]. *)
Definition non_object_error (j : json) : exn :=
  AttributeError ("'" +:+ json_type_name j +:+ "' object has no attribute '" +:+
                  (if container_doc j then "get" else "copy") +:+ "'").

(** A POST whose body [json.loads] cannot decode as text, such as the
    single byte [FF]: [request.json()] raises [UnicodeDecodeError]. *)
Definition undecodable_post (path : string) : Request :=
  {| req_method := "POST"; req_server := local_server; req_path := path; req_query := Ok "";
     req_headers := [("authorization", "Bearer your-proxy-api-key")];
     req_json := Raise UnicodeDecodeError |}.

(** From [w] to [w'], at most [n] requests were sent to the backend, and the
    ones sent before are still on record. *)
Definition calls_within (n : nat) (w w' : world) : Prop :=
  exists cs, sent w' = sent w ++ cs /\ length cs <= n.

Definition sends_at_most {A} (n : nat) (m : M A) : Prop :=
  forall w, calls_within n w (snd (m w)).

(** A path operation function stays within one request to the backend,
    counting what the body iterator it returns will send. *)
Definition handler_sends_at_most_one (m : M retval) : Prop :=
  forall w,
    match fst (m w) with
    | Ok (RetStreaming g _ _) => calls_within 0 w (snd (m w)) /\ sends_at_most 1 g
    | _ => calls_within 1 w (snd (m w))
    end.

(** A path operation function that never returns a streaming response. *)
Definition returns_no_stream (m : M retval) : Prop :=
  forall w, match fst (m w) with
            | Ok (RetStreaming _ _ _) => False
            | _ => True
            end.

(** The two generation endpoints. *)
Inductive endpoint : Type := ChatCompletions | Completions.

Definition endpoint_path (ep : endpoint) : string :=
  match ep with
  | ChatCompletions => "/v1/chat/completions"
  | Completions => "/v1/completions"
  end.

(** The generator of either handler. *)
Definition generate_stream_of (BASE : string) (backend : backend_call -> backend_reply)
    (json_dumps : json -> string) (ep : endpoint)
    : nat -> loc -> list (string * string) -> M unit :=
  match ep with
  | ChatCompletions => chat_completions_generate_stream BASE backend json_dumps
  | Completions => completions_generate_stream BASE backend json_dumps
  end.

(** The streamed request a generator sends for the document [doc]. *)
Definition stream_call (BASE path : string) (doc : json) (hdrs : list (string * string))
    : backend_call :=
  {| call_method := "POST"; call_url := BASE +:+ path; call_json := Some doc;
     call_headers := hdrs; call_timeout := 60; call_stream := true |}.

(** How a generator ends when the backend's stream ends with [failure]. *)
Definition end_of_stream (failure : option exn) : outcome unit :=
  match failure with
  | None => Ok tt
  | Some e => Raise e
  end.

(** The world of [sample_world] with one open client, number 0. *)
Definition open_world : world := set_clients [true] sample_world.

Definition gappy_lines : list string := ["data: one"; ""; "data: [DONE]"].

(** * Properties *)

Import PyObj.

(** ** The store: loading and reading back documents *)

Lemma lookup_last {A} (l : list A) (x : A) : (l ++ [x]) !! length l = Some x.
Proof. by rewrite lookup_app_r, Nat.sub_diag by lia. Qed.

Lemma json_induction (P : json -> Prop) :
  P JNull -> (forall b, P (JBool b)) -> (forall n, P (JInt n)) ->
  (forall x, P (JFloat x)) -> (forall s, P (JStr s)) ->
  (forall items, Forall P items -> P (JArr items)) ->
  (forall members, Forall (fun kv : string * json => P (snd kv)) members -> P (JObj members)) ->
  forall j, P j.
Proof.
  intros Hn Hb Hi Hf Hs Ha Ho. fix IH 1.
  intros [ | b | n | x | s | items | members ].
  - exact Hn.
  - exact (Hb b).
  - exact (Hi n).
  - exact (Hf x).
  - exact (Hs s).
  - apply Ha. induction items as [|x items IHitems]; constructor; [exact (IH x)|exact IHitems].
  - apply Ho. induction members as [|kv members IHmembers]; constructor;
      [exact (IH (snd kv))|exact IHmembers].
Qed.

Lemma dump_mono n : forall h l j m, dump n h l = Some j -> n <= m -> dump m h l = Some j.
Proof.
  induction n as [|n IH]; intros h l j m Hd Hle; [discriminate|].
  destruct m as [|m]; [lia|]. simpl in *.
  destruct (h !! l) as [[ | | | | | ls | kvs]|]; try done.
  - apply fmap_Some in Hd as (js & Hjs & ->). apply fmap_Some. exists js. split; [|done].
    apply mapM_Some. apply mapM_Some in Hjs.
    eapply Forall2_impl; [|exact Hjs]. intros x y Hxy. apply IH; [done|lia].
  - apply fmap_Some in Hd as (js & Hjs & ->). apply fmap_Some. exists js. split; [|done].
    apply mapM_Some. apply mapM_Some in Hjs.
    eapply Forall2_impl; [|exact Hjs]. intros x y Hxy. simpl in *.
    apply fmap_Some in Hxy as (v & Hv & ->). apply fmap_Some. exists v. split; [|done].
    apply IH; [done|lia].
Qed.

Lemma dump_app n : forall h h2 l j, dump n h l = Some j -> dump n (h ++ h2) l = Some j.
Proof.
  induction n as [|n IH]; intros h h2 l j Hd; [discriminate|].
  simpl in *.
  destruct (h !! l) as [o|] eqn:Hl; [|done].
  rewrite (lookup_app_l_Some _ _ _ _ Hl).
  destruct o as [ | | | | | ls | kvs]; try done.
  - apply fmap_Some in Hd as (js & Hjs & ->). apply fmap_Some. exists js. split; [|done].
    apply mapM_Some. apply mapM_Some in Hjs.
    eapply Forall2_impl; [|exact Hjs]. intros x y Hxy. by apply IH.
  - apply fmap_Some in Hd as (js & Hjs & ->). apply fmap_Some. exists js. split; [|done].
    apply mapM_Some. apply mapM_Some in Hjs.
    eapply Forall2_impl; [|exact Hjs]. intros x y Hxy. simpl in *.
    apply fmap_Some in Hxy as (v & Hv & ->). apply fmap_Some. exists v. split; [|done].
    by apply IH.
Qed.

Lemma load_all_spec {A} (f : A -> json) (xs : list A) :
  Forall (fun x => forall h, loaded (f x) h (fst (load (f x) h)) (snd (load (f x) h))) xs ->
  forall h, exists cells,
    snd (load_all (fun a => load (f a)) xs h) = h ++ cells /\
    Forall2 (fun l x => dump (length cells) (h ++ cells) l = Some (f x))
      (fst (load_all (fun a => load (f a)) xs h)) xs.
Proof.
  induction 1 as [|x xs Hx _ IH]; intros h; simpl.
  - exists []. rewrite app_nil_r. split; [done|constructor].
  - destruct (Hx h) as (c1 & Hh1 & Hd1).
    destruct (load (f x) h) as [l h1]; simpl in *. subst h1.
    destruct (IH (h ++ c1)) as (c2 & Hh2 & Hd2).
    destruct (load_all _ xs (h ++ c1)) as [ls h2]; simpl in *. subst h2.
    exists (c1 ++ c2). rewrite app_assoc. split; [done|].
    rewrite length_app. constructor.
    + apply dump_app. eapply dump_mono; [exact Hd1|lia].
    + eapply Forall2_impl; [|exact Hd2]. intros a b Hab. simpl in Hab.
      eapply dump_mono; [exact Hab|lia].
Qed.

Lemma dump_members n h (ls : list loc) (members : list (string * json)) :
  Forall2 (fun l m => dump n h l = Some (snd m)) ls members ->
  mapM (fun kv : string * loc => pair (fst kv) <$> dump n h (snd kv))
    (zip (map fst members) ls) = Some members.
Proof.
  induction 1 as [|l [k v] ls members Hl _ IH]; [done|].
  simpl in *. rewrite Hl. simpl. rewrite IH. done.
Qed.

Lemma load_loaded j : forall h, loaded j h (fst (load j h)) (snd (load j h)).
Proof.
  induction j as [ | b | n | x | s | items IH | members IH ] using json_induction;
    intros h; try (eexists [_]; split; [reflexivity|];
                   simpl; rewrite lookup_app_r, Nat.sub_diag by lia; reflexivity).
  - destruct (load_all_spec id items IH h) as (c & Hh & Hd).
    simpl. change (fun a : json => load (id a)) with load in *.
    destruct (load_all load items h) as [ls h']; simpl in *. subst h'.
    exists (c ++ [OList ls]). rewrite app_assoc. split; [done|].
    rewrite length_app, Nat.add_comm. simpl.
    rewrite lookup_app_r, Nat.sub_diag by lia. simpl.
    apply fmap_Some. exists items. split; [|done]. apply mapM_Some.
    eapply Forall2_impl; [|exact Hd]. intros a b Hab. by apply dump_app.
  - destruct (load_all_spec snd members IH h) as (c & Hh & Hd).
    simpl.
    destruct (load_all _ members h) as [ls h']; simpl in *. subst h'.
    exists (c ++ [ODict (zip (map fst members) ls)]). rewrite app_assoc. split; [done|].
    rewrite length_app, Nat.add_comm. simpl.
    rewrite lookup_app_r, Nat.sub_diag by lia. simpl.
    apply fmap_Some. exists members. split; [|done]. apply dump_members.
    eapply Forall2_impl; [|exact Hd]. intros a b Hab. by apply dump_app.
Qed.

Lemma loaded_denotes j h l h' : loaded j h l h' -> denotes h' l j.
Proof.
  intros (cells & -> & Hd). unfold denotes.
  eapply dump_mono; [exact Hd|]. rewrite length_app. lia.
Qed.

Lemma denotes_app h h2 x j : denotes h x j -> denotes (h ++ h2) x j.
Proof.
  unfold denotes. intros Hd. apply dump_app.
  eapply dump_mono; [exact Hd|]. rewrite length_app. lia.
Qed.

(** What the object at the root of a document looks like. *)
Lemma dump_root n h x j :
  dump n h x = Some j ->
  exists o, h !! x = Some o /\ truth o = json_truth j /\ copyable o = container_doc j.
Proof.
  destruct n as [|n]; [discriminate|]. simpl.
  destruct (h !! x) as [o|]; [|discriminate]. intros Hd. exists o. split; [done|].
  destruct o as [ | | | | | ls | kvs]; simplify_eq; try done.
  - apply fmap_Some in Hd as (js & Hjs & ->). apply mapM_Some in Hjs.
    destruct Hjs; done.
  - apply fmap_Some in Hd as (js & Hjs & ->). apply mapM_Some in Hjs.
    destruct Hjs; done.
Qed.

Lemma dump_dict n h x members :
  dump n h x = Some (JObj members) ->
  exists kvs n', n = S n' /\ h !! x = Some (ODict kvs) /\
    mapM (fun kv : string * loc => pair (fst kv) <$> dump n' h (snd kv)) kvs = Some members.
Proof.
  destruct n as [|n]; [discriminate|]. simpl.
  destruct (h !! x) as [[ | | | | | ls | kvs]|]; try discriminate.
  - intros Hd. apply fmap_Some in Hd as (js & _ & ?). discriminate.
  - intros Hd. apply fmap_Some in Hd as (js & Hjs & ?). simplify_eq.
    by exists kvs, n.
Qed.

Lemma members_lookup n h key kvs members :
  mapM (fun kv : string * loc => pair (fst kv) <$> dump n h (snd kv)) kvs = Some members ->
  match dict_lookup key kvs with
  | Some lv => exists v, json_lookup key members = Some v /\ dump n h lv = Some v
  | None => json_lookup key members = None
  end.
Proof.
  intros Hm. apply mapM_Some in Hm. unfold dict_lookup, json_lookup.
  induction Hm as [|[k l] m kvs members Hkm _ IH]; [done|].
  simpl in Hkm. apply fmap_Some in Hkm as (v & Hv & ->). simpl.
  destruct (String.eqb key k); [|exact IH]. simpl. by exists v.
Qed.

Lemma denotes_copy h x o j :
  h !! x = Some o -> denotes h x j -> denotes (h ++ [o]) (length h) j.
Proof.
  unfold denotes. intros Hx Hd. rewrite length_app, Nat.add_1_r.
  destruct (length h) as [|n] eqn:Hn; [discriminate|].
  rewrite <- Hn. simpl in Hd. rewrite Hx in Hd.
  change (dump (S (length h)) (h ++ [o]) (length h))
    with (match (h ++ [o]) !! length h with
          | None => None
          | Some ONone => Some JNull
          | Some (OBool b) => Some (JBool b)
          | Some (OInt z) => Some (JInt z)
          | Some (OFloat x) => Some (JFloat x)
          | Some (OStr s) => Some (JStr s)
          | Some (OList ls) => JArr <$> mapM (dump (length h) (h ++ [o])) ls
          | Some (ODict kvs) =>
              JObj <$> mapM (fun kv : string * loc =>
                               pair (fst kv) <$> dump (length h) (h ++ [o]) (snd kv)) kvs
          end).
  rewrite lookup_app_r, Nat.sub_diag by lia. simpl.
  destruct o as [ | | | | | ls | kvs]; try done.
  - apply fmap_Some in Hd as (js & Hjs & ->). apply fmap_Some. exists js. split; [|done].
    apply mapM_Some. apply mapM_Some in Hjs.
    eapply Forall2_impl; [|exact Hjs]. intros a b Hab.
    apply dump_app. eapply dump_mono; [exact Hab|lia].
  - apply fmap_Some in Hd as (js & Hjs & ->). apply fmap_Some. exists js. split; [|done].
    apply mapM_Some. apply mapM_Some in Hjs.
    eapply Forall2_impl; [|exact Hjs]. intros a b Hab. simpl in *.
    apply fmap_Some in Hab as (v & Hv & ->). apply fmap_Some. exists v. split; [|done].
    apply dump_app. eapply dump_mono; [exact Hv|lia].
Qed.

(** ** The steps of a handler *)

Lemma loads_returns j w :
  loads j w = (Ok (fst (load j (heap w))), set_heap (snd (load j (heap w))) w).
Proof. unfold loads. by destruct (load j (heap w)). Qed.

Lemma copy_returns x o w :
  heap w !! x = Some o -> copyable o = true ->
  copy x w = (Ok (length (heap w)), set_heap (heap w ++ [o]) w).
Proof.
  intros Hx Hc. unfold copy, bind, deref. rewrite Hx.
  by destruct o.
Qed.

Lemma translate_request_returns x o w :
  heap w !! x = Some o -> copyable o = true ->
  translate_request x w = (Ok (length (heap w)), set_heap (heap w ++ [o]) w).
Proof.
  intros Hx Hc. unfold translate_request, bind.
  rewrite (copy_returns x o w Hx Hc).
  unfold contains, bind, deref, get_heap, ret. simpl.
  rewrite lookup_app_r, Nat.sub_diag by lia. simpl.
  destruct o; try done.
  - by destruct (existsb _ _).
  - by destruct (bool_decide _).
Qed.


Lemma get_returns x kvs key w :
  heap w !! x = Some (ODict kvs) -> get x key w = (Ok (dict_lookup key kvs), w).
Proof. intros Hx. unfold get, bind, deref. by rewrite Hx. Qed.

Lemma encode_returns l j w :
  denotes (heap w) l j -> json_error j = None -> encode l w = (Ok j, w).
Proof. unfold denotes, encode. by intros -> ->. Qed.


(** ** Strings *)

Lemma append_cons c s t : String c s +:+ t = String c (s +:+ t).
Proof. reflexivity. Qed.

Lemma append_nil_r s : s +:+ "" = s.
Proof. induction s as [|c s IH]; [done|by rewrite append_cons, IH]. Qed.

Lemma append_assoc s1 s2 s3 : (s1 +:+ s2) +:+ s3 = s1 +:+ (s2 +:+ s3).
Proof. induction s1 as [|c s1 IH]; [done|by rewrite !append_cons, IH]. Qed.

Lemma prefix_nil s : String.prefix "" s = true.
Proof. by destruct s. Qed.

Lemma prefix_append p : forall s, String.prefix p s = true -> exists rest, s = p +:+ rest.
Proof.
  induction p as [|a p IH]; intros s Hp.
  - by exists s.
  - destruct s as [|b s]; [discriminate|]. simpl in Hp.
    destruct (ascii_dec a b) as [->|]; [|discriminate].
    destruct (IH s Hp) as [rest ->]. exists rest. by rewrite append_cons.
Qed.

Lemma split_from_cons sep k cur s : exists x xs, PyStr.split_from sep k cur s = x :: xs.
Proof.
  revert k cur. induction s as [|c s IH]; intros k cur; simpl; [by exists cur, []|].
  destruct k; [|by apply IH].
  destruct (match sep with "" => true | String _ _ => _ end); [by eexists _, _|by apply IH].
Qed.

(** A header that starts with [Bearer ] splits into at least two pieces. *)
Lemma split_bearer h :
  PyStr.startswith h "Bearer " = true ->
  exists token rest, PyStr.split h "Bearer " = "" :: token :: rest.
Proof.
  intros Hp. apply prefix_append in Hp as [t ->].
  unfold PyStr.split. rewrite !append_cons. change ("" +:+ t) with t. simpl.
  destruct (split_from_cons "Bearer " 0 "" t) as (x & xs & ->).
  rewrite prefix_nil. by exists x, xs.
Qed.

(** Without a second [Bearer ] inside, the piece read is the whole token. *)
Lemma split_from_whole sep t :
  forall cur, is_substring sep t = false -> PyStr.split_from sep 0 cur t = [cur +:+ t].
Proof.
  induction t as [|c t IH]; intros cur Hs; simpl.
  - by rewrite append_nil_r.
  - simpl in Hs. apply orb_false_iff in Hs as [Hp Hs].
    change (match sep with "" => true | String a s1' =>
             match ascii_dec a c with left _ => String.prefix s1' t | right _ => false end end)
      with (String.prefix sep (String c t)) in *.
    rewrite Hp. rewrite (IH _ Hs). by rewrite append_assoc.
Qed.

(** ** The credential gate *)

Lemma authenticate_request_returns key request :
  exists b, forall w, authenticate_request key request w = (Ok b, w).
Proof.
  unfold authenticate_request.
  destruct (Starlette.headers_get request "authorization") as [h|]; [|by eexists].
  destruct (negb (PyStr.nonempty h) || negb (PyStr.startswith h "Bearer ")) eqn:Hc;
    [by eexists|].
  apply orb_false_iff in Hc as [_ Hp]. apply negb_false_iff in Hp.
  destruct (split_bearer h Hp) as (token & rest & ->).
  by eexists.
Qed.

Lemma bearer_token_exact key token request w :
  Starlette.headers_get request "authorization" = Some ("Bearer " +:+ token) ->
  is_substring "Bearer " token = false ->
  authenticate_request key request w = (Ok (String.eqb token key), w).
Proof.
  intros Hh Hs. unfold authenticate_request. rewrite Hh.
  unfold PyStr.split. rewrite !append_cons. change ("" +:+ token) with token. simpl.
  unfold PyStr.startswith. rewrite !prefix_nil, (split_from_whole _ _ "" Hs). reflexivity.
Qed.

Lemma url_path_accepted check request :
  Starlette.url_error check request = None ->
  Starlette.url_path check request = Ok (Urllib.path (Starlette.url request)).
Proof. unfold Starlette.url_path. by intros ->. Qed.

Lemma url_path_ok check request path :
  Starlette.url_path check request = Ok path -> Starlette.url_error check request = None.
Proof. unfold Starlette.url_path. by destruct (Starlette.url_error check request). Qed.

(** The rejection is a literal that renders. *)
Lemma auth_error_made :
  Starlette.JSONResponse 401
    (JObj [("error", JObj [("message", JStr "Invalid API key");
                           ("type", JStr "invalid_request_error")])]) = ret auth_error.
Proof. reflexivity. Qed.

Lemma gate_rejects key check request call_next path w :
  Starlette.url_path check request = Ok path ->
  PyStr.mem path unauthenticated_paths = false ->
  fst (authenticate_request key request w) = Ok false ->
  auth_middleware key check request call_next w = (Ok auth_error, w).
Proof.
  intros Hu Hp Ha. unfold auth_middleware, of_outcome. unfold bind at 1. rewrite Hu.
  change ["/"; "/health"; "/docs"; "/openapi.json"] with unauthenticated_paths.
  rewrite Hp. unfold bind.
  destruct (authenticate_request_returns key request) as [b Hb].
  rewrite Hb in *. simpl in Ha. by simplify_eq.
Qed.

Lemma gate_bypass key check request call_next path w :
  Starlette.url_path check request = Ok path ->
  PyStr.mem path unauthenticated_paths = true ->
  auth_middleware key check request call_next w = call_next request w.
Proof.
  intros Hu Hp. unfold auth_middleware, of_outcome. unfold bind at 1. rewrite Hu.
  change ["/"; "/health"; "/docs"; "/openapi.json"] with unauthenticated_paths.
  by rewrite Hp.
Qed.

(** With the credential the gate is passed, whatever the path it reads. *)
Lemma gate_passes key check request call_next w :
  Starlette.url_error check request = None ->
  fst (authenticate_request key request w) = Ok true ->
  auth_middleware key check request call_next w = call_next request w.
Proof.
  intros Hu Ha. apply url_path_accepted in Hu.
  unfold auth_middleware, of_outcome. unfold bind at 1. rewrite Hu.
  destruct (PyStr.mem _ _); [done|]. unfold bind.
  destruct (authenticate_request_returns key request) as [b Hb].
  rewrite Hb in *. simpl in Ha. by simplify_eq.
Qed.

(** When the check of the authority fails, the gate raises and lets nothing
    through. *)
Lemma gate_raises key check request call_next e w :
  Starlette.url_path check request = Raise e ->
  auth_middleware key check request call_next w = (Raise e, w).
Proof.
  intros Hu. unfold auth_middleware, of_outcome. unfold bind at 1. by rewrite Hu.
Qed.

Lemma mem_unauthenticated path :
  In path unauthenticated_paths -> PyStr.mem path unauthenticated_paths = true.
Proof.
  intros Hin. simpl in Hin.
  destruct Hin as [<-|[<-|[<-|[<-|[]]]]]; reflexivity.
Qed.

(** A route that returns a literal dict answers 200 with that document. *)
Lemma route_literal j w :
  json_error j = None ->
  FastAPI.route (let* r := loads j in ret (RetObj r)) w =
  (Ok (Starlette.json_response 200 j), set_heap (snd (load j (heap w))) w).
Proof.
  intros Hj. unfold FastAPI.route, bind. rewrite loads_returns.
  unfold ret, FastAPI.render, bind.
  rewrite (encode_returns _ j); [done| |done].
  simpl. apply loaded_denotes with (h := heap w). apply load_loaded.
Qed.

(** C9: a rejection by the credential gate does not depend on the configured
    credential nor on what was presented.  Take two runs in which the path
    the gate reads, [request.url.path], is not allow-listed, with any two
    configured credentials, any two requests and any two downstream
    applications; if the credential check fails in both, both answer the
    same response, the fixed 401 with the body
    [{"error": {"message": "Invalid API key", "type": "invalid_request_error"}}]. *)
Theorem gate_rejection_independent_of_secret
    (netloc_error : string -> option exn)
    (key1 key2 : string) (req1 req2 : Request) (path1 path2 : string)
    (next1 next2 : Request -> M http_response) (w1 w2 : world) :
  Starlette.url_path netloc_error req1 = Ok path1 ->
  Starlette.url_path netloc_error req2 = Ok path2 ->
  PyStr.mem path1 unauthenticated_paths = false ->
  PyStr.mem path2 unauthenticated_paths = false ->
  fst (authenticate_request key1 req1 w1) = Ok false ->
  fst (authenticate_request key2 req2 w2) = Ok false ->
  fst (auth_middleware key1 netloc_error req1 next1 w1) =
    fst (auth_middleware key2 netloc_error req2 next2 w2) /\
  fst (auth_middleware key1 netloc_error req1 next1 w1) =
    Ok {| status := 401; media_type := "application/json"; headers := [];
          content := BodyJSON
            (JObj [("error", JObj [("message", JStr "Invalid API key");
                                   ("type", JStr "invalid_request_error")])]) |}.
Proof.
  intros Hu1 Hu2 Hp1 Hp2 Ha1 Ha2.
  rewrite (gate_rejects key1 _ req1 next1 path1 w1 Hu1 Hp1 Ha1).
  rewrite (gate_rejects key2 _ req2 next2 path2 w2 Hu2 Hp2 Ha2).
  split; reflexivity.
Qed.

Lemma gate_rejection_independent_of_secret_witness :
  fst (auth_middleware "first-secret" bracket_check (post_request "/v1/models" None None)
         (fun _ => raise IndexError) empty_world) =
  fst (auth_middleware "second-secret" bracket_check
         (post_request "/v1/completions" (Some "Bearer first-secret") None)
         (fun _ => ret auth_error) empty_world) /\
  fst (auth_middleware "first-secret" bracket_check (post_request "/v1/models" None None)
         (fun _ => raise IndexError) empty_world) =
    Ok {| status := 401; media_type := "application/json"; headers := [];
          content := BodyJSON
            (JObj [("error", JObj [("message", JStr "Invalid API key");
                                   ("type", JStr "invalid_request_error")])]) |}.
Proof.
  apply (gate_rejection_independent_of_secret bracket_check
           "first-secret" "second-secret"
           (post_request "/v1/models" None None)
           (post_request "/v1/completions" (Some "Bearer first-secret") None)
           "/v1/models" "/v1/completions");
    vm_compute; reflexivity.
Defined.

(** C8: the allow-list is not tested on the path the request is routed by.
    The gate reads [request.url.path], which Starlette puts together from
    the [Host] header and the path: GET /health with the header
    [Host: x/private?] and no [Authorization] header is read as a request
    for [/private] and gets the 401 of the gate, whatever the configuration;
    the health check is not called. *)
Theorem host_header_defeats_allow_list
    (BASE NIM_KEY KEY : string) (backend : backend_call -> backend_reply)
    (py_str : exn -> string) (json_dumps : json -> string)
    (framework_route : Request -> http_response)
    (call_next : Request -> M http_response) (w : world) :
  auth_middleware KEY bracket_check
    {| req_method := "GET"; req_server := local_server; req_path := "/health"; req_query := Ok "";
       req_headers := [("host", "x/private?")]; req_json := Raise JSONDecodeError |}
    call_next w =
  (Ok {| status := 401; media_type := "application/json"; headers := [];
         content := BodyJSON
           (JObj [("error", JObj [("message", JStr "Invalid API key");
                                  ("type", JStr "invalid_request_error")])]) |}, w) /\
  app BASE NIM_KEY KEY backend py_str json_dumps bracket_check framework_route
    {| req_method := "GET"; req_server := local_server; req_path := "/health"; req_query := Ok "";
       req_headers := [("host", "x/private?")]; req_json := Raise JSONDecodeError |} w =
  ({| status := 401; media_type := "application/json"; headers := [];
      content := BodyJSON
        (JObj [("error", JObj [("message", JStr "Invalid API key");
                               ("type", JStr "invalid_request_error")])]) |}, w).
Proof.
  assert (Hgate : forall next,
            auth_middleware KEY bracket_check
              {| req_method := "GET"; req_server := local_server; req_path := "/health"; req_query := Ok "";
                 req_headers := [("host", "x/private?")];
                 req_json := Raise JSONDecodeError |} next w = (Ok auth_error, w)).
  { intros next. apply gate_rejects with (path := "/private"); reflexivity. }
  split; [apply Hgate|].
  unfold app, FastAPI.server_error_middleware. by rewrite Hgate.
Qed.

(** C1: the gate does not reject every token that differs from the
    credential.  [auth_header.split("Bearer ")[1]] is the text between the
    first and the second [Bearer ], so the token
    [your-proxy-api-keyBearer x] is read as [your-proxy-api-key]: against
    that credential the request goes through to the application, whatever
    it is. *)
Theorem truncated_bearer_token_passes_gate
    (call_next : Request -> M http_response) (w : world) :
  auth_middleware "your-proxy-api-key" bracket_check
    (post_request "/v1/chat/completions" (Some "Bearer your-proxy-api-keyBearer x") None)
    call_next w =
  call_next
    (post_request "/v1/chat/completions" (Some "Bearer your-proxy-api-keyBearer x") None)
    w.
Proof.
  assert (Hauth : authenticate_request "your-proxy-api-key"
            (post_request "/v1/chat/completions"
               (Some "Bearer your-proxy-api-keyBearer x") None) w = (Ok true, w))
    by (vm_compute; reflexivity).
  apply gate_passes; [reflexivity|]. by rewrite Hauth.
Qed.

(** ** The translators *)










(** ** The relay handlers *)

(** The two handlers of the source are the relay at their endpoint. *)
Lemma chat_completions_is_relay BASE NIM_KEY backend py_str json_dumps request :
  chat_completions BASE NIM_KEY backend py_str json_dumps request =
  relay_handler BASE NIM_KEY backend py_str json_dumps
    "/v1/chat/completions" "chat completions" request.
Proof. reflexivity. Qed.

Lemma completions_is_relay BASE NIM_KEY backend py_str json_dumps request :
  completions BASE NIM_KEY backend py_str json_dumps request =
  relay_handler BASE NIM_KEY backend py_str json_dumps
    "/v1/completions" "completions" request.
Proof. reflexivity. Qed.

(** The [stream] flag read from the loaded dict is the flag of the document. *)
Lemma if_is_stream_returns n h kvs members w :
  mapM (fun kv : string * loc => pair (fst kv) <$> dump n h (snd kv)) kvs = Some members ->
  (forall (l : loc) o, h !! l = Some o -> heap w !! l = Some o) ->
  if_is_stream (dict_lookup "stream" kvs) w = (Ok (stream_flag members), w).
Proof.
  intros Hm Hext. pose proof (members_lookup n h "stream" kvs members Hm) as Hl.
  unfold stream_flag, if_is_stream.
  destruct (dict_lookup "stream" kvs) as [lv|]; [|by rewrite Hl].
  destruct Hl as (v & -> & Hd).
  apply dump_root in Hd as (o & Ho & Ht & _).
  unfold truthy, bind, deref, ret. cbv beta. rewrite (Hext _ _ Ho). by rewrite Ht.
Qed.

(** The steps every request with a JSON object takes, up to the test of the
    [stream] flag.  Leaves the goal at the branch on the flag, with the
    client [length (clients w)] open, and hands the worlds passed through to
    the continuation [k]. *)
Ltac relay_ingress Hreq members w k :=
  let Hd1 := fresh "Hd1" in let E1 := fresh "E1" in
  let l1 := fresh "l1" in let h1 := fresh "h1" in
  let kvs := fresh "kvs" in let n' := fresh "n'" in
  let Hn := fresh "Hn" in let Hl1 := fresh "Hl1" in let Hm := fresh "Hm" in
  let E2 := fresh "E2" in let Hl1' := fresh "Hl1'" in let E3 := fresh "E3" in
  let E4 := fresh "E4" in let Hd2 := fresh "Hd2" in
  let w1 := fresh "w1" in let w2 := fresh "w2" in let w3 := fresh "w3" in
  pose proof (loaded_denotes _ _ _ _ (load_loaded (JObj members) (heap w))) as Hd1;
  pose proof (loads_returns (JObj members) w) as E1;
  destruct (load (JObj members) (heap w)) as [l1 h1]; simpl in Hd1, E1;
  destruct (dump_dict _ _ _ _ Hd1) as (kvs & n' & Hn & Hl1 & Hm);
  set (w1 := set_heap h1 w) in *;
  pose proof (translate_request_returns l1 (ODict kvs) w1 Hl1 eq_refl) as E2;
  set (w2 := set_heap (heap w1 ++ [ODict kvs]) w1) in *;
  assert (Hl1' : heap w2 !! l1 = Some (ODict kvs)) by (by apply lookup_app_l_Some);
  pose proof (get_returns l1 kvs "stream" w2 Hl1') as E3;
  set (w3 := set_clients (clients w2 ++ [true]) w2) in *;
  assert (E4 : if_is_stream (dict_lookup "stream" kvs) w3 = (Ok (stream_flag members), w3))
    by (apply (if_is_stream_returns n' h1 kvs members); [done|];
        intros ? ? ?; by apply lookup_app_l_Some);
  assert (Hd2 : denotes (heap w3) (length (heap w1)) (JObj members))
    by (by apply denotes_copy with (x := l1));
  unfold FastAPI.route, relay_handler, try_except, Starlette.request_json;
  rewrite Hreq; unfold bind at 1; rewrite E1; unfold bind at 1; rewrite E2;
  unfold bind at 1; rewrite E3;
  unfold Httpx.with_AsyncClient; fold w3;
  unfold bind at 1; rewrite E4;
  k w1 w2 w3.

(** ... and, with the flag false, up to the backend's reply. *)
Ltac relay_buffered Hreq Hok Hflag Hback BASE NIM_KEY path members w :=
  relay_ingress Hreq members w ltac:(fun w1 w2 w3 =>
    let w4 := fresh "w4" in
    rewrite Hflag; cbv iota;
    unfold bind at 1; unfold Httpx.post; unfold bind at 1;
    rewrite (encode_returns _ (JObj members)) by done;
    unfold Httpx.send;
    change (clients w3 !! length (clients w2))
      with ((clients w2 ++ [true]) !! length (clients w2));
    rewrite lookup_last; cbv iota beta;
    change {| call_method := "POST"; call_url := BASE +:+ path;
              call_json := Some (JObj members); call_headers := nim_headers NIM_KEY;
              call_timeout := 60; call_stream := false |}
      with (generation_call BASE NIM_KEY path (JObj members) false);
    rewrite Hback;
    set (w4 := add_sent (generation_call BASE NIM_KEY path (JObj members) false) w3) in *;
    cbv iota beta).


(** The handler of [HTTPException] answers with the detail when the detail
    can be encoded, and raises otherwise. *)
Lemma http_exception_handler_returns code detail w :
  FastAPI.http_exception_handler code detail w =
  if PyStr.encodable detail
  then (Ok (Starlette.json_response code (JObj [("detail", JStr detail)])), w)
  else (Raise UnicodeEncodeError, w).
Proof.
  unfold FastAPI.http_exception_handler, Starlette.JSONResponse, json_error. simpl.
  rewrite !andb_true_r. by destruct (PyStr.encodable detail).
Qed.

(** A backend status other than 200 is raised as an [HTTPException] inside
    the [try] block, where [except Exception] catches it: the caller gets
    500, and the backend's status only inside the detail text. *)
Lemma relay_buffered_error BASE NIM_KEY backend py_str json_dumps path name
    request members r w :
  req_json request = Ok (JObj members) ->
  json_error (JObj members) = None ->
  stream_flag members = false ->
  backend (generation_call BASE NIM_KEY path (JObj members) false) = Reply r ->
  status_code r <> 200%Z ->
  PyStr.encodable (py_str (HTTPException (status_code r) (text r))) = true ->
  fst (FastAPI.route
         (relay_handler BASE NIM_KEY backend py_str json_dumps path name request) w)
  = Ok (Starlette.json_response 500
          (JObj [("detail", JStr (py_str (HTTPException (status_code r) (text r))))])).
Proof.
  intros Hreq Hok Hflag Hback Hst Henc.
  relay_buffered Hreq Hok Hflag Hback BASE NIM_KEY path members w.
  apply Z.eqb_neq in Hst. rewrite Hst. cbv iota. unfold bind, logger_error, raise.
  rewrite http_exception_handler_returns, Henc. reflexivity.
Qed.




(** ** The streaming path *)

Lemma add_outs_cons c chunks w : add_outs chunks (add_out c w) = add_outs (c :: chunks) w.
Proof. unfold add_outs, add_out. simpl. by rewrite <- app_assoc. Qed.

Lemma forward_loop lines : forall w,
  for_each lines (fun chunk => if PyStr.nonempty chunk then yield_ (chunk +:+ nl) else ret tt) w
  = (Ok tt, add_outs (forwarded lines) w).
Proof.
  induction lines as [|line lines IH]; intros w.
  - unfold add_outs, forwarded. simpl. rewrite app_nil_r. by destruct w.
  - simpl. unfold bind at 1. unfold forwarded. simpl.
    destruct (PyStr.nonempty line); unfold yield_, ret; rewrite IH.
    + by rewrite add_outs_cons.
    + reflexivity.
Qed.

(** With its client open, the generator forwards the backend's non-empty
    lines in order, each as one chunk ended by a line feed. *)
Lemma generate_stream_forwards BASE backend json_dumps path client nim_request hdrs
    doc r w :
  clients w !! client = Some true ->
  denotes (heap w) nim_request doc ->
  backend {| call_method := "POST"; call_url := BASE +:+ path; call_json := Some doc;
             call_headers := hdrs; call_timeout := 60; call_stream := true |} = Reply r ->
  json_error doc = None ->
  status_code r = 200%Z -> aiter_failure r = None ->
  relay_generate_stream BASE backend json_dumps path client nim_request hdrs w =
  (Ok tt,
   add_outs (forwarded (aiter_lines r))
     (add_sent {| call_method := "POST"; call_url := BASE +:+ path; call_json := Some doc;
                  call_headers := hdrs; call_timeout := 60; call_stream := true |} w)).
Proof.
  intros Hc Hd Hb Hok Hst Hf.
  unfold relay_generate_stream, Httpx.stream. unfold bind at 1. unfold bind at 1.
  rewrite (encode_returns _ doc) by done. unfold Httpx.send. rewrite Hc, Hb, Hst.
  change (negb (200 =? 200)%Z) with false. cbv iota beta.
  unfold Httpx.for_aiter_lines, bind. rewrite forward_loop, Hf. reflexivity.
Qed.

(** With its client open, the generator answers a backend error with the
    one error event and stops. *)
Lemma generate_stream_error_event BASE backend json_dumps path client nim_request hdrs
    doc r error_text w :
  clients w !! client = Some true ->
  denotes (heap w) nim_request doc ->
  backend {| call_method := "POST"; call_url := BASE +:+ path; call_json := Some doc;
             call_headers := hdrs; call_timeout := 60; call_stream := true |} = Reply r ->
  json_error doc = None ->
  status_code r <> 200%Z -> aread_decode r = Ok error_text ->
  relay_generate_stream BASE backend json_dumps path client nim_request hdrs w =
  (Ok tt,
   add_out (error_event json_dumps error_text)
     (add_sent {| call_method := "POST"; call_url := BASE +:+ path; call_json := Some doc;
                  call_headers := hdrs; call_timeout := 60; call_stream := true |} w)).
Proof.
  intros Hc Hd Hb Hok Hst Ha. apply Z.eqb_neq in Hst.
  unfold relay_generate_stream, Httpx.stream. unfold bind at 1. unfold bind at 1.
  rewrite (encode_returns _ doc) by done. unfold Httpx.send. rewrite Hc, Hb, Hst.
  change (negb false) with true. cbv iota beta.
  unfold Httpx.aread_then_decode, bind. rewrite Ha. reflexivity.
Qed.

(** But the generator runs once the handler has returned, and the handler
    returns through [async with httpx.AsyncClient()], which closes the
    client: every streaming request ends in a response of status 200 whose
    body is cut before its first chunk, and the backend is not called. *)
Lemma relay_streaming_never_starts BASE NIM_KEY backend py_str json_dumps path name
    request members w :
  req_json request = Ok (JObj members) ->
  json_error (JObj members) = None ->
  stream_flag members = true ->
  exists w',
    FastAPI.route
      (relay_handler BASE NIM_KEY backend py_str json_dumps path name request) w
    = (Ok aborted_stream, w') /\ sent w' = sent w /\ out w' = out w.
Proof.
  intros Hreq Hok Hflag.
  relay_ingress Hreq members w ltac:(fun w1 w2 w3 =>
    rewrite Hflag; cbv iota; unfold ret at 1; cbv iota beta;
    unfold FastAPI.render, Starlette.send_streaming;
    unfold relay_generate_stream, Httpx.stream; unfold bind at 1; unfold bind at 1;
    rewrite (encode_returns _ (JObj members)) by done;
    unfold Httpx.send;
    change (clients (set_clients ?c w3)) with c;
    change (clients w3) with (clients w2 ++ [true]);
    rewrite list_lookup_insert_eq by (rewrite length_app; simpl; lia);
    cbv iota beta; rewrite drop_all;
    eexists; split; [reflexivity|split; reflexivity]).
Qed.

(** C3: no line of a streamed backend response reaches the caller.  With
    the credential, a request with [stream] true, and a backend that would
    answer 200 with three lines, both generation endpoints send a response
    of status 200 whose body is cut before its first chunk by the
    [RuntimeError] of the closed client; the backend is not called. *)
Theorem streamed_lines_never_forwarded
    (py_str : exn -> string) (json_dumps : json -> string)
    (framework_route : Request -> http_response) :
  app base_url "" proxy_key (always (plain_response 200 "" None three_lines))
    py_str json_dumps bracket_check framework_route
    (post_request "/v1/chat/completions" valid_auth (Some (JObj [("stream", JBool true)])))
    empty_world
  = ({| status := 200; media_type := "text/plain";
        headers := [("Cache-Control", "no-cache"); ("Connection", "keep-alive")];
        content := BodyStream []
          (Some (RuntimeError "Cannot send a request, as the client has been closed.")) |},
     {| heap := [OBool true; ODict [("stream", 0)]; ODict [("stream", 0)]];
        clients := [false]; sent := []; out := []; errlog := [] |}) /\
  app base_url "" proxy_key (always (plain_response 200 "" None three_lines))
    py_str json_dumps bracket_check framework_route
    (post_request "/v1/completions" valid_auth (Some (JObj [("stream", JBool true)])))
    empty_world
  = ({| status := 200; media_type := "text/plain";
        headers := [("Cache-Control", "no-cache"); ("Connection", "keep-alive")];
        content := BodyStream []
          (Some (RuntimeError "Cannot send a request, as the client has been closed.")) |},
     {| heap := [OBool true; ODict [("stream", 0)]; ODict [("stream", 0)]];
        clients := [false]; sent := []; out := []; errlog := [] |}).
Proof. split; vm_compute; reflexivity. Qed.

(** C6: the terminal error event of a streaming request is never sent.  With
    the credential, a request with [stream] true, and a backend that would
    answer 503 with the body [overloaded], both generation endpoints send a
    response of status 200 with no chunk at all, cut by the [RuntimeError]
    of the closed client; the backend is not called, so its error body is
    never read. *)
Theorem streamed_error_event_never_sent
    (py_str : exn -> string) (json_dumps : json -> string)
    (framework_route : Request -> http_response) :
  app base_url "" proxy_key (always (plain_response 503 "overloaded" None []))
    py_str json_dumps bracket_check framework_route
    (post_request "/v1/chat/completions" valid_auth (Some (JObj [("stream", JBool true)])))
    empty_world
  = ({| status := 200; media_type := "text/plain";
        headers := [("Cache-Control", "no-cache"); ("Connection", "keep-alive")];
        content := BodyStream []
          (Some (RuntimeError "Cannot send a request, as the client has been closed.")) |},
     {| heap := [OBool true; ODict [("stream", 0)]; ODict [("stream", 0)]];
        clients := [false]; sent := []; out := []; errlog := [] |}) /\
  app base_url "" proxy_key (always (plain_response 503 "overloaded" None []))
    py_str json_dumps bracket_check framework_route
    (post_request "/v1/completions" valid_auth (Some (JObj [("stream", JBool true)])))
    empty_world
  = ({| status := 200; media_type := "text/plain";
        headers := [("Cache-Control", "no-cache"); ("Connection", "keep-alive")];
        content := BodyStream []
          (Some (RuntimeError "Cannot send a request, as the client has been closed.")) |},
     {| heap := [OBool true; ODict [("stream", 0)]; ODict [("stream", 0)]];
        clients := [false]; sent := []; out := []; errlog := [] |}).
Proof. split; vm_compute; reflexivity. Qed.

(** ** The two endpoints side by side *)

Lemma sim_refl w : sim w w.
Proof. by repeat split. Qed.

Lemma simM_ret {A} (R : A -> A -> Prop) a1 a2 : R a1 a2 -> simM R (ret a1) (ret a2).
Proof. intros HR w1 w2 Hw. by split. Qed.

Lemma simM_raise {A} (R : A -> A -> Prop) e : simM R (raise e) (raise e).
Proof. intros w1 w2 Hw. by split. Qed.

Lemma simM_bind {A B} (RA : A -> A -> Prop) (RB : B -> B -> Prop) m1 m2 k1 k2 :
  simM RA m1 m2 -> (forall a1 a2, RA a1 a2 -> simM RB (k1 a1) (k2 a2)) ->
  simM RB (bind m1 k1) (bind m2 k2).
Proof.
  intros Hm Hk w1 w2 Hw. unfold bind. specialize (Hm w1 w2 Hw).
  destruct (m1 w1) as [[a1|e1] w1'], (m2 w2) as [[a2|e2] w2']; try done.
  destruct Hm as [Ha Hw']. by apply Hk.
Qed.

Lemma simM_try_except {A} (R : A -> A -> Prop) b1 b2 h1 h2 :
  simM R b1 b2 ->
  (forall e, match h1 e, h2 e with
             | Some m1, Some m2 => simM R m1 m2
             | None, None => True
             | _, _ => False
             end) ->
  simM R (try_except b1 h1) (try_except b2 h2).
Proof.
  intros Hb Hh w1 w2 Hw. unfold try_except. specialize (Hb w1 w2 Hw).
  destruct (b1 w1) as [[a1|e1] w1'], (b2 w2) as [[a2|e2] w2']; try done.
  destruct Hb as [-> Hw']. specialize (Hh e2).
  destruct (h1 e2), (h2 e2); try done. by apply Hh.
Qed.

Lemma simM_with_AsyncClient {A} (R : A -> A -> Prop) b1 b2 :
  (forall client, simM R (b1 client) (b2 client)) ->
  simM R (Httpx.with_AsyncClient b1) (Httpx.with_AsyncClient b2).
Proof.
  intros Hb w1 w2 (Hh & Hc & Ho). unfold Httpx.with_AsyncClient. rewrite Hc.
  assert (Hs : sim (set_clients (clients w2 ++ [true]) w1)
                   (set_clients (clients w2 ++ [true]) w2)) by (by repeat split).
  specialize (Hb (length (clients w2)) _ _ Hs).
  destruct (b1 _ _) as [[a1|e1] w1'], (b2 _ _) as [[a2|e2] w2']; try done;
    destruct Hb as [HR (Hh' & Hc' & Ho')]; (split; [done|]);
    repeat split; simpl; congruence.
Qed.

Lemma simM_loads j : simM eq (loads j) (loads j).
Proof.
  intros w1 w2 (Hh & Hc & Ho). unfold loads. rewrite Hh.
  destruct (load j (heap w2)). by repeat split.
Qed.

Lemma simM_deref x : simM eq (deref x) (deref x).
Proof.
  intros w1 w2 (Hh & Hc & Ho). unfold deref. rewrite Hh.
  destruct (heap w2 !! x); by repeat split.
Qed.

Lemma simM_alloc o : simM eq (alloc o) (alloc o).
Proof.
  intros w1 w2 (Hh & Hc & Ho). unfold alloc. rewrite Hh. by repeat split.
Qed.

Lemma simM_get_heap : simM eq get_heap get_heap.
Proof. intros w1 w2 (Hh & Hc & Ho). unfold get_heap. by repeat split. Qed.

Lemma simM_copy x : simM eq (copy x) (copy x).
Proof.
  unfold copy. eapply simM_bind; [apply simM_deref|]. intros o ? <-.
  destruct o; first [apply simM_alloc | apply simM_raise].
Qed.

Lemma simM_contains k x : simM eq (contains k x) (contains k x).
Proof.
  unfold contains. eapply simM_bind; [apply simM_deref|]. intros o ? <-.
  destruct o; try apply simM_raise; try (by apply simM_ret).
  eapply simM_bind; [apply simM_get_heap|]. intros h ? <-. by apply simM_ret.
Qed.

Lemma simM_translate_request x : simM eq (translate_request x) (translate_request x).
Proof.
  unfold translate_request. eapply simM_bind; [apply simM_copy|]. intros y ? <-.
  eapply simM_bind; [apply simM_contains|]. intros b ? <-.
  eapply simM_bind with (RA := eq); [destruct b; by apply simM_ret|].
  intros ? ? _. by apply simM_ret.
Qed.

Lemma simM_translate_response x : simM eq (translate_response x) (translate_response x).
Proof.
  unfold translate_response. eapply simM_bind; [apply simM_copy|]. intros y ? <-.
  by apply simM_ret.
Qed.

Lemma simM_get x k : simM eq (get x k) (get x k).
Proof.
  unfold get. eapply simM_bind; [apply simM_deref|]. intros o ? <-.
  destruct o; try apply simM_raise. by apply simM_ret.
Qed.

Lemma simM_if_is_stream v : simM eq (if_is_stream v) (if_is_stream v).
Proof.
  unfold if_is_stream. destruct v; [|by apply simM_ret].
  unfold truthy. eapply simM_bind; [apply simM_deref|]. intros o ? <-. by apply simM_ret.
Qed.

Lemma simM_encode x : simM eq (encode x) (encode x).
Proof.
  intros w1 w2 (Hh & Hc & Ho). unfold encode. rewrite Hh.
  destruct (dump _ _ _) as [j|]; [destruct (json_error j)|]; by repeat split.
Qed.

Lemma simM_send backend client c1 c2 :
  backend c1 = backend c2 ->
  simM eq (Httpx.send backend client c1) (Httpx.send backend client c2).
Proof.
  intros Hb w1 w2 (Hh & Hc & Ho). unfold Httpx.send. rewrite Hc, Hb.
  destruct (clients w2 !! client) as [[|]|]; [|by repeat split..].
  destruct (backend c2); by repeat split.
Qed.

Lemma simM_yield s : simM eq (yield_ s) (yield_ s).
Proof.
  intros w1 w2 (Hh & Hc & Ho). unfold yield_. repeat split; simpl; congruence.
Qed.

Lemma simM_logger_error s1 s2 : simM eq (logger_error s1) (logger_error s2).
Proof. intros w1 w2 (Hh & Hc & Ho). unfold logger_error. by repeat split. Qed.

Lemma simM_for_each {A} (xs : list A) body :
  (forall x, simM eq (body x) (body x)) -> simM eq (for_each xs body) (for_each xs body).
Proof.
  intros Hb. induction xs as [|x xs IH]; simpl; [by apply simM_ret|].
  eapply simM_bind; [apply Hb|]. intros ? ? _. apply IH.
Qed.

Lemma simM_generate_stream BASE backend json_dumps path1 path2 client nim_request hdrs :
  agree_on backend (BASE +:+ path1) (BASE +:+ path2) ->
  simM eq (relay_generate_stream BASE backend json_dumps path1 client nim_request hdrs)
          (relay_generate_stream BASE backend json_dumps path2 client nim_request hdrs).
Proof.
  intros Hagree. unfold relay_generate_stream, Httpx.stream.
  eapply simM_bind with (RA := eq).
  { eapply simM_bind with (RA := eq); [apply simM_encode|]. intros doc ? <-. apply simM_send, Hagree. }
  intros r ? <-. destruct (negb _).
  - eapply simM_bind with (RA := eq).
    + unfold Httpx.aread_then_decode. destruct (aread_decode r);
        [by apply simM_ret|apply simM_raise].
    + intros t ? <-. apply simM_yield.
  - unfold Httpx.for_aiter_lines. eapply simM_bind with (RA := eq).
    + apply simM_for_each. intros chunk.
      destruct (PyStr.nonempty chunk); [apply simM_yield|by apply simM_ret].
    + intros ? ? _. destruct (aiter_failure r); [apply simM_raise|by apply simM_ret].
Qed.

Lemma simM_relay_handler BASE NIM_KEY backend py_str json_dumps path1 path2 name1 name2
    req1 req2 :
  agree_on backend (BASE +:+ path1) (BASE +:+ path2) ->
  req_json req1 = req_json req2 ->
  simM sim_retval
    (relay_handler BASE NIM_KEY backend py_str json_dumps path1 name1 req1)
    (relay_handler BASE NIM_KEY backend py_str json_dumps path2 name2 req2).
Proof.
  intros Hagree Hreq. unfold relay_handler. apply simM_try_except.
  - eapply simM_bind with (RA := eq).
    { unfold Starlette.request_json. rewrite Hreq.
      destruct (req_json req2); [apply simM_loads|apply simM_raise]. }
    intros request_data ? <-.
    eapply simM_bind with (RA := eq); [apply simM_translate_request|]. intros nim_request ? <-.
    eapply simM_bind with (RA := eq); [apply simM_get|]. intros is_stream ? <-.
    apply simM_with_AsyncClient. intros client.
    eapply simM_bind with (RA := eq); [apply simM_if_is_stream|]. intros streaming ? <-.
    destruct streaming.
    + apply simM_ret. simpl. split; [|done]. by apply simM_generate_stream.
    + eapply simM_bind with (RA := eq).
      { unfold Httpx.post. eapply simM_bind with (RA := eq); [apply simM_encode|].
        intros doc ? <-. apply simM_send, Hagree. }
      intros r ? <-. destruct (status_code r =? 200)%Z; [|apply simM_raise].
      eapply simM_bind with (RA := eq).
      { unfold Httpx.response_json.
        destruct (resp_json r); [apply simM_loads|apply simM_raise]. }
      intros nim_response ? <-.
      eapply simM_bind with (RA := eq); [apply simM_translate_response|]. intros y ? <-.
      by apply simM_ret.
  - intros e.
    destruct e; first
      [ apply simM_raise
      | eapply simM_bind with (RA := eq); [apply simM_logger_error|intros ? ? _; apply simM_raise] ].
Qed.

Lemma simM_route endpoint1 endpoint2 :
  simM sim_retval endpoint1 endpoint2 ->
  simM eq (FastAPI.route endpoint1) (FastAPI.route endpoint2).
Proof.
  intros He w1 w2 Hw. unfold FastAPI.route. specialize (He w1 w2 Hw).
  destruct (endpoint1 w1) as [[r1|e1] w1'], (endpoint2 w2) as [[r2|e2] w2']; try done.
  - destruct He as [Hr Hw'].
    destruct r1 as [l1|g1 m1 h1], r2 as [l2|g2 m2 h2]; try done; simpl in Hr.
    + subst l2. unfold FastAPI.render.
      apply (simM_bind eq eq (encode l1) (encode l1)); [apply simM_encode| |done].
      intros doc ? <-. by apply simM_ret.
    + destruct Hr as (Hg & <- & <-). unfold FastAPI.render, Starlette.send_streaming.
      specialize (Hg w1' w2' Hw'). destruct Hw' as (_ & _ & Ho).
      destruct (g1 w1') as [[[]|x1] w1''], (g2 w2') as [[[]|x2] w2'']; try done;
        destruct Hg as [Hx Hw'']; pose proof Hw'' as (_ & _ & Ho'');
        rewrite Ho, Ho''; subst; by split.
  - destruct He as [-> Hw']. destruct e2; try (by split).
    unfold FastAPI.http_exception_handler, Starlette.JSONResponse.
    destruct (json_error _); by split.
Qed.

(** ** The path the gate reads *)

Lemma string_length_app a b : String.length (a +:+ b) = String.length a + String.length b.
Proof. induction a as [|c a IH]; [done|]. rewrite append_cons. simpl. by rewrite IH. Qed.

Lemma remove_unsafe_app a b :
  Urllib.remove_unsafe (a +:+ b) = Urllib.remove_unsafe a +:+ Urllib.remove_unsafe b.
Proof.
  induction a as [|c a IH]; [done|]. rewrite append_cons. simpl.
  destruct (Urllib.unsafe c); [done|]. by rewrite append_cons, IH.
Qed.

(** A path that begins with a slash adds nothing to the authority. *)
Lemma netloc_app_slash h p : Urllib.netloc (h +:+ String "/" p) = Urllib.netloc h.
Proof.
  induction h as [|c h IH]; [done|]. rewrite append_cons. simpl.
  destruct (Urllib.ends_netloc c); [done|]. by rewrite IH.
Qed.

(** No text that ends with a path of more than 13 characters is on the
    allow-list. *)
Lemma mem_long acc p :
  13 < String.length p -> PyStr.mem (acc +:+ p) unauthenticated_paths = false.
Proof.
  intros Hlen. unfold PyStr.mem, unauthenticated_paths. simpl.
  repeat match goal with
         | |- context [String.eqb ?a ?b] =>
             destruct (String.eqb_spec a b) as [E|_];
             [apply (f_equal String.length) in E; rewrite string_length_app in E;
              simpl in E; lia|]
         end.
  reflexivity.
Qed.

(** Two long paths without [?] or [#], read behind the same text, are both
    on the allow-list or both off it. *)
Lemma upto_query_mem p1 p2 :
  Urllib.upto_query p1 = p1 -> Urllib.upto_query p2 = p2 ->
  13 < String.length p1 -> 13 < String.length p2 ->
  forall s acc,
    PyStr.mem (acc +:+ Urllib.upto_query (s +:+ p1)) unauthenticated_paths =
    PyStr.mem (acc +:+ Urllib.upto_query (s +:+ p2)) unauthenticated_paths.
Proof.
  intros H1 H2 L1 L2. induction s as [|c s IH]; intros acc.
  - change ("" +:+ p1) with p1. change ("" +:+ p2) with p2.
    by rewrite H1, H2, !mem_long.
  - rewrite !append_cons. simpl. destruct (Urllib.ends_path c); [done|].
    specialize (IH (acc +:+ String c "")). by rewrite !append_assoc in IH.
Qed.

Lemma path_mem p1 p2 :
  Urllib.upto_query (String "/" p1) = String "/" p1 ->
  Urllib.upto_query (String "/" p2) = String "/" p2 ->
  12 < String.length p1 -> 12 < String.length p2 ->
  forall h,
    PyStr.mem (Urllib.path (h +:+ String "/" p1)) unauthenticated_paths =
    PyStr.mem (Urllib.path (h +:+ String "/" p2)) unauthenticated_paths.
Proof.
  intros H1 H2 L1 L2.
  assert (Hq : forall s,
    PyStr.mem (Urllib.upto_query (s +:+ String "/" p1)) unauthenticated_paths =
    PyStr.mem (Urllib.upto_query (s +:+ String "/" p2)) unauthenticated_paths).
  { intros s. apply (upto_query_mem _ _ H1 H2) with (acc := ""); simpl; lia. }
  unfold Urllib.path. induction h as [|c h IH].
  - apply (Hq "").
  - rewrite !append_cons. simpl. destruct (Urllib.ends_netloc c); [|exact IH].
    rewrite <- !append_cons. apply Hq.
Qed.

(** The gate reads the two generation endpoints alike: with the same
    headers, both paths are read as allow-listed or both are not, or the
    check of the authority fails for both. *)
Lemma generation_urls_agree check srv query hdrs doc :
  match Starlette.url_path check
          {| req_method := "POST"; req_server := srv; req_path := "/v1/chat/completions"; req_query := query;
             req_headers := hdrs; req_json := doc |},
        Starlette.url_path check
          {| req_method := "POST"; req_server := srv; req_path := "/v1/completions"; req_query := query;
             req_headers := hdrs; req_json := doc |} with
  | Ok p1, Ok p2 =>
      PyStr.mem p1 unauthenticated_paths = PyStr.mem p2 unauthenticated_paths
  | Raise e1, Raise e2 => e1 = e2
  | _, _ => False
  end.
Proof.
  unfold Starlette.url_path, Starlette.url_error, Starlette.url_netloc, Starlette.url,
    Starlette.url_authority.
  simpl req_path. simpl req_server. simpl req_query.
  destruct query as [q|e]; [|done].
  change (Starlette.headers_get _ "host")
    with (snd <$> find (fun kv : string * string => String.eqb "host" (fst kv)) hdrs).
  set (a := match snd <$> find _ hdrs with Some host => host | None => srv end).
  rewrite !remove_unsafe_app.
  change (Urllib.remove_unsafe "/v1/chat/completions") with "/v1/chat/completions".
  change (Urllib.remove_unsafe "/v1/completions") with "/v1/completions".
  rewrite !netloc_app_slash.
  destruct (check (Urllib.netloc (Urllib.remove_unsafe a))); [done|].
  apply path_mem; first [reflexivity | simpl; lia].
Qed.


(** C10: the two generation handlers are the same relay, at their own
    backend endpoint, and answer alike.  For any request headers and body,
    and a backend that behaves at [<base>/v1/completions] as it does at
    [<base>/v1/chat/completions], POST /v1/chat/completions and
    POST /v1/completions get the same response from the application: status,
    media type, headers and content, for a streaming response the chunks
    and the way the stream ends; and they leave the same store, clients and
    caller's stream. *)
Theorem generation_endpoints_agree
    (BASE NIM_KEY KEY : string) (backend : backend_call -> backend_reply)
    (py_str : exn -> string) (json_dumps : json -> string)
    (netloc_error : string -> option exn)
    (framework_route : Request -> http_response)
    (srv : string) (query : outcome string) (hdrs : list (string * string))
    (doc : outcome json) (w : world) :
  agree_on backend (BASE +:+ "/v1/chat/completions") (BASE +:+ "/v1/completions") ->
  (chat_completions BASE NIM_KEY backend py_str json_dumps =
     relay_handler BASE NIM_KEY backend py_str json_dumps
       "/v1/chat/completions" "chat completions" /\
   completions BASE NIM_KEY backend py_str json_dumps =
     relay_handler BASE NIM_KEY backend py_str json_dumps
       "/v1/completions" "completions") /\
  fst (app BASE NIM_KEY KEY backend py_str json_dumps netloc_error framework_route
         {| req_method := "POST"; req_server := srv; req_path := "/v1/chat/completions"; req_query := query;
            req_headers := hdrs; req_json := doc |} w) =
  fst (app BASE NIM_KEY KEY backend py_str json_dumps netloc_error framework_route
         {| req_method := "POST"; req_server := srv; req_path := "/v1/completions"; req_query := query;
            req_headers := hdrs; req_json := doc |} w) /\
  sim (snd (app BASE NIM_KEY KEY backend py_str json_dumps netloc_error framework_route
              {| req_method := "POST"; req_server := srv;
                 req_path := "/v1/chat/completions"; req_query := query;
                 req_headers := hdrs; req_json := doc |} w))
      (snd (app BASE NIM_KEY KEY backend py_str json_dumps netloc_error framework_route
              {| req_method := "POST"; req_server := srv; req_path := "/v1/completions"; req_query := query;
                 req_headers := hdrs; req_json := doc |} w)).
Proof.
  intros Hagree. split; [by split|].
  pose proof (generation_urls_agree netloc_error srv query hdrs doc) as Hurl.
  set (req1 := {| req_method := "POST"; req_server := srv;
                  req_path := "/v1/chat/completions"; req_query := query;
                  req_headers := hdrs; req_json := doc |}) in *.
  set (req2 := {| req_method := "POST"; req_server := srv; req_path := "/v1/completions"; req_query := query;
                  req_headers := hdrs; req_json := doc |}) in *.
  assert (Hrouter : simM eq
            (router BASE NIM_KEY backend py_str json_dumps framework_route req1)
            (router BASE NIM_KEY backend py_str json_dumps framework_route req2)).
  { change (router BASE NIM_KEY backend py_str json_dumps framework_route req1)
      with (FastAPI.route
              (relay_handler BASE NIM_KEY backend py_str json_dumps
                 "/v1/chat/completions" "chat completions" req1)).
    change (router BASE NIM_KEY backend py_str json_dumps framework_route req2)
      with (FastAPI.route
              (relay_handler BASE NIM_KEY backend py_str json_dumps
                 "/v1/completions" "completions" req2)).
    apply simM_route. by apply simM_relay_handler. }
  assert (Hsim : simM eq
            (auth_middleware KEY netloc_error req1
               (router BASE NIM_KEY backend py_str json_dumps framework_route))
            (auth_middleware KEY netloc_error req2
               (router BASE NIM_KEY backend py_str json_dumps framework_route))).
  { unfold auth_middleware.
    eapply simM_bind
      with (RA := fun p1 p2 => PyStr.mem p1 unauthenticated_paths =
                               PyStr.mem p2 unauthenticated_paths).
    { intros w1 w2 Hw. unfold of_outcome.
      destruct (Starlette.url_path netloc_error req1) as [p1|e1],
               (Starlette.url_path netloc_error req2) as [p2|e2]; try done. }
    intros p1 p2 Hmem.
    change ["/"; "/health"; "/docs"; "/openapi.json"] with unauthenticated_paths.
    rewrite Hmem. destruct (PyStr.mem p2 unauthenticated_paths); [exact Hrouter|].
    change (authenticate_request KEY req2) with (authenticate_request KEY req1).
    eapply simM_bind with (RA := eq).
    { destruct (authenticate_request_returns KEY req1) as [b Hb].
      intros w1 w2 Hw. rewrite !Hb. by split. }
    intros b ? <-. destruct (negb b); [|exact Hrouter].
    rewrite auth_error_made. by apply simM_ret. }
  unfold app, FastAPI.server_error_middleware.
  specialize (Hsim w w (sim_refl w)).
  destruct (auth_middleware KEY netloc_error req1 _ w) as [[r1|e1] w1'],
           (auth_middleware KEY netloc_error req2 _ w) as [[r2|e2] w2']; try done;
    destruct Hsim as [-> Hw']; by split.
Qed.

Lemma generation_endpoints_agree_witness :
  (chat_completions base_url "" (always (plain_response 200 "{}" (Some (JObj [])) []))
     detail_str no_dumps =
     relay_handler base_url "" (always (plain_response 200 "{}" (Some (JObj [])) []))
       detail_str no_dumps "/v1/chat/completions" "chat completions" /\
   completions base_url "" (always (plain_response 200 "{}" (Some (JObj [])) []))
     detail_str no_dumps =
     relay_handler base_url "" (always (plain_response 200 "{}" (Some (JObj [])) []))
       detail_str no_dumps "/v1/completions" "completions") /\
  fst (app base_url "" proxy_key (always (plain_response 200 "{}" (Some (JObj [])) []))
         detail_str no_dumps bracket_check not_found
         {| req_method := "POST"; req_server := local_server;
            req_path := "/v1/chat/completions"; req_query := Ok "";
            req_headers := [("authorization", "Bearer your-proxy-api-key")];
            req_json := Ok sample_document |} empty_world) =
  fst (app base_url "" proxy_key (always (plain_response 200 "{}" (Some (JObj [])) []))
         detail_str no_dumps bracket_check not_found
         {| req_method := "POST"; req_server := local_server;
            req_path := "/v1/completions"; req_query := Ok "";
            req_headers := [("authorization", "Bearer your-proxy-api-key")];
            req_json := Ok sample_document |} empty_world) /\
  sim (snd (app base_url "" proxy_key
              (always (plain_response 200 "{}" (Some (JObj [])) []))
              detail_str no_dumps bracket_check not_found
              {| req_method := "POST"; req_server := local_server;
                 req_path := "/v1/chat/completions"; req_query := Ok "";
                 req_headers := [("authorization", "Bearer your-proxy-api-key")];
                 req_json := Ok sample_document |} empty_world))
      (snd (app base_url "" proxy_key
              (always (plain_response 200 "{}" (Some (JObj [])) []))
              detail_str no_dumps bracket_check not_found
              {| req_method := "POST"; req_server := local_server;
                 req_path := "/v1/completions"; req_query := Ok "";
                 req_headers := [("authorization", "Bearer your-proxy-api-key")];
                 req_json := Ok sample_document |} empty_world)).
Proof.
  apply (generation_endpoints_agree base_url "" proxy_key
           (always (plain_response 200 "{}" (Some (JObj [])) []))
           detail_str no_dumps bracket_check not_found local_server (Ok "")
           [("authorization", "Bearer your-proxy-api-key")]
           (Ok sample_document) empty_world).
  intros method doc hdrs timeout streamed. reflexivity.
Defined.

(** * Further properties of the program *)

(** ** More on the credential gate *)

Lemma prefix_app p : forall b s, String.prefix p b = true -> String.prefix p (b +:+ s) = true.
Proof.
  induction p as [|a p IH]; intros b s Hp; [apply prefix_nil|].
  destruct b as [|c b]; [discriminate|]. rewrite append_cons. simpl in *.
  destruct (ascii_dec a c); [by apply IH|discriminate].
Qed.

(** Every piece of a split is free of the separator; the first one is what
    was being read, [cur], followed by such a piece. *)
Lemma split_from_pieces sep c0 sep' s :
  sep = String c0 sep' ->
  (forall cur, exists p rest q,
      PyStr.split_from sep 0 cur s = (cur +:+ p) :: rest /\ s = p +:+ q /\
      is_substring sep p = false /\ Forall (fun x => is_substring sep x = false) rest) /\
  (forall k cur, exists p rest,
      PyStr.split_from sep k cur s = (cur +:+ p) :: rest /\
      is_substring sep p = false /\ Forall (fun x => is_substring sep x = false) rest).
Proof.
  intros Hsep.
  assert (Hnil : is_substring sep "" = false) by (by rewrite Hsep).
  induction s as [|c s [IH0 IHk]].
  - split.
    + intros cur. exists "", [], "". by rewrite append_nil_r.
    + intros k cur. exists "", []. by rewrite append_nil_r.
  - assert (H0 : forall cur, exists p rest q,
      PyStr.split_from sep 0 cur (String c s) = (cur +:+ p) :: rest /\
      String c s = p +:+ q /\
      is_substring sep p = false /\ Forall (fun x => is_substring sep x = false) rest).
    { intros cur. simpl.
      change (match sep with "" => true | String a s1' =>
               match ascii_dec a c with left _ => String.prefix s1' s | right _ => false end end)
        with (String.prefix sep (String c s)).
      destruct (String.prefix sep (String c s)) eqn:Hp.
      - destruct (IHk (String.length sep - 1) "") as (p & rest & E & Hfree & Hrest).
        exists "", (("" +:+ p) :: rest), (String c s). rewrite append_nil_r, E.
        split; [reflexivity|]. split; [reflexivity|]. split; [done|].
        constructor; done.
      - destruct (IH0 (cur +:+ String c "")) as (p & rest & q & E & Hs & Hfree & Hrest).
        exists (String c p), rest, q. rewrite E, append_assoc. subst s.
        split; [reflexivity|]. split; [reflexivity|]. split; [|done]. simpl.
        change (match sep with "" => true | String a s1' =>
                 match ascii_dec a c with left _ => String.prefix s1' p | right _ => false end end)
          with (String.prefix sep (String c p)).
        rewrite Hfree, orb_false_r.
        destruct (String.prefix sep (String c p)) eqn:Hp'; [|done].
        apply (prefix_app _ _ q) in Hp'. rewrite append_cons in Hp'. congruence. }
    split; [exact H0|].
    intros [|k] cur.
    + destruct (H0 cur) as (p & rest & q & E & _ & Hfree & Hrest). by exists p, rest.
    + simpl. apply IHk.
Qed.

(** The token [authenticate_request] compares never contains [Bearer ]. *)
Lemma token_is_free h token :
  PyStr.split h "Bearer " !! 1 = Some token -> is_substring "Bearer " token = false.
Proof.
  unfold PyStr.split.
  destruct (split_from_pieces "Bearer " _ _ h eq_refl) as [H0 _].
  destruct (H0 "") as (p & rest & q & -> & _ & _ & Hrest).
  simpl. destruct Hrest as [|x rest Hx _]; [discriminate|]. simpl. by intros [= ->].
Qed.

(** X1: the gate denies by default.  Whenever the path the gate reads,
    [request.url.path] (put together from the [Host] header and the path of
    the request), is outside the allow-list, whether a route is declared
    for the request or not, a request with no [Authorization] header, or
    with one that does not start with [Bearer ] (the scheme is
    case-sensitive; the empty header is one such), gets the fixed 401: the
    application behind the gate is not called and the world is left as it
    was. *)
Theorem missing_or_malformed_header_is_rejected
    (key : string) (netloc_error : string -> option exn) (request : Request)
    (path : string) (call_next : Request -> M http_response) (w : world) :
  Starlette.url_path netloc_error request = Ok path ->
  PyStr.mem path unauthenticated_paths = false ->
  (Starlette.headers_get request "authorization" = None \/
   exists h, Starlette.headers_get request "authorization" = Some h /\
             PyStr.startswith h "Bearer " = false) ->
  auth_middleware key netloc_error request call_next w = (Ok auth_error, w).
Proof.
  intros Hu Hp Hh. apply gate_rejects with (path := path); [done..|].
  unfold authenticate_request.
  destruct Hh as [-> | (h & -> & Hs)]; [done|].
  rewrite Hs. by rewrite orb_true_r.
Qed.

Lemma missing_or_malformed_header_is_rejected_witness :
  auth_middleware proxy_key bracket_check
    (post_request "/v1/embeddings" (Some "bearer your-proxy-api-key") None)
    (fun _ => raise IndexError) empty_world
  = (Ok auth_error, empty_world).
Proof.
  apply (missing_or_malformed_header_is_rejected proxy_key bracket_check
           (post_request "/v1/embeddings" (Some "bearer your-proxy-api-key") None)
           "/v1/embeddings").
  - reflexivity.
  - reflexivity.
  - right. exists "bearer your-proxy-api-key". split; reflexivity.
Defined.

(** X2: a token that holds no [Bearer ] of its own is compared with the
    credential exactly.  When the path the gate reads is outside the
    allow-list, the request goes through to the application when the two
    strings are equal, and gets the fixed 401 otherwise. *)
Theorem unambiguous_token_is_compared_exactly
    (key token : string) (netloc_error : string -> option exn) (request : Request)
    (path : string) (call_next : Request -> M http_response) (w : world) :
  Starlette.url_path netloc_error request = Ok path ->
  PyStr.mem path unauthenticated_paths = false ->
  Starlette.headers_get request "authorization" = Some ("Bearer " +:+ token) ->
  is_substring "Bearer " token = false ->
  auth_middleware key netloc_error request call_next w =
  if String.eqb token key then call_next request w else (Ok auth_error, w).
Proof.
  intros Hu Hp Hh Hfree.
  pose proof (bearer_token_exact key token request w Hh Hfree) as Ha.
  destruct (String.eqb token key).
  - apply gate_passes; [|by rewrite Ha].
    by apply url_path_ok with (path := path).
  - apply gate_rejects with (path := path); [done..|]. by rewrite Ha.
Qed.

Lemma unambiguous_token_is_compared_exactly_witness :
  auth_middleware proxy_key bracket_check
    (post_request "/v1/models" (Some "Bearer Your-Proxy-Api-Key") None)
    (fun _ => raise IndexError) empty_world
  = if String.eqb "Your-Proxy-Api-Key" proxy_key
    then raise IndexError empty_world
    else (Ok auth_error, empty_world).
Proof.
  apply (unambiguous_token_is_compared_exactly proxy_key "Your-Proxy-Api-Key"
           bracket_check
           (post_request "/v1/models" (Some "Bearer Your-Proxy-Api-Key") None)
           "/v1/models" (fun _ => raise IndexError) empty_world); reflexivity.
Defined.

(** X3: a credential that contains [Bearer ] can never be presented.  The
    token the gate compares is a piece of a split at [Bearer ], which never
    contains it: with such a credential every request that the gate reads
    as outside the allow-list gets the fixed 401, the one presenting the
    credential itself included. *)
Theorem credential_with_bearer_inside_locks_out
    (key : string) (netloc_error : string -> option exn) (request : Request)
    (path : string) (call_next : Request -> M http_response) (w : world) :
  is_substring "Bearer " key = true ->
  Starlette.url_path netloc_error request = Ok path ->
  PyStr.mem path unauthenticated_paths = false ->
  auth_middleware key netloc_error request call_next w = (Ok auth_error, w).
Proof.
  intros Hkey Hu Hp. apply gate_rejects with (path := path); [done..|].
  unfold authenticate_request.
  destruct (Starlette.headers_get request "authorization") as [h|]; [|done].
  destruct (negb (PyStr.nonempty h) || negb (PyStr.startswith h "Bearer ")) eqn:Hc; [done|].
  apply orb_false_iff in Hc as [_ Hs]. apply negb_false_iff in Hs.
  destruct (split_bearer h Hs) as (token & rest & E).
  pose proof (token_is_free h token) as Hfree. rewrite E in *. simpl in *.
  specialize (Hfree eq_refl).
  destruct (String.eqb_spec token key) as [->|_]; [congruence|done].
Qed.

Lemma credential_with_bearer_inside_locks_out_witness :
  auth_middleware "my Bearer key" bracket_check
    (post_request "/v1/models" (Some "Bearer my Bearer key") None)
    (fun _ => raise IndexError) empty_world
  = (Ok auth_error, empty_world).
Proof.
  apply (credential_with_bearer_inside_locks_out "my Bearer key" bracket_check
           (post_request "/v1/models" (Some "Bearer my Bearer key") None) "/v1/models");
    reflexivity.
Defined.

(** In what follows, a request "carries the credential" when the gate lets
    it through on its credential: [request.url.path] raises nothing and
    [authenticate_request] returns [True].  A document "can be written as
    JSON" when [json_error] finds nothing in it: no NaN or infinity among
    its numbers, no lone surrogate in its strings and keys. *)

(** ** The model listing *)

Lemma list_models_reaches_backend BASE NIM_KEY backend py_str w :
  list_models BASE NIM_KEY backend py_str w =
  let w1 := set_clients (clients w ++ [true]) w in
  let w2 := add_sent (models_call BASE NIM_KEY) w1 in
  let close (w' : world) := set_clients (<[length (clients w) := false]> (clients w')) w' in
  let failed (e : exn) (w' : world) :=
    (Raise (HTTPException 500 "Failed to fetch models"),
     add_errlog ("Error fetching models: " +:+ py_str e) w') in
  match backend (models_call BASE NIM_KEY) with
  | Unreachable e => failed e (close w2)
  | Reply r =>
      if (status_code r =? 200)%Z
      then match resp_json r with
           | Ok j => (Ok (RetObj (fst (load j (heap w2)))),
                      close (set_heap (snd (load j (heap w2))) w2))
           | Raise e => failed e (close w2)
           end
      else failed (HTTPException (status_code r) (text r)) (close w2)
  end.
Proof.
  unfold list_models, try_except, Httpx.with_AsyncClient, Httpx.get, Httpx.send.
  unfold bind at 1. simpl clients. rewrite lookup_last.
  fold (models_call BASE NIM_KEY).
  destruct (backend (models_call BASE NIM_KEY)) as [e|r]; [reflexivity|].
  destruct (status_code r =? 200)%Z; [|reflexivity].
  unfold Httpx.response_json. destruct (resp_json r) as [j|e]; [|reflexivity].
  unfold bind, ret. rewrite loads_returns. reflexivity.
Qed.

Lemma app_routes_models BASE NIM_KEY KEY backend py_str json_dumps check framework_route
    request w :
  req_method request = "GET" -> req_path request = "/v1/models" ->
  Starlette.url_error check request = None ->
  fst (authenticate_request KEY request w) = Ok true ->
  app BASE NIM_KEY KEY backend py_str json_dumps check framework_route request w =
  FastAPI.server_error_middleware
    (FastAPI.route (list_models BASE NIM_KEY backend py_str)) w.
Proof.
  intros Hm Hp Hu Ha. unfold app, FastAPI.server_error_middleware.
  rewrite gate_passes by done.
  unfold router. by rewrite Hm, Hp.
Qed.



(** X6: every failure of the model listing looks the same to the caller.
    For a GET /v1/models that carries the credential, whether the client
    raised, the backend answered with a status other than 200, or
    [response.json()] raised on a 200, the proxy answers 500
    with the detail [Failed to fetch models]; the request was sent once, and
    the exception [e] that ended the [try] block (the client's own, the
    [HTTPException] carrying the backend's status and text, or the parser's)
    goes to the error log only, as the one record
    [Error fetching models: str(e)]. *)
Theorem list_models_failure_is_opaque
    (BASE NIM_KEY KEY : string) (backend : backend_call -> backend_reply)
    (py_str : exn -> string) (json_dumps : json -> string)
    (netloc_error : string -> option exn)
    (framework_route : Request -> http_response)
    (request : Request) (e : exn) (w : world) :
  req_method request = "GET" -> req_path request = "/v1/models" ->
  Starlette.url_error netloc_error request = None ->
  fst (authenticate_request KEY request w) = Ok true ->
  models_failure (backend (models_call BASE NIM_KEY)) = Some e ->
  fst (app BASE NIM_KEY KEY backend py_str json_dumps netloc_error framework_route
         request w) =
    {| status := 500; media_type := "application/json"; headers := [];
       content := BodyJSON (JObj [("detail", JStr "Failed to fetch models")]) |} /\
  sent (snd (app BASE NIM_KEY KEY backend py_str json_dumps netloc_error framework_route
               request w)) =
    sent w ++ [models_call BASE NIM_KEY] /\
  errlog (snd (app BASE NIM_KEY KEY backend py_str json_dumps netloc_error framework_route
                 request w)) =
    errlog w ++ ["Error fetching models: " +:+ py_str e].
Proof.
  intros Hm Hp Hu Ha Hf. rewrite app_routes_models by done.
  unfold FastAPI.server_error_middleware, FastAPI.route.
  rewrite list_models_reaches_backend. cbv zeta.
  unfold models_failure in Hf.
  destruct (backend (models_call BASE NIM_KEY)) as [e'|r].
  - by simplify_eq.
  - destruct (status_code r =? 200)%Z; [|by simplify_eq].
    destruct (resp_json r) as [j|e']; by simplify_eq.
Qed.

Lemma list_models_failure_is_opaque_witness :
  fst (app base_url "" proxy_key (always (plain_response 503 "overloaded" None []))
         detail_str no_dumps bracket_check not_found
         (get_request "/v1/models" valid_auth) empty_world) =
    {| status := 500; media_type := "application/json"; headers := [];
       content := BodyJSON (JObj [("detail", JStr "Failed to fetch models")]) |} /\
  sent (snd (app base_url "" proxy_key (always (plain_response 503 "overloaded" None []))
               detail_str no_dumps bracket_check not_found
               (get_request "/v1/models" valid_auth) empty_world)) =
    sent empty_world ++ [models_call base_url ""] /\
  errlog (snd (app base_url "" proxy_key
                 (always (plain_response 503 "overloaded" None []))
                 detail_str no_dumps bracket_check not_found
                 (get_request "/v1/models" valid_auth) empty_world)) =
    errlog empty_world ++
    ["Error fetching models: " +:+ detail_str (HTTPException 503 "overloaded")].
Proof.
  apply (list_models_failure_is_opaque base_url "" proxy_key
           (always (plain_response 503 "overloaded" None []))
           detail_str no_dumps bracket_check not_found
           (get_request "/v1/models" valid_auth)
           (HTTPException 503 "overloaded") empty_world); reflexivity.
Defined.

(** X4: the root and the health check answer by themselves.  A GET of [/]
    or of [/health] that the gate lets through (it reads an allow-listed
    path in [request.url.path], or the request carries the credential) is
    answered 200 with the fixed document of its route, whatever the body,
    the configuration and the backend, and nothing is sent to the
    backend. *)
Theorem root_and_health_answer_locally
    (BASE NIM_KEY KEY : string) (backend : backend_call -> backend_reply)
    (py_str : exn -> string) (json_dumps : json -> string)
    (netloc_error : string -> option exn)
    (framework_route : Request -> http_response)
    (request : Request) (path : string) (w : world) :
  req_method request = "GET" ->
  req_path request = "/" \/ req_path request = "/health" ->
  Starlette.url_path netloc_error request = Ok path ->
  PyStr.mem path unauthenticated_paths = true \/
    fst (authenticate_request KEY request w) = Ok true ->
  fst (app BASE NIM_KEY KEY backend py_str json_dumps netloc_error framework_route
         request w) =
    {| status := 200; media_type := "application/json"; headers := [];
       content := BodyJSON
         (if String.eqb (req_path request) "/"
          then JObj [("message", JStr "NVIDIA NIM OpenAI Proxy Server");
                     ("status", JStr "running")]
          else JObj [("status", JStr "healthy")]) |} /\
  sent (snd (app BASE NIM_KEY KEY backend py_str json_dumps netloc_error framework_route
               request w)) = sent w.
Proof.
  intros Hm Hp Hu Hgate. unfold app, FastAPI.server_error_middleware.
  assert (Hpass : auth_middleware KEY netloc_error request
                    (router BASE NIM_KEY backend py_str json_dumps framework_route) w =
                  router BASE NIM_KEY backend py_str json_dumps framework_route request w).
  { destruct Hgate as [Hmem | Ha].
    - by apply gate_bypass with (path := path).
    - apply gate_passes; [|done].
      by apply url_path_ok with (path := path). }
  rewrite Hpass. unfold router. rewrite Hm.
  destruct Hp as [-> | ->]; simpl; unfold root, health;
    rewrite route_literal by reflexivity; by split.
Qed.

Lemma root_and_health_answer_locally_witness :
  fst (app base_url "" proxy_key (always (plain_response 200 "{}" (Some (JObj [])) []))
         detail_str no_dumps bracket_check not_found
         {| req_method := "GET"; req_server := local_server; req_path := "/health"; req_query := Ok "";
            req_headers := [("host", "proxy.example:8080")];
            req_json := Raise JSONDecodeError |} empty_world) =
    {| status := 200; media_type := "application/json"; headers := [];
       content := BodyJSON
         (if String.eqb
               (req_path {| req_method := "GET"; req_server := local_server;
                            req_path := "/health"; req_query := Ok "";
                            req_headers := [("host", "proxy.example:8080")];
                            req_json := Raise JSONDecodeError |}) "/"
          then JObj [("message", JStr "NVIDIA NIM OpenAI Proxy Server");
                     ("status", JStr "running")]
          else JObj [("status", JStr "healthy")]) |} /\
  sent (snd (app base_url "" proxy_key
               (always (plain_response 200 "{}" (Some (JObj [])) []))
               detail_str no_dumps bracket_check not_found
               {| req_method := "GET"; req_server := local_server; req_path := "/health"; req_query := Ok "";
                  req_headers := [("host", "proxy.example:8080")];
                  req_json := Raise JSONDecodeError |} empty_world)) = sent empty_world.
Proof.
  apply (root_and_health_answer_locally base_url "" proxy_key
           (always (plain_response 200 "{}" (Some (JObj [])) []))
           detail_str no_dumps bracket_check not_found
           {| req_method := "GET"; req_server := local_server; req_path := "/health"; req_query := Ok "";
              req_headers := [("host", "proxy.example:8080")];
              req_json := Raise JSONDecodeError |} "/health" empty_world).
  - reflexivity.
  - right. reflexivity.
  - reflexivity.
  - left. reflexivity.
Defined.

(** ** The generation endpoints: the buffered path *)

Lemma relay_buffered_form BASE NIM_KEY backend py_str json_dumps path name
    request members w :
  req_json request = Ok (JObj members) ->
  json_error (JObj members) = None ->
  stream_flag members = false ->
  exists w3, sent w3 = sent w /\ errlog w3 = errlog w /\ out w3 = out w /\
    relay_handler BASE NIM_KEY backend py_str json_dumps path name request w =
    let call := generation_call BASE NIM_KEY path (JObj members) false in
    let w4 := add_sent call w3 in
    match backend call with
    | Unreachable e => except_clauses name py_str e (close_client w w4)
    | Reply r =>
        if (status_code r =? 200)%Z
        then
          match resp_json r with
          | Raise e => except_clauses name py_str e (close_client w w4)
          | Ok B =>
              match translate_response (fst (load B (heap w4)))
                      (set_heap (snd (load B (heap w4))) w4) with
              | (Ok y, w6) => (Ok (RetObj y), close_client w w6)
              | (Raise e, w6) => except_clauses name py_str e (close_client w w6)
              end
          end
        else except_clauses name py_str (HTTPException (status_code r) (text r))
               (close_client w w4)
    end.
Proof.
  intros Hreq Hok Hflag.
  relay_ingress Hreq members w ltac:(fun w1 w2 w3 =>
    exists w3; split; [reflexivity|]; split; [reflexivity|]; split; [reflexivity|];
    rewrite Hflag; cbv iota;
    unfold bind at 1; unfold Httpx.post; unfold bind at 1;
    rewrite (encode_returns _ (JObj members)) by done;
    unfold Httpx.send;
    change (clients w3 !! length (clients w2))
      with ((clients w2 ++ [true]) !! length (clients w2));
    rewrite lookup_last; cbv iota beta zeta;
    change {| call_method := "POST"; call_url := BASE +:+ path;
              call_json := Some (JObj members); call_headers := nim_headers NIM_KEY;
              call_timeout := 60; call_stream := false |}
      with (generation_call BASE NIM_KEY path (JObj members) false);
    change (length (clients w2)) with (length (clients w));
    fold (close_client w)).
  destruct (backend _) as [e|r].
  - by destruct e.
  - destruct (status_code r =? 200)%Z; [|reflexivity].
    unfold Httpx.response_json. destruct (resp_json r) as [B|e]; [|by destruct e].
    unfold bind at 1. rewrite loads_returns. unfold bind at 1.
    destruct (translate_response _ _) as [[y|e] w6]; [reflexivity|by destruct e].
Qed.

(** A body that [request.json()] does not parse ends the handler in its
    [except] clauses at once. *)
Lemma relay_unparsed BASE NIM_KEY backend py_str json_dumps path name request e w :
  req_json request = Raise e ->
  relay_handler BASE NIM_KEY backend py_str json_dumps path name request w =
  except_clauses name py_str e w.
Proof.
  intros Hreq. unfold relay_handler, try_except, Starlette.request_json. rewrite Hreq.
  by destruct e.
Qed.

Lemma app_routes_generation BASE NIM_KEY KEY backend py_str json_dumps check
    framework_route request w :
  req_method request = "POST" ->
  req_path request = "/v1/chat/completions" \/ req_path request = "/v1/completions" ->
  Starlette.url_error check request = None ->
  fst (authenticate_request KEY request w) = Ok true ->
  app BASE NIM_KEY KEY backend py_str json_dumps check framework_route request w =
  FastAPI.server_error_middleware
    (FastAPI.route
       (relay_handler BASE NIM_KEY backend py_str json_dumps (req_path request)
          (endpoint_name (req_path request)) request)) w.
Proof.
  intros Hm Hp Hu Ha. unfold app, FastAPI.server_error_middleware.
  rewrite gate_passes by done.
  unfold router. rewrite Hm. by destruct Hp as [-> | ->].
Qed.

Lemma except_clauses_returns name py_str e w :
  exists code detail w',
    except_clauses name py_str e w = (Raise (HTTPException code detail), w') /\
    sent w' = sent w /\ clients w' = clients w /\ out w' = out w /\
    (code, detail) =
      match e with
      | JSONDecodeError => (400%Z, "Invalid JSON in request body")
      | _ => (500%Z, py_str e)
      end.
Proof. destruct e; by eexists _, _, _. Qed.

(** A handler that fails with an [HTTPException]: the response, which is
    the plain 500 of the server when the detail cannot be encoded, and the
    world. *)
Lemma route_of_http_exception (endpoint : M retval) w code detail w' :
  endpoint w = (Raise (HTTPException code detail), w') ->
  FastAPI.server_error_middleware (FastAPI.route endpoint) w =
  (if PyStr.encodable detail
   then Starlette.json_response code (JObj [("detail", JStr detail)])
   else FastAPI.internal_server_error, w').
Proof.
  intros E. unfold FastAPI.server_error_middleware, FastAPI.route. rewrite E.
  rewrite http_exception_handler_returns. by destruct (PyStr.encodable detail).
Qed.

Lemma route_of_except_clauses (endpoint : M retval) name py_str e w wx :
  endpoint w = except_clauses name py_str e wx ->
  fst (FastAPI.server_error_middleware (FastAPI.route endpoint) w) =
    match e with
    | JSONDecodeError =>
        Starlette.json_response 400 (JObj [("detail", JStr "Invalid JSON in request body")])
    | _ =>
        if PyStr.encodable (py_str e)
        then Starlette.json_response 500 (JObj [("detail", JStr (py_str e))])
        else FastAPI.internal_server_error
    end /\
  sent (snd (FastAPI.server_error_middleware (FastAPI.route endpoint) w)) = sent wx /\
  clients (snd (FastAPI.server_error_middleware (FastAPI.route endpoint) w)) = clients wx /\
  errlog (snd (FastAPI.server_error_middleware (FastAPI.route endpoint) w)) =
    match e with
    | JSONDecodeError => errlog wx
    | _ => errlog wx ++ ["Error in " +:+ name +:+ ": " +:+ py_str e]
    end.
Proof.
  intros E. unfold FastAPI.server_error_middleware, FastAPI.route. rewrite E.
  destruct e; unfold except_clauses, bind, logger_error, raise; cbv iota beta;
    rewrite http_exception_handler_returns;
    first [done | by destruct (PyStr.encodable _)].
Qed.

(** C2: the backend's status is not surfaced.  With the credential, a
    backend answering 429 with the body [rate limited] to a non-streaming
    chat completion, or to the model listing, yields status 500 from the
    proxy: the [HTTPException] carrying 429 is raised inside the [try] block
    and caught by its [except Exception] clause.  The detail of the chat
    completion is the [str] of that exception (were that text not
    encodable, the caller would get the plain 500 of the server). *)
Theorem backend_status_becomes_500
    (py_str : exn -> string) (json_dumps : json -> string)
    (framework_route : Request -> http_response) :
  fst (app base_url "" proxy_key (always (plain_response 429 "rate limited" None []))
         py_str json_dumps bracket_check framework_route
         (post_request "/v1/chat/completions" valid_auth (Some (JObj [("model", JStr "m")])))
         empty_world)
  = (if PyStr.encodable (py_str (HTTPException 429 "rate limited"))
     then {| status := 500; media_type := "application/json"; headers := [];
             content := BodyJSON
               (JObj [("detail", JStr (py_str (HTTPException 429 "rate limited")))]) |}
     else {| status := 500; media_type := "text/plain"; headers := [];
             content := BodyText "Internal Server Error" |}) /\
  fst (app base_url "" proxy_key (always (plain_response 429 "rate limited" None []))
         py_str json_dumps bracket_check framework_route
         (get_request "/v1/models" valid_auth) empty_world)
  = {| status := 500; media_type := "application/json"; headers := [];
       content := BodyJSON (JObj [("detail", JStr "Failed to fetch models")]) |}.
Proof.
  split.
  - rewrite app_routes_generation; [|reflexivity|by left|reflexivity|reflexivity].
    destruct (relay_buffered_form base_url ""
                (always (plain_response 429 "rate limited" None [])) py_str json_dumps
                "/v1/chat/completions" (endpoint_name "/v1/chat/completions")
                (post_request "/v1/chat/completions" valid_auth
                   (Some (JObj [("model", JStr "m")])))
                [("model", JStr "m")] empty_world eq_refl eq_refl eq_refl)
      as (w3 & _ & _ & _ & E).
    destruct (route_of_except_clauses _ _ _ _ _ _ E) as [H _]. exact H.
  - rewrite app_routes_models by reflexivity.
    rewrite (route_of_http_exception _ _ 500 "Failed to fetch models"
               (add_errlog ("Error fetching models: " +:+
                            py_str (HTTPException 429 "rate limited"))
                  {| heap := []; clients := [false];
                     sent := [models_call base_url ""]; out := []; errlog := [] |}));
      [reflexivity|].
    by rewrite list_models_reaches_backend.
Qed.

(** C4: a body that cannot be parsed as JSON is not always answered 400.
    The handlers catch [json.JSONDecodeError] and nothing else of what
    [request.json()] raises: on a body that is not decodable text (the
    single byte [FF]) it raises [UnicodeDecodeError], which
    [except Exception] turns into a 500 carrying its [str] (the plain 500 of
    the server, were that text not encodable), on both generation
    endpoints.  No client is made and nothing is sent to the backend. *)
Theorem undecodable_body_is_500
    (backend : backend_call -> backend_reply)
    (py_str : exn -> string) (json_dumps : json -> string)
    (framework_route : Request -> http_response) :
  (fst (app base_url "" proxy_key backend py_str json_dumps bracket_check framework_route
          (undecodable_post "/v1/chat/completions") empty_world)
   = (if PyStr.encodable (py_str UnicodeDecodeError)
      then {| status := 500; media_type := "application/json"; headers := [];
              content := BodyJSON (JObj [("detail", JStr (py_str UnicodeDecodeError))]) |}
      else {| status := 500; media_type := "text/plain"; headers := [];
              content := BodyText "Internal Server Error" |}) /\
   sent (snd (app base_url "" proxy_key backend py_str json_dumps bracket_check
                framework_route (undecodable_post "/v1/chat/completions") empty_world))
   = [] /\
   clients (snd (app base_url "" proxy_key backend py_str json_dumps bracket_check
                   framework_route (undecodable_post "/v1/chat/completions") empty_world))
   = []) /\
  (fst (app base_url "" proxy_key backend py_str json_dumps bracket_check framework_route
          (undecodable_post "/v1/completions") empty_world)
   = (if PyStr.encodable (py_str UnicodeDecodeError)
      then {| status := 500; media_type := "application/json"; headers := [];
              content := BodyJSON (JObj [("detail", JStr (py_str UnicodeDecodeError))]) |}
      else {| status := 500; media_type := "text/plain"; headers := [];
              content := BodyText "Internal Server Error" |}) /\
   sent (snd (app base_url "" proxy_key backend py_str json_dumps bracket_check
                framework_route (undecodable_post "/v1/completions") empty_world))
   = [] /\
   clients (snd (app base_url "" proxy_key backend py_str json_dumps bracket_check
                   framework_route (undecodable_post "/v1/completions") empty_world))
   = []).
Proof.
  split.
  - rewrite app_routes_generation; [|reflexivity|by left|reflexivity|reflexivity].
    pose proof (relay_unparsed base_url "" backend py_str json_dumps
                  "/v1/chat/completions" (endpoint_name "/v1/chat/completions")
                  (undecodable_post "/v1/chat/completions") UnicodeDecodeError empty_world
                  eq_refl) as E.
    destruct (route_of_except_clauses _ _ _ _ _ _ E) as (H1 & H2 & H3 & _).
    split; [exact H1|]. split; [exact H2|exact H3].
  - rewrite app_routes_generation; [|reflexivity|by right|reflexivity|reflexivity].
    pose proof (relay_unparsed base_url "" backend py_str json_dumps
                  "/v1/completions" (endpoint_name "/v1/completions")
                  (undecodable_post "/v1/completions") UnicodeDecodeError empty_world
                  eq_refl) as E.
    destruct (route_of_except_clauses _ _ _ _ _ _ E) as (H1 & H2 & H3 & _).
    split; [exact H1|]. split; [exact H2|exact H3].
Qed.

(** X16: malformed JSON in the body is answered 400 at once.  A request to
    [/v1/chat/completions] or [/v1/completions] that carries the credential
    and on whose body [request.json()] raises [JSONDecodeError] is answered
    400 with the detail [Invalid JSON in request body], and the world is
    left as it was: no client has been created, nothing has been sent to
    the backend and nothing has been logged. *)
Theorem invalid_json_fails_fast
    (BASE NIM_KEY KEY : string) (backend : backend_call -> backend_reply)
    (py_str : exn -> string) (json_dumps : json -> string)
    (netloc_error : string -> option exn)
    (framework_route : Request -> http_response) (request : Request) (w : world) :
  req_method request = "POST" ->
  req_path request = "/v1/chat/completions" \/ req_path request = "/v1/completions" ->
  Starlette.url_error netloc_error request = None ->
  fst (authenticate_request KEY request w) = Ok true ->
  req_json request = Raise JSONDecodeError ->
  app BASE NIM_KEY KEY backend py_str json_dumps netloc_error framework_route request w =
  ({| status := 400; media_type := "application/json"; headers := [];
      content := BodyJSON (JObj [("detail", JStr "Invalid JSON in request body")]) |},
   w).
Proof.
  intros Hm Hp Hu Ha Hj. rewrite app_routes_generation by done.
  rewrite (route_of_http_exception _ _ 400 "Invalid JSON in request body" w);
    [reflexivity|].
  by rewrite (relay_unparsed _ _ _ _ _ _ _ _ JSONDecodeError).
Qed.

Lemma invalid_json_fails_fast_witness :
  app base_url "" proxy_key (always (plain_response 200 "{}" (Some (JObj [])) []))
    detail_str no_dumps bracket_check not_found
    (post_request "/v1/completions" valid_auth None) empty_world =
  ({| status := 400; media_type := "application/json"; headers := [];
      content := BodyJSON (JObj [("detail", JStr "Invalid JSON in request body")]) |},
   empty_world).
Proof.
  apply (invalid_json_fails_fast base_url "" proxy_key
           (always (plain_response 200 "{}" (Some (JObj [])) []))
           detail_str no_dumps bracket_check not_found
           (post_request "/v1/completions" valid_auth None) empty_world).
  - reflexivity.
  - right. reflexivity.
  - reflexivity.
  - vm_compute. reflexivity.
  - reflexivity.
Defined.

(** X17: whatever else [request.json()] raises is a 500.  For a POST to a
    generation endpoint that carries the credential, when [request.json()]
    raises an exception [e] other than [JSONDecodeError] (the body is not
    decodable text, a number in it is too long, ...), the proxy answers 500
    with the detail [str(e)], that text being one that can be encoded, logs
    one record, makes no client and sends nothing to the backend. *)
Theorem unparsed_body_is_500
    (BASE NIM_KEY KEY : string) (backend : backend_call -> backend_reply)
    (py_str : exn -> string) (json_dumps : json -> string)
    (netloc_error : string -> option exn)
    (framework_route : Request -> http_response)
    (request : Request) (e : exn) (w : world) :
  req_method request = "POST" ->
  req_path request = "/v1/chat/completions" \/ req_path request = "/v1/completions" ->
  Starlette.url_error netloc_error request = None ->
  fst (authenticate_request KEY request w) = Ok true ->
  req_json request = Raise e -> e <> JSONDecodeError ->
  PyStr.encodable (py_str e) = true ->
  fst (app BASE NIM_KEY KEY backend py_str json_dumps netloc_error framework_route
         request w) =
    {| status := 500; media_type := "application/json"; headers := [];
       content := BodyJSON (JObj [("detail", JStr (py_str e))]) |} /\
  sent (snd (app BASE NIM_KEY KEY backend py_str json_dumps netloc_error framework_route
               request w)) = sent w /\
  clients (snd (app BASE NIM_KEY KEY backend py_str json_dumps netloc_error
                  framework_route request w)) = clients w /\
  errlog (snd (app BASE NIM_KEY KEY backend py_str json_dumps netloc_error
                 framework_route request w)) =
    errlog w ++ ["Error in " +:+ endpoint_name (req_path request) +:+ ": " +:+ py_str e].
Proof.
  intros Hm Hp Hu Ha Hreq He Henc. rewrite app_routes_generation by done.
  pose proof (relay_unparsed BASE NIM_KEY backend py_str json_dumps (req_path request)
                (endpoint_name (req_path request)) request e w Hreq) as E.
  destruct (route_of_except_clauses _ _ _ _ _ _ E) as (-> & -> & -> & ->).
  rewrite Henc. by destruct e.
Qed.

Lemma unparsed_body_is_500_witness :
  fst (app base_url "" proxy_key (always (plain_response 200 "{}" (Some (JObj [])) []))
         detail_str no_dumps bracket_check not_found
         (undecodable_post "/v1/completions") empty_world) =
    {| status := 500; media_type := "application/json"; headers := [];
       content := BodyJSON (JObj [("detail", JStr (detail_str UnicodeDecodeError))]) |} /\
  sent (snd (app base_url "" proxy_key
               (always (plain_response 200 "{}" (Some (JObj [])) []))
               detail_str no_dumps bracket_check not_found
               (undecodable_post "/v1/completions") empty_world)) = sent empty_world /\
  clients (snd (app base_url "" proxy_key
                  (always (plain_response 200 "{}" (Some (JObj [])) []))
                  detail_str no_dumps bracket_check not_found
                  (undecodable_post "/v1/completions") empty_world)) =
    clients empty_world /\
  errlog (snd (app base_url "" proxy_key
                 (always (plain_response 200 "{}" (Some (JObj [])) []))
                 detail_str no_dumps bracket_check not_found
                 (undecodable_post "/v1/completions") empty_world)) =
    errlog empty_world ++
    ["Error in " +:+ endpoint_name (req_path (undecodable_post "/v1/completions")) +:+
     ": " +:+ detail_str UnicodeDecodeError].
Proof.
  apply (unparsed_body_is_500 base_url "" proxy_key
           (always (plain_response 200 "{}" (Some (JObj [])) []))
           detail_str no_dumps bracket_check not_found
           (undecodable_post "/v1/completions") UnicodeDecodeError empty_world).
  - reflexivity.
  - right. reflexivity.
  - reflexivity.
  - reflexivity.
  - reflexivity.
  - discriminate.
  - reflexivity.
Defined.

(** X8: a failure of the HTTP client on the buffered path is a 500 carrying
    its text.  For a POST to a generation endpoint that carries the
    credential and whose document is an object that can be written as JSON,
    with the [stream] flag absent or false: when the request to the backend
    raises an exception [e] (connection refused, timeout, ...; any class but
    [JSONDecodeError]), the proxy answers 500 with the detail [str(e)], that
    text being one that can be encoded; the request was sent once and is
    not repeated. *)
Theorem client_failure_is_500
    (BASE NIM_KEY KEY : string) (backend : backend_call -> backend_reply)
    (py_str : exn -> string) (json_dumps : json -> string)
    (netloc_error : string -> option exn)
    (framework_route : Request -> http_response)
    (request : Request) (members : list (string * json)) (e : exn) (w : world) :
  req_method request = "POST" ->
  req_path request = "/v1/chat/completions" \/ req_path request = "/v1/completions" ->
  Starlette.url_error netloc_error request = None ->
  fst (authenticate_request KEY request w) = Ok true ->
  req_json request = Ok (JObj members) ->
  json_error (JObj members) = None ->
  stream_flag members = false ->
  backend (generation_call BASE NIM_KEY (req_path request) (JObj members) false)
    = Unreachable e ->
  e <> JSONDecodeError ->
  PyStr.encodable (py_str e) = true ->
  fst (app BASE NIM_KEY KEY backend py_str json_dumps netloc_error framework_route
         request w) =
    {| status := 500; media_type := "application/json"; headers := [];
       content := BodyJSON (JObj [("detail", JStr (py_str e))]) |} /\
  sent (snd (app BASE NIM_KEY KEY backend py_str json_dumps netloc_error framework_route
               request w)) =
    sent w ++ [generation_call BASE NIM_KEY (req_path request) (JObj members) false].
Proof.
  intros Hm Hp Hu Ha Hreq Hok Hflag Hb He Henc. rewrite app_routes_generation by done.
  destruct (relay_buffered_form BASE NIM_KEY backend py_str json_dumps (req_path request)
              (endpoint_name (req_path request)) request members w Hreq Hok Hflag)
    as (w3 & Hs & _ & _ & E).
  cbv zeta in E. rewrite Hb in E.
  destruct (route_of_except_clauses _ _ _ _ _ _ E) as (-> & -> & _).
  rewrite Henc. simpl. rewrite Hs. by destruct e.
Qed.

Lemma client_failure_is_500_witness :
  fst (app base_url "" proxy_key (fun _ => Unreachable (TransportError "connection refused"))
         detail_str no_dumps bracket_check not_found
         (post_request "/v1/completions" valid_auth (Some sample_document)) empty_world) =
    {| status := 500; media_type := "application/json"; headers := [];
       content := BodyJSON
         (JObj [("detail", JStr (detail_str (TransportError "connection refused")))]) |} /\
  sent (snd (app base_url "" proxy_key
               (fun _ => Unreachable (TransportError "connection refused"))
               detail_str no_dumps bracket_check not_found
               (post_request "/v1/completions" valid_auth (Some sample_document))
               empty_world)) =
    sent empty_world ++
    [generation_call base_url ""
       (req_path (post_request "/v1/completions" valid_auth (Some sample_document)))
       (JObj [("model", JStr "m"); ("stream", JBool false)]) false].
Proof.
  apply (client_failure_is_500 base_url "" proxy_key
           (fun _ => Unreachable (TransportError "connection refused"))
           detail_str no_dumps bracket_check not_found
           (post_request "/v1/completions" valid_auth (Some sample_document))
           [("model", JStr "m"); ("stream", JBool false)]
           (TransportError "connection refused") empty_world).
  - reflexivity.
  - right. reflexivity.
  - reflexivity.
  - reflexivity.
  - reflexivity.
  - reflexivity.
  - reflexivity.
  - reflexivity.
  - discriminate.
  - reflexivity.
Defined.

(** X9: on the buffered path every backend status other than 200 comes out
    as 500.  For a POST to a generation endpoint that carries the
    credential and whose document is an object that can be written as JSON,
    with the [stream] flag absent or false: the [HTTPException] built with
    the backend's status and text is caught by the handler's own
    [except Exception]; the caller's detail is the [str] of that exception,
    that text being one that can be encoded, and the status is always
    500. *)
Theorem backend_status_is_replaced_by_500
    (BASE NIM_KEY KEY : string) (backend : backend_call -> backend_reply)
    (py_str : exn -> string) (json_dumps : json -> string)
    (netloc_error : string -> option exn)
    (framework_route : Request -> http_response)
    (request : Request) (members : list (string * json)) (r : response) (w : world) :
  req_method request = "POST" ->
  req_path request = "/v1/chat/completions" \/ req_path request = "/v1/completions" ->
  Starlette.url_error netloc_error request = None ->
  fst (authenticate_request KEY request w) = Ok true ->
  req_json request = Ok (JObj members) ->
  json_error (JObj members) = None ->
  stream_flag members = false ->
  backend (generation_call BASE NIM_KEY (req_path request) (JObj members) false)
    = Reply r ->
  status_code r <> 200%Z ->
  PyStr.encodable (py_str (HTTPException (status_code r) (text r))) = true ->
  fst (app BASE NIM_KEY KEY backend py_str json_dumps netloc_error framework_route
         request w) =
    {| status := 500; media_type := "application/json"; headers := [];
       content := BodyJSON
         (JObj [("detail", JStr (py_str (HTTPException (status_code r) (text r))))]) |}.
Proof.
  intros Hm Hp Hu Ha Hreq Hok Hflag Hb Hst Henc. rewrite app_routes_generation by done.
  destruct (relay_buffered_form BASE NIM_KEY backend py_str json_dumps (req_path request)
              (endpoint_name (req_path request)) request members w Hreq Hok Hflag)
    as (w3 & Hs & _ & _ & E).
  cbv zeta in E. rewrite Hb in E. apply Z.eqb_neq in Hst. rewrite Hst in E.
  destruct (route_of_except_clauses _ _ _ _ _ _ E) as [-> _]. by rewrite Henc.
Qed.

Lemma backend_status_is_replaced_by_500_witness :
  fst (app base_url "" proxy_key (always (plain_response 404 "no such model" None []))
         detail_str no_dumps bracket_check not_found
         (post_request "/v1/completions" valid_auth (Some sample_document)) empty_world) =
    {| status := 500; media_type := "application/json"; headers := [];
       content := BodyJSON
         (JObj [("detail",
                 JStr (detail_str
                         (HTTPException
                            (status_code (plain_response 404 "no such model" None []))
                            (text (plain_response 404 "no such model" None [])))))]) |}.
Proof.
  apply (backend_status_is_replaced_by_500 base_url "" proxy_key
           (always (plain_response 404 "no such model" None []))
           detail_str no_dumps bracket_check not_found
           (post_request "/v1/completions" valid_auth (Some sample_document))
           [("model", JStr "m"); ("stream", JBool false)]
           (plain_response 404 "no such model" None []) empty_world).
  - reflexivity.
  - right. reflexivity.
  - reflexivity.
  - reflexivity.
  - reflexivity.
  - reflexivity.
  - reflexivity.
  - reflexivity.
  - simpl. lia.
  - reflexivity.
Defined.

(** X10: a backend answer that is not JSON is blamed on the caller.  For a
    POST to a generation endpoint that carries the credential and whose
    document is an object that can be written as JSON, with the [stream]
    flag absent or false: when the backend answers 200 and
    [response.json()] raises [JSONDecodeError] on the body, inside the
    [try] block, the clause written for the request body catches it, and
    the proxy answers 400 with the detail [Invalid JSON in request body]. *)
Theorem backend_garbage_is_blamed_on_request
    (BASE NIM_KEY KEY : string) (backend : backend_call -> backend_reply)
    (py_str : exn -> string) (json_dumps : json -> string)
    (netloc_error : string -> option exn)
    (framework_route : Request -> http_response)
    (request : Request) (members : list (string * json)) (r : response) (w : world) :
  req_method request = "POST" ->
  req_path request = "/v1/chat/completions" \/ req_path request = "/v1/completions" ->
  Starlette.url_error netloc_error request = None ->
  fst (authenticate_request KEY request w) = Ok true ->
  req_json request = Ok (JObj members) ->
  json_error (JObj members) = None ->
  stream_flag members = false ->
  backend (generation_call BASE NIM_KEY (req_path request) (JObj members) false)
    = Reply r ->
  status_code r = 200%Z -> resp_json r = Raise JSONDecodeError ->
  fst (app BASE NIM_KEY KEY backend py_str json_dumps netloc_error framework_route
         request w) =
    {| status := 400; media_type := "application/json"; headers := [];
       content := BodyJSON (JObj [("detail", JStr "Invalid JSON in request body")]) |}.
Proof.
  intros Hm Hp Hu Ha Hreq Hok Hflag Hb Hst Hj. rewrite app_routes_generation by done.
  destruct (relay_buffered_form BASE NIM_KEY backend py_str json_dumps (req_path request)
              (endpoint_name (req_path request)) request members w Hreq Hok Hflag)
    as (w3 & Hs & _ & _ & E).
  cbv zeta in E. rewrite Hb, Hst, Hj in E. change (200 =? 200)%Z with true in E.
  cbv iota in E.
  by destruct (route_of_except_clauses _ _ _ _ _ _ E) as [-> _].
Qed.

Lemma backend_garbage_is_blamed_on_request_witness :
  fst (app base_url "" proxy_key (always (plain_response 200 "<html>" None []))
         detail_str no_dumps bracket_check not_found
         (post_request "/v1/chat/completions" valid_auth (Some sample_document))
         empty_world) =
    {| status := 400; media_type := "application/json"; headers := [];
       content := BodyJSON (JObj [("detail", JStr "Invalid JSON in request body")]) |}.
Proof.
  apply (backend_garbage_is_blamed_on_request base_url "" proxy_key
           (always (plain_response 200 "<html>" None []))
           detail_str no_dumps bracket_check not_found
           (post_request "/v1/chat/completions" valid_auth (Some sample_document))
           [("model", JStr "m"); ("stream", JBool false)]
           (plain_response 200 "<html>" None []) empty_world).
  - reflexivity.
  - left. reflexivity.
  - reflexivity.
  - reflexivity.
  - reflexivity.
  - reflexivity.
  - reflexivity.
  - reflexivity.
  - reflexivity.
  - reflexivity.
Defined.

Lemma translate_response_keeps x w :
  sent (snd (translate_response x w)) = sent w /\
  clients (snd (translate_response x w)) = clients w.
Proof.
  unfold translate_response, copy, bind, deref, alloc, ret.
  destruct (heap w !! x) as [[]|]; by simpl.
Qed.

(** X7: on the buffered path the request document reaches the backend once
    and unchanged.  For a POST to a generation endpoint that carries the
    credential and whose document is an object with the [stream] flag
    absent or false, and which can be written as JSON again (no NaN or
    infinity among its numbers, no lone surrogate in its strings), whatever
    the backend then answers, exactly one request has been sent: a POST of
    that same document to [<base><path>], with a timeout of 60 seconds, the
    header [Content-Type: application/json] and, if a backend key is
    configured, the header [Authorization: Bearer <key>]; none of the
    caller's headers. *)
Theorem buffered_request_is_sent_once_unchanged
    (BASE NIM_KEY KEY : string) (backend : backend_call -> backend_reply)
    (py_str : exn -> string) (json_dumps : json -> string)
    (netloc_error : string -> option exn)
    (framework_route : Request -> http_response)
    (request : Request) (members : list (string * json)) (w : world) :
  req_method request = "POST" ->
  req_path request = "/v1/chat/completions" \/ req_path request = "/v1/completions" ->
  Starlette.url_error netloc_error request = None ->
  fst (authenticate_request KEY request w) = Ok true ->
  req_json request = Ok (JObj members) ->
  json_error (JObj members) = None ->
  stream_flag members = false ->
  sent (snd (app BASE NIM_KEY KEY backend py_str json_dumps netloc_error framework_route
               request w)) =
    sent w ++
    [{| call_method := "POST"; call_url := BASE +:+ req_path request;
        call_json := Some (JObj members);
        call_headers :=
          ("Content-Type", "application/json") ::
          (if PyStr.nonempty NIM_KEY
           then [("Authorization", "Bearer " +:+ NIM_KEY)]
           else []);
        call_timeout := 60; call_stream := false |}].
Proof.
  intros Hm Hp Hu Ha Hreq Hok Hflag. rewrite app_routes_generation by done.
  destruct (relay_buffered_form BASE NIM_KEY backend py_str json_dumps (req_path request)
              (endpoint_name (req_path request)) request members w Hreq Hok Hflag)
    as (w3 & Hs & _ & _ & E).
  cbv zeta in E.
  change {| call_method := "POST"; call_url := BASE +:+ req_path request;
            call_json := Some (JObj members);
            call_headers :=
              ("Content-Type", "application/json") ::
              (if PyStr.nonempty NIM_KEY
               then [("Authorization", "Bearer " +:+ NIM_KEY)]
               else []);
            call_timeout := 60; call_stream := false |}
    with (generation_call BASE NIM_KEY (req_path request) (JObj members) false).
  set (call := generation_call BASE NIM_KEY (req_path request) (JObj members) false) in *.
  assert (H4 : sent (close_client w (add_sent call w3)) = sent w ++ [call])
    by (simpl; by rewrite Hs).
  destruct (backend call) as [e|r].
  { destruct (route_of_except_clauses _ _ _ _ _ _ E) as (_ & -> & _). exact H4. }
  destruct (status_code r =? 200)%Z;
    [|destruct (route_of_except_clauses _ _ _ _ _ _ E) as (_ & -> & _); exact H4].
  destruct (resp_json r) as [B|e];
    [|destruct (route_of_except_clauses _ _ _ _ _ _ E) as (_ & -> & _); exact H4].
  pose proof (translate_response_keeps (fst (load B (heap (add_sent call w3))))
                (set_heap (snd (load B (heap (add_sent call w3)))) (add_sent call w3)))
    as [Hk _].
  destruct (translate_response _ _) as [[y|e] w6]; simpl in Hk.
  - unfold FastAPI.server_error_middleware, FastAPI.route. rewrite E.
    unfold FastAPI.render, bind, encode, ret.
    destruct (dump _ _ _) as [j|]; [destruct (json_error j)|]; simpl; by rewrite Hk, Hs.
  - destruct (route_of_except_clauses _ _ _ _ _ _ E) as (_ & -> & _).
    simpl. by rewrite Hk, Hs.
Qed.

Lemma buffered_request_is_sent_once_unchanged_witness :
  sent (snd (app base_url "backend-key" proxy_key
               (always (plain_response 200 "{}" (Some (JObj [])) []))
               detail_str no_dumps bracket_check not_found
               (post_request "/v1/chat/completions" valid_auth (Some sample_document))
               empty_world)) =
    sent empty_world ++
    [{| call_method := "POST";
        call_url := base_url +:+
          req_path (post_request "/v1/chat/completions" valid_auth (Some sample_document));
        call_json := Some (JObj [("model", JStr "m"); ("stream", JBool false)]);
        call_headers :=
          ("Content-Type", "application/json") ::
          (if PyStr.nonempty "backend-key"
           then [("Authorization", "Bearer " +:+ "backend-key")]
           else []);
        call_timeout := 60; call_stream := false |}].
Proof.
  apply (buffered_request_is_sent_once_unchanged base_url "backend-key" proxy_key
           (always (plain_response 200 "{}" (Some (JObj [])) []))
           detail_str no_dumps bracket_check not_found
           (post_request "/v1/chat/completions" valid_auth (Some sample_document))
           [("model", JStr "m"); ("stream", JBool false)] empty_world).
  - reflexivity.
  - left. reflexivity.
  - reflexivity.
  - reflexivity.
  - reflexivity.
  - reflexivity.
  - reflexivity.
Defined.

Lemma relay_non_object BASE NIM_KEY backend py_str json_dumps path name request j w :
  req_json request = Ok j -> is_object j = false ->
  exists wx,
    relay_handler BASE NIM_KEY backend py_str json_dumps path name request w =
      except_clauses name py_str (non_object_error j) wx /\
    sent wx = sent w /\ clients wx = clients w.
Proof.
  intros Hreq Hj. unfold relay_handler, try_except, Starlette.request_json. rewrite Hreq.
  unfold bind at 1. rewrite loads_returns.
  destruct j as [ | b | n | x | s | items | members ]; try discriminate;
    try (unfold translate_request, copy, bind, deref; simpl;
         rewrite lookup_last; by eexists).
  simpl load. destruct (load_all load items (heap w)) as [ls h'] eqn:El. simpl fst. simpl snd.
  unfold bind at 1.
  rewrite (translate_request_returns (length h') (OList ls)); [|apply lookup_last|done].
  unfold get, bind, deref. simpl heap.
  rewrite (lookup_app_l_Some _ _ _ (OList ls)) by apply lookup_last.
  by eexists.
Qed.

(** X11: a request body that is JSON but not an object is a 500, not a 400.
    For a POST to a generation endpoint that carries the credential: on a
    string, number, boolean or null the translator's [copy] fails, on an
    array the lookup of the [stream] flag does, and the proxy answers 500
    with the text of that [AttributeError], that text being one that can be
    encoded, makes no client and sends nothing to the backend. *)
Theorem non_object_document_is_500
    (BASE NIM_KEY KEY : string) (backend : backend_call -> backend_reply)
    (py_str : exn -> string) (json_dumps : json -> string)
    (netloc_error : string -> option exn)
    (framework_route : Request -> http_response)
    (request : Request) (j : json) (w : world) :
  req_method request = "POST" ->
  req_path request = "/v1/chat/completions" \/ req_path request = "/v1/completions" ->
  Starlette.url_error netloc_error request = None ->
  fst (authenticate_request KEY request w) = Ok true ->
  req_json request = Ok j -> is_object j = false ->
  PyStr.encodable (py_str (non_object_error j)) = true ->
  fst (app BASE NIM_KEY KEY backend py_str json_dumps netloc_error framework_route
         request w) =
    {| status := 500; media_type := "application/json"; headers := [];
       content := BodyJSON (JObj [("detail", JStr (py_str (non_object_error j)))]) |} /\
  sent (snd (app BASE NIM_KEY KEY backend py_str json_dumps netloc_error framework_route
               request w)) =
    sent w /\
  clients (snd (app BASE NIM_KEY KEY backend py_str json_dumps netloc_error
                  framework_route request w)) =
    clients w.
Proof.
  intros Hm Hp Hu Ha Hreq Hj Henc. rewrite app_routes_generation by done.
  destruct (relay_non_object BASE NIM_KEY backend py_str json_dumps (req_path request)
              (endpoint_name (req_path request)) request j w Hreq Hj)
    as (wx & E & Hs & Hc).
  destruct (route_of_except_clauses _ _ _ _ _ _ E) as (-> & -> & -> & _).
  unfold non_object_error in *. by rewrite Henc.
Qed.

Lemma non_object_document_is_500_witness :
  fst (app base_url "" proxy_key (always (plain_response 200 "{}" (Some (JObj [])) []))
         detail_str no_dumps bracket_check not_found
         (post_request "/v1/chat/completions" valid_auth (Some (JArr [JInt 1])))
         empty_world) =
    {| status := 500; media_type := "application/json"; headers := [];
       content := BodyJSON
         (JObj [("detail", JStr (detail_str (non_object_error (JArr [JInt 1]))))]) |} /\
  sent (snd (app base_url "" proxy_key
               (always (plain_response 200 "{}" (Some (JObj [])) []))
               detail_str no_dumps bracket_check not_found
               (post_request "/v1/chat/completions" valid_auth (Some (JArr [JInt 1])))
               empty_world)) =
    sent empty_world /\
  clients (snd (app base_url "" proxy_key
                  (always (plain_response 200 "{}" (Some (JObj [])) []))
                  detail_str no_dumps bracket_check not_found
                  (post_request "/v1/chat/completions" valid_auth (Some (JArr [JInt 1])))
                  empty_world)) =
    clients empty_world.
Proof.
  apply (non_object_document_is_500 base_url "" proxy_key
           (always (plain_response 200 "{}" (Some (JObj [])) []))
           detail_str no_dumps bracket_check not_found
           (post_request "/v1/chat/completions" valid_auth (Some (JArr [JInt 1])))
           (JArr [JInt 1]) empty_world).
  - reflexivity.
  - left. reflexivity.
  - reflexivity.
  - reflexivity.
  - reflexivity.
  - reflexivity.
  - reflexivity.
Defined.

(** X12: the [stream] flag is tested for truth, and the streaming path never
    delivers.  For a POST to a generation endpoint that carries the
    credential and whose document is an object with a [stream] value that
    Python counts as true ([true], a non-zero number, a non-empty string
    such as ["false"], a non-empty array or object), and which can be
    written as JSON again, the proxy answers 200 with the streaming headers
    and a body cut before its first chunk by the [RuntimeError] of the
    closed client; nothing is sent to the backend. *)
Theorem truthy_stream_flag_aborts
    (BASE NIM_KEY KEY : string) (backend : backend_call -> backend_reply)
    (py_str : exn -> string) (json_dumps : json -> string)
    (netloc_error : string -> option exn)
    (framework_route : Request -> http_response)
    (request : Request) (members : list (string * json)) (w : world) :
  req_method request = "POST" ->
  req_path request = "/v1/chat/completions" \/ req_path request = "/v1/completions" ->
  Starlette.url_error netloc_error request = None ->
  fst (authenticate_request KEY request w) = Ok true ->
  req_json request = Ok (JObj members) ->
  json_error (JObj members) = None ->
  stream_flag members = true ->
  fst (app BASE NIM_KEY KEY backend py_str json_dumps netloc_error framework_route
         request w) =
    {| status := 200; media_type := "text/plain";
       headers := [("Cache-Control", "no-cache"); ("Connection", "keep-alive")];
       content := BodyStream []
         (Some (RuntimeError "Cannot send a request, as the client has been closed.")) |} /\
  sent (snd (app BASE NIM_KEY KEY backend py_str json_dumps netloc_error framework_route
               request w)) =
    sent w.
Proof.
  intros Hm Hp Hu Ha Hreq Hok Hflag. rewrite app_routes_generation by done.
  destruct (relay_streaming_never_starts BASE NIM_KEY backend py_str json_dumps
              (req_path request) (endpoint_name (req_path request)) request members w
              Hreq Hok Hflag) as (w' & E & Hs & _).
  unfold FastAPI.server_error_middleware. rewrite E. by split.
Qed.

Lemma truthy_stream_flag_aborts_witness :
  fst (app base_url "" proxy_key (always (plain_response 200 "" None three_lines))
         detail_str no_dumps bracket_check not_found
         (post_request "/v1/completions" valid_auth
            (Some (JObj [("stream", JStr "false")]))) empty_world) =
    {| status := 200; media_type := "text/plain";
       headers := [("Cache-Control", "no-cache"); ("Connection", "keep-alive")];
       content := BodyStream []
         (Some (RuntimeError "Cannot send a request, as the client has been closed.")) |} /\
  sent (snd (app base_url "" proxy_key (always (plain_response 200 "" None three_lines))
               detail_str no_dumps bracket_check not_found
               (post_request "/v1/completions" valid_auth
                  (Some (JObj [("stream", JStr "false")]))) empty_world)) =
    sent empty_world.
Proof.
  apply (truthy_stream_flag_aborts base_url "" proxy_key
           (always (plain_response 200 "" None three_lines))
           detail_str no_dumps bracket_check not_found
           (post_request "/v1/completions" valid_auth
              (Some (JObj [("stream", JStr "false")])))
           [("stream", JStr "false")] empty_world).
  - reflexivity.
  - right. reflexivity.
  - reflexivity.
  - reflexivity.
  - reflexivity.
  - reflexivity.
  - reflexivity.
Defined.

(** ** The streaming generators, run with an open client *)

Lemma generate_stream_of_relay BASE backend json_dumps ep :
  generate_stream_of BASE backend json_dumps ep =
  relay_generate_stream BASE backend json_dumps (endpoint_path ep).
Proof. by destruct ep. Qed.

(** X13: what the streaming generator of either handler does when its
    client is open, the request document can be written as JSON and the
    backend answers 200: it sends one streamed POST of the request document,
    forwards every non-empty line as one chunk
    ended by a line feed, in order, skips the empty lines, and ends as the
    backend's stream ends, normally or with the exception that broke it,
    the lines read before the break having been forwarded. *)
Theorem open_generator_forwards_lines
    (BASE : string) (backend : backend_call -> backend_reply) (json_dumps : json -> string)
    (ep : endpoint) (client : nat) (nim_request : loc) (hdrs : list (string * string))
    (doc : json) (r : response) (w : world) :
  clients w !! client = Some true ->
  denotes (heap w) nim_request doc ->
  json_error doc = None ->
  backend (stream_call BASE (endpoint_path ep) doc hdrs) = Reply r ->
  status_code r = 200%Z ->
  generate_stream_of BASE backend json_dumps ep client nim_request hdrs w =
  (end_of_stream (aiter_failure r),
   add_outs (forwarded (aiter_lines r))
     (add_sent (stream_call BASE (endpoint_path ep) doc hdrs) w)).
Proof.
  intros Hc Hd Hok Hb Hst. rewrite generate_stream_of_relay.
  unfold relay_generate_stream, Httpx.stream. unfold bind at 1. unfold bind at 1.
  rewrite (encode_returns _ doc) by done. unfold Httpx.send. rewrite Hc.
  fold (stream_call BASE (endpoint_path ep) doc hdrs). rewrite Hb, Hst.
  change (negb (200 =? 200)%Z) with false. cbv iota beta.
  unfold Httpx.for_aiter_lines, bind. rewrite forward_loop.
  by destruct (aiter_failure r).
Qed.

Lemma open_generator_forwards_lines_witness :
  generate_stream_of base_url (always (plain_response 200 "" None gappy_lines)) no_dumps
    Completions 0 2 [("Content-Type", "application/json")] open_world =
  (end_of_stream (aiter_failure (plain_response 200 "" None gappy_lines)),
   add_outs (forwarded (aiter_lines (plain_response 200 "" None gappy_lines)))
     (add_sent (stream_call base_url (endpoint_path Completions) sample_document
                  [("Content-Type", "application/json")]) open_world)).
Proof.
  apply (open_generator_forwards_lines base_url
           (always (plain_response 200 "" None gappy_lines)) no_dumps
           Completions 0 2 [("Content-Type", "application/json")] sample_document
           (plain_response 200 "" None gappy_lines) open_world).
  - reflexivity.
  - vm_compute. reflexivity.
  - reflexivity.
  - reflexivity.
  - reflexivity.
Defined.

(** X14: what the streaming generator of either handler does when its
    client is open, the request document can be written as JSON and the
    backend answers another status than 200: it
    yields one chunk, [data: ] followed by the JSON of
    [{"error": {"message": <the backend's body>, "type": "api_error"}}] and
    two line feeds, and stops; if reading or decoding the body raises
    (the stream breaks, the body is not decodable text), the generator
    raises the same and yields nothing. *)
Theorem open_generator_reports_backend_error
    (BASE : string) (backend : backend_call -> backend_reply) (json_dumps : json -> string)
    (ep : endpoint) (client : nat) (nim_request : loc) (hdrs : list (string * string))
    (doc : json) (r : response) (w : world) :
  clients w !! client = Some true ->
  denotes (heap w) nim_request doc ->
  json_error doc = None ->
  backend (stream_call BASE (endpoint_path ep) doc hdrs) = Reply r ->
  status_code r <> 200%Z ->
  generate_stream_of BASE backend json_dumps ep client nim_request hdrs w =
  match aread_decode r with
  | Ok error_text =>
      (Ok tt,
       add_out (error_event json_dumps error_text)
         (add_sent (stream_call BASE (endpoint_path ep) doc hdrs) w))
  | Raise e =>
      (Raise e, add_sent (stream_call BASE (endpoint_path ep) doc hdrs) w)
  end.
Proof.
  intros Hc Hd Hok Hb Hst. apply Z.eqb_neq in Hst. rewrite generate_stream_of_relay.
  unfold relay_generate_stream, Httpx.stream. unfold bind at 1. unfold bind at 1.
  rewrite (encode_returns _ doc) by done. unfold Httpx.send. rewrite Hc.
  fold (stream_call BASE (endpoint_path ep) doc hdrs). rewrite Hb, Hst.
  change (negb false) with true. cbv iota beta.
  unfold Httpx.aread_then_decode, bind. by destruct (aread_decode r).
Qed.

Lemma open_generator_reports_backend_error_witness :
  generate_stream_of base_url (always (plain_response 503 "overloaded" None [])) no_dumps
    ChatCompletions 0 2 [("Content-Type", "application/json")] open_world =
  match aread_decode (plain_response 503 "overloaded" None []) with
  | Ok error_text =>
      (Ok tt,
       add_out (error_event no_dumps error_text)
         (add_sent (stream_call base_url (endpoint_path ChatCompletions) sample_document
                      [("Content-Type", "application/json")]) open_world))
  | Raise e =>
      (Raise e,
       add_sent (stream_call base_url (endpoint_path ChatCompletions) sample_document
                   [("Content-Type", "application/json")]) open_world)
  end.
Proof.
  apply (open_generator_reports_backend_error base_url
           (always (plain_response 503 "overloaded" None [])) no_dumps
           ChatCompletions 0 2 [("Content-Type", "application/json")] sample_document
           (plain_response 503 "overloaded" None []) open_world).
  - reflexivity.
  - vm_compute. reflexivity.
  - reflexivity.
  - reflexivity.
  - simpl. lia.
Defined.

(** ** Requests to the backend are counted *)

Lemma calls_within_same n w w' : sent w' = sent w -> calls_within n w w'.
Proof. intros E. exists []. rewrite app_nil_r. split; [done|simpl; lia]. Qed.

Lemma calls_within_trans a b w w' w'' :
  calls_within a w w' -> calls_within b w' w'' -> calls_within (a + b) w w''.
Proof.
  intros (c1 & E1 & L1) (c2 & E2 & L2). exists (c1 ++ c2).
  rewrite E2, E1, app_assoc, length_app. split; [done|lia].
Qed.

Lemma calls_within_le a b w w' : a <= b -> calls_within a w w' -> calls_within b w w'.
Proof. intros Hle (cs & E & L). exists cs. split; [done|lia]. Qed.

Lemma sends_bind {A B} a b (m : M A) (k : A -> M B) :
  sends_at_most a m -> (forall x, sends_at_most b (k x)) ->
  sends_at_most (a + b) (bind m k).
Proof.
  intros Hm Hk w. unfold bind. specialize (Hm w).
  destruct (m w) as [[x|e] w1]; simpl in *.
  - eapply calls_within_trans; [exact Hm|apply Hk].
  - eapply calls_within_le; [|exact Hm]. lia.
Qed.

Lemma sends_bind0 {A B} n (m : M A) (k : A -> M B) :
  sends_at_most 0 m -> (forall x, sends_at_most n (k x)) -> sends_at_most n (bind m k).
Proof. intros Hm Hk. by apply (sends_bind 0 n). Qed.

(** Steps that send nothing. *)
Ltac silent :=
  let w := fresh "w" in
  intros w; apply calls_within_same;
  repeat match goal with
         | |- context [match ?x with _ => _ end] => destruct x
         end; reflexivity.

Lemma silent_ret {A} (a : A) : sends_at_most 0 (ret a).
Proof. silent. Qed.

Lemma silent_raise {A} e : sends_at_most 0 (@raise A e).
Proof. silent. Qed.

Lemma silent_loads j : sends_at_most 0 (loads j).
Proof. unfold loads. silent. Qed.

Lemma silent_deref x : sends_at_most 0 (deref x).
Proof. unfold deref. silent. Qed.

Lemma silent_copy x : sends_at_most 0 (copy x).
Proof.
  unfold copy. apply sends_bind0; [apply silent_deref|]. intros o.
  destruct o; unfold alloc, raise; silent.
Qed.

Lemma silent_contains k x : sends_at_most 0 (contains k x).
Proof.
  unfold contains. apply sends_bind0; [apply silent_deref|]. intros o.
  destruct o; try apply silent_raise; try apply silent_ret.
  apply sends_bind0; [unfold get_heap; silent|]. intros h. apply silent_ret.
Qed.

Lemma silent_translate_request x : sends_at_most 0 (translate_request x).
Proof.
  unfold translate_request. apply sends_bind0; [apply silent_copy|]. intros y.
  apply sends_bind0; [apply silent_contains|]. intros b.
  apply sends_bind0; [destruct b; apply silent_ret|]. intros _. apply silent_ret.
Qed.

Lemma silent_translate_response x : sends_at_most 0 (translate_response x).
Proof.
  unfold translate_response. apply sends_bind0; [apply silent_copy|]. intros y.
  apply silent_ret.
Qed.

Lemma silent_get x k : sends_at_most 0 (get x k).
Proof.
  unfold get. apply sends_bind0; [apply silent_deref|]. intros o.
  destruct o; try apply silent_raise. apply silent_ret.
Qed.

Lemma silent_if_is_stream v : sends_at_most 0 (if_is_stream v).
Proof.
  unfold if_is_stream. destruct v; [|apply silent_ret].
  unfold truthy. apply sends_bind0; [apply silent_deref|]. intros o. apply silent_ret.
Qed.

Lemma silent_encode x : sends_at_most 0 (encode x).
Proof. unfold encode. silent. Qed.

Lemma silent_yield s : sends_at_most 0 (yield_ s).
Proof. unfold yield_. silent. Qed.

Lemma silent_logger_error s : sends_at_most 0 (logger_error s).
Proof. unfold logger_error. silent. Qed.

Lemma silent_for_each {A} (xs : list A) body :
  (forall x, sends_at_most 0 (body x)) -> sends_at_most 0 (for_each xs body).
Proof.
  intros Hb. induction xs as [|x xs IH]; simpl; [apply silent_ret|].
  apply sends_bind0; [apply Hb|]. intros _. apply IH.
Qed.

Lemma send_sends_one backend client call : sends_at_most 1 (Httpx.send backend client call).
Proof.
  intros w. unfold Httpx.send.
  destruct (clients w !! client) as [[|]|]; try (by apply calls_within_same).
  destruct (backend call); by exists [call].
Qed.

Lemma sends_with_AsyncClient {A} n (body : nat -> M A) :
  (forall client, sends_at_most n (body client)) ->
  sends_at_most n (Httpx.with_AsyncClient body).
Proof.
  intros Hb w. unfold Httpx.with_AsyncClient.
  specialize (Hb (length (clients w)) (set_clients (clients w ++ [true]) w)).
  destruct (body _ _) as [r w']. exact Hb.
Qed.

Lemma sends_try_except {A} a b (body : M A) handlers :
  sends_at_most a body ->
  (forall e h, handlers e = Some h -> sends_at_most b h) ->
  sends_at_most (a + b) (try_except body handlers).
Proof.
  intros Hb Hh w. unfold try_except. specialize (Hb w).
  destruct (body w) as [[x|e] w1]; simpl in *.
  - eapply calls_within_le; [|exact Hb]. lia.
  - destruct (handlers e) as [h|] eqn:E.
    + eapply calls_within_trans; [exact Hb|by apply (Hh e)].
    + eapply calls_within_le; [|exact Hb]. lia.
Qed.

Lemma no_stream_bind {A} (m : M A) (k : A -> M retval) :
  (forall x, returns_no_stream (k x)) -> returns_no_stream (bind m k).
Proof.
  intros Hk w. unfold bind. destruct (m w) as [[x|e] w1]; [apply Hk|done].
Qed.

Lemma no_stream_try_except (body : M retval) handlers :
  returns_no_stream body ->
  (forall e h, handlers e = Some h -> returns_no_stream h) ->
  returns_no_stream (try_except body handlers).
Proof.
  intros Hb Hh w. unfold try_except. specialize (Hb w).
  destruct (body w) as [[x|e] w1]; [exact Hb|].
  destruct (handlers e) as [h|] eqn:E; [by apply (Hh e)|done].
Qed.

Lemma no_stream_with_AsyncClient (body : nat -> M retval) :
  (forall client, returns_no_stream (body client)) ->
  returns_no_stream (Httpx.with_AsyncClient body).
Proof.
  intros Hb w. unfold Httpx.with_AsyncClient.
  specialize (Hb (length (clients w)) (set_clients (clients w ++ [true]) w)).
  by destruct (body _ _) as [r w'].
Qed.

Lemma calls_within_zero w w' : calls_within 0 w w' -> sent w' = sent w.
Proof.
  intros (cs & E & L). destruct cs; [|simpl in L; lia]. by rewrite app_nil_r in E.
Qed.

Lemma calls_within_from n w w1 w' :
  sent w1 = sent w -> calls_within n w1 w' -> calls_within n w w'.
Proof. intros E (cs & E' & L). exists cs. by rewrite <- E. Qed.

Lemma handler_plain (m : M retval) :
  sends_at_most 1 m -> returns_no_stream m -> handler_sends_at_most_one m.
Proof.
  intros Hs Hn w. specialize (Hs w). specialize (Hn w).
  destruct (fst (m w)) as [[y|g a b]|e]; done.
Qed.

Lemma handler_bind0 {A} (m : M A) (k : A -> M retval) :
  sends_at_most 0 m -> (forall x, handler_sends_at_most_one (k x)) ->
  handler_sends_at_most_one (bind m k).
Proof.
  intros Hm Hk w. unfold bind. specialize (Hm w). apply calls_within_zero in Hm.
  destruct (m w) as [[x|e] w1]; simpl in *; [|by apply calls_within_same].
  specialize (Hk x w1).
  destruct (fst (k x w1)) as [[y|g a b]|e'].
  - by apply (calls_within_from _ _ w1).
  - destruct Hk as [H0 Hg]. split; [by apply (calls_within_from _ _ w1)|done].
  - by apply (calls_within_from _ _ w1).
Qed.

Lemma handler_with_AsyncClient (body : nat -> M retval) :
  (forall client, handler_sends_at_most_one (body client)) ->
  handler_sends_at_most_one (Httpx.with_AsyncClient body).
Proof.
  intros Hb w. unfold Httpx.with_AsyncClient.
  specialize (Hb (length (clients w)) (set_clients (clients w ++ [true]) w)).
  destruct (body _ _) as [r w']. exact Hb.
Qed.

Lemma handler_try_except (body : M retval) handlers :
  handler_sends_at_most_one body ->
  (forall e h, handlers e = Some h -> sends_at_most 0 h /\ returns_no_stream h) ->
  handler_sends_at_most_one (try_except body handlers).
Proof.
  intros Hb Hh w. unfold try_except. specialize (Hb w).
  destruct (body w) as [[x|e] w1]; [exact Hb|]. simpl in Hb.
  destruct (handlers e) as [h|] eqn:E; [|exact Hb].
  destruct (Hh e h E) as [Hs Hn]. specialize (Hs w1). specialize (Hn w1).
  apply calls_within_zero in Hs.
  assert (Hc : calls_within 1 w (snd (h w1))).
  { destruct Hb as (cs & E' & L). exists cs. by rewrite Hs. }
  destruct (fst (h w1)) as [[y|g a b]|e']; done.
Qed.

Lemma generator_sends_one BASE backend json_dumps path client nim_request hdrs :
  sends_at_most 1 (relay_generate_stream BASE backend json_dumps path client nim_request hdrs).
Proof.
  unfold relay_generate_stream, Httpx.stream.
  apply (sends_bind 1 0).
  { apply sends_bind0; [apply silent_encode|]. intros doc. apply send_sends_one. }
  intros r. destruct (negb _).
  - apply sends_bind0.
    + unfold Httpx.aread_then_decode. destruct (aread_decode r);
        [apply silent_ret|apply silent_raise].
    + intros t. apply silent_yield.
  - unfold Httpx.for_aiter_lines. apply sends_bind0.
    + apply silent_for_each. intros chunk.
      destruct (PyStr.nonempty chunk); [apply silent_yield|apply silent_ret].
    + intros _. destruct (aiter_failure r); [apply silent_raise|apply silent_ret].
Qed.

Lemma relay_handler_sends_one BASE NIM_KEY backend py_str json_dumps path name request :
  handler_sends_at_most_one
    (relay_handler BASE NIM_KEY backend py_str json_dumps path name request).
Proof.
  unfold relay_handler. apply handler_try_except.
  - apply handler_bind0.
    { unfold Starlette.request_json.
      destruct (req_json request); [apply silent_loads|apply silent_raise]. }
    intros request_data. apply handler_bind0; [apply silent_translate_request|].
    intros nim_request. apply handler_bind0; [apply silent_get|]. intros is_stream.
    apply handler_with_AsyncClient. intros client.
    apply handler_bind0; [apply silent_if_is_stream|]. intros [|].
    + intros w. simpl. split; [by apply calls_within_same|apply generator_sends_one].
    + apply handler_plain.
      * apply (sends_bind 1 0).
        { unfold Httpx.post. apply sends_bind0; [apply silent_encode|].
          intros doc. apply send_sends_one. }
        intros r. destruct (status_code r =? 200)%Z; [|apply silent_raise].
        apply sends_bind0.
        { unfold Httpx.response_json.
          destruct (resp_json r); [apply silent_loads|apply silent_raise]. }
        intros x. apply sends_bind0; [apply silent_translate_response|].
        intros y. apply silent_ret.
      * apply no_stream_bind. intros r.
        destruct (status_code r =? 200)%Z; [|done].
        apply no_stream_bind. intros x. apply no_stream_bind. by intros y.
  - intros e h E. destruct e; simplify_eq; split;
      first [ apply silent_raise
            | apply sends_bind0; [apply silent_logger_error|intros _; apply silent_raise]
            | done
            | apply no_stream_bind; by intros _ ].
Qed.

Lemma list_models_sends_one BASE NIM_KEY backend py_str :
  handler_sends_at_most_one (list_models BASE NIM_KEY backend py_str).
Proof.
  unfold list_models. apply handler_plain.
  - apply (sends_try_except 1 0).
    + apply sends_with_AsyncClient. intros client. apply (sends_bind 1 0).
      { apply send_sends_one. }
      intros r. destruct (status_code r =? 200)%Z; [|apply silent_raise].
      apply sends_bind0.
      { unfold Httpx.response_json.
        destruct (resp_json r); [apply silent_loads|apply silent_raise]. }
      intros x. apply silent_ret.
    + intros e h [= <-].
      apply sends_bind0; [apply silent_logger_error|intros _; apply silent_raise].
  - apply no_stream_try_except.
    + apply no_stream_with_AsyncClient. intros client. apply no_stream_bind. intros r.
      destruct (status_code r =? 200)%Z; [|done]. apply no_stream_bind. by intros x.
    + intros e h [= <-]. apply no_stream_bind. by intros _.
Qed.

Lemma literal_sends_none j :
  handler_sends_at_most_one (let* r := loads j in ret (RetObj r)).
Proof.
  apply handler_plain.
  - apply (sends_bind 0 1); [apply silent_loads|]. intros r.
    intros w. by apply calls_within_same.
  - apply no_stream_bind. by intros r.
Qed.

Lemma route_sends_one endpoint :
  handler_sends_at_most_one endpoint -> sends_at_most 1 (FastAPI.route endpoint).
Proof.
  intros He w. unfold FastAPI.route. specialize (He w).
  destruct (endpoint w) as [[[y|g a b]|e] w1]; simpl in He.
  - eapply calls_within_le with (a := 1 + 0); [lia|].
    eapply calls_within_trans; [exact He|]. unfold FastAPI.render.
    apply (sends_bind0 0); [apply silent_encode|]. intros doc. apply silent_ret.
  - destruct He as [H0 Hg]. apply (calls_within_trans 0 1 w w1); [done|].
    unfold FastAPI.render, Starlette.send_streaming. specialize (Hg w1).
    by destruct (g w1) as [r w2].
  - destruct e; try done.
    rewrite http_exception_handler_returns. by destruct (PyStr.encodable _).
Qed.

(** X15: no request makes the proxy call the backend twice.  For every
    request, configuration, backend and starting world, serving the request
    adds at most one entry to the record of requests sent to the backend
    and removes none: nothing is retried, whatever fails. *)
Theorem at_most_one_backend_request
    (BASE NIM_KEY KEY : string) (backend : backend_call -> backend_reply)
    (py_str : exn -> string) (json_dumps : json -> string)
    (netloc_error : string -> option exn)
    (framework_route : Request -> http_response) (request : Request) (w : world) :
  exists calls,
    sent (snd (app BASE NIM_KEY KEY backend py_str json_dumps netloc_error framework_route
                 request w)) =
      sent w ++ calls /\
    length calls <= 1.
Proof.
  assert (Hrouter : forall r,
            sends_at_most 1
              (router BASE NIM_KEY backend py_str json_dumps framework_route r)).
  { intros r. unfold router.
    repeat match goal with
           | |- sends_at_most 1 (if ?c then _ else _) => destruct c
           end.
    - apply route_sends_one, literal_sends_none.
    - apply route_sends_one, literal_sends_none.
    - apply route_sends_one, list_models_sends_one.
    - apply route_sends_one. rewrite chat_completions_is_relay.
      apply relay_handler_sends_one.
    - apply route_sends_one. rewrite completions_is_relay.
      apply relay_handler_sends_one.
    - intros w'. by apply calls_within_same. }
  assert (Hmw : sends_at_most 1 (auth_middleware KEY netloc_error request
            (router BASE NIM_KEY backend py_str json_dumps framework_route))).
  { unfold auth_middleware. apply sends_bind0.
    { intros w'. by apply calls_within_same. }
    intros path. destruct (PyStr.mem _ _); [apply Hrouter|].
    apply sends_bind0.
    - intros w'. destruct (authenticate_request_returns KEY request) as [b Hb].
      rewrite Hb. by apply calls_within_same.
    - intros b. destruct (negb b); [|apply Hrouter].
      rewrite auth_error_made. intros w'. by apply calls_within_same. }
  unfold app, FastAPI.server_error_middleware. specialize (Hmw w).
  by destruct (auth_middleware _ _ _ _ w) as [[r|e] w'].
Qed.

(** ** What the gate reads and what the router reads *)

Lemma after_netloc_app_slash h p :
  Urllib.netloc h = h -> Urllib.after_netloc (h +:+ String "/" p) = String "/" p.
Proof.
  induction h as [|c h IH]; [done|]. rewrite append_cons. simpl.
  destruct (Urllib.ends_netloc c); [discriminate|]. intros [= E]. by apply IH.
Qed.

(** X18: a [Host] header can open the gate.  The gate tests
    [request.url.path], and Starlette takes the text of the [Host] header
    into the URL as it is: a request whose [Host] header is a host name
    (no delimiter in it, and accepted by [urlsplit]) followed by [/health?]
    is read as a request for [/health], whatever its own path and method
    are and whatever route it is then given to, and passes the gate without
    any look at its credentials. *)
Theorem host_header_opens_gate
    (KEY : string) (netloc_error : string -> option exn) (request : Request)
    (host rest query : string) (call_next : Request -> M http_response) (w : world) :
  Starlette.headers_get request "host" = Some (host +:+ "/health?" +:+ rest) ->
  Urllib.remove_unsafe host = host -> Urllib.netloc host = host ->
  netloc_error host = None -> req_query request = Ok query ->
  auth_middleware KEY netloc_error request call_next w = call_next request w.
Proof.
  intros Hh Hsafe Hnet Hcheck Hq.
  apply gate_bypass with (path := "/health"); [|reflexivity].
  unfold Starlette.url_path, Starlette.url_error, Starlette.url_netloc, Starlette.url,
    Starlette.url_authority.
  rewrite Hq, Hh, !remove_unsafe_app, Hsafe.
  change (Urllib.remove_unsafe "/health?") with "/health?".
  rewrite !append_assoc, !append_cons. change ("" +:+ ?x) with x.
  rewrite netloc_app_slash, Hnet, Hcheck.
  unfold Urllib.path. by rewrite after_netloc_app_slash.
Qed.

Lemma host_header_opens_gate_witness :
  auth_middleware proxy_key bracket_check
    {| req_method := "GET"; req_server := local_server; req_path := "/v1/models"; req_query := Ok "";
       req_headers := [("host", "x/health?")]; req_json := Raise JSONDecodeError |}
    (fun _ => raise IndexError) empty_world
  = raise IndexError empty_world.
Proof.
  apply (host_header_opens_gate proxy_key bracket_check
           {| req_method := "GET"; req_server := local_server; req_path := "/v1/models"; req_query := Ok "";
              req_headers := [("host", "x/health?")]; req_json := Raise JSONDecodeError |}
           "x" "" "" (fun _ => raise IndexError) empty_world); reflexivity.
Defined.

(** X19: a URL that cannot be put together or split is a plain 500 on
    every path.  When [request.url.path] raises (the query string is not
    decodable, or [urlsplit] rejects the authority, as it does a [Host]
    header that is a lone opening bracket), it does so inside the gate,
    which runs before the routes, the allow-listed ones included: the
    caller gets the 500 of the server, and neither a route nor the backend
    is reached. *)
Theorem rejected_authority_is_plain_500
    (BASE NIM_KEY KEY : string) (backend : backend_call -> backend_reply)
    (py_str : exn -> string) (json_dumps : json -> string)
    (netloc_error : string -> option exn)
    (framework_route : Request -> http_response)
    (request : Request) (e : exn) (w : world) :
  Starlette.url_error netloc_error request = Some e ->
  app BASE NIM_KEY KEY backend py_str json_dumps netloc_error framework_route request w =
  ({| status := 500; media_type := "text/plain"; headers := [];
      content := BodyText "Internal Server Error" |}, w).
Proof.
  intros He. unfold app, FastAPI.server_error_middleware.
  rewrite (gate_raises _ _ _ _ e); [done|].
  unfold Starlette.url_path. by rewrite He.
Qed.

Lemma rejected_authority_is_plain_500_witness :
  app base_url "" proxy_key (always (plain_response 200 "{}" (Some (JObj [])) []))
    detail_str no_dumps bracket_check not_found
    {| req_method := "GET"; req_server := local_server; req_path := "/health"; req_query := Ok "";
       req_headers := [("host", "[")]; req_json := Raise JSONDecodeError |} empty_world =
  ({| status := 500; media_type := "text/plain"; headers := [];
      content := BodyText "Internal Server Error" |}, empty_world).
Proof.
  apply (rejected_authority_is_plain_500 base_url "" proxy_key
           (always (plain_response 200 "{}" (Some (JObj [])) []))
           detail_str no_dumps bracket_check not_found
           {| req_method := "GET"; req_server := local_server; req_path := "/health"; req_query := Ok "";
              req_headers := [("host", "[")]; req_json := Raise JSONDecodeError |}
           (ValueError "Invalid IPv6 URL") empty_world).
  reflexivity.
Defined.

(** No route answers 401. *)
Lemma route_no_401 (endpoint : M retval) :
  (forall w c d w', endpoint w = (Raise (HTTPException c d), w') -> c <> 401%Z) ->
  forall w, match fst (FastAPI.route endpoint w) with
            | Ok r => status r <> 401%Z
            | Raise _ => True
            end.
Proof.
  intros Hc w. unfold FastAPI.route.
  destruct (endpoint w) as [[[y|g a b]|e] w1] eqn:E.
  - unfold FastAPI.render, bind. destruct (encode y w1) as [[doc|e] w2]; [|done].
    simpl. lia.
  - unfold FastAPI.render, Starlette.send_streaming.
    destruct (g w1) as [r w2]. simpl. lia.
  - destruct e; try done. rewrite http_exception_handler_returns.
    destruct (PyStr.encodable _); [|done]. simpl. by apply (Hc w _ detail w1).
Qed.

Lemma try_except_no_401 (body : M retval) handlers :
  (forall e w, exists h c d w',
      handlers e = Some h /\ h w = (Raise (HTTPException c d), w') /\ c <> 401%Z) ->
  forall w c d w', try_except body handlers w = (Raise (HTTPException c d), w') -> c <> 401%Z.
Proof.
  intros Hh w c d w'. unfold try_except.
  destruct (body w) as [[x|e] w1]; [discriminate|].
  destruct (Hh e w1) as (h & c' & d' & w'' & -> & -> & Hc). by intros [= <- _ _].
Qed.

Lemma relay_handler_no_401 BASE NIM_KEY backend py_str json_dumps path name request :
  forall w c d w',
    relay_handler BASE NIM_KEY backend py_str json_dumps path name request w =
      (Raise (HTTPException c d), w') -> c <> 401%Z.
Proof.
  unfold relay_handler. apply try_except_no_401. intros e w.
  destruct e; eexists _, _, _, _; (split; [reflexivity|]); (split; [reflexivity|]); lia.
Qed.

Lemma list_models_no_401 BASE NIM_KEY backend py_str :
  forall w c d w',
    list_models BASE NIM_KEY backend py_str w = (Raise (HTTPException c d), w') ->
    c <> 401%Z.
Proof.
  unfold list_models. apply try_except_no_401. intros e w.
  eexists _, _, _, _. split; [reflexivity|]. split; [reflexivity|]. lia.
Qed.

Lemma literal_no_401 j :
  forall w c d w',
    (let* r := loads j in ret (RetObj r)) w = (Raise (HTTPException c d), w') ->
    c <> 401%Z.
Proof. intros w c d w'. unfold bind. by rewrite loads_returns. Qed.

(** X20: the allow-list, on the path the gate reads.  Whenever
    [request.url.path] is one of [/], [/health], [/docs] and
    [/openapi.json], the credential check is bypassed whatever the headers
    are, the [Authorization] header may be missing: the middleware hands
    the request to the application as it is, and the answer, whichever
    route the request is given to, is not a 401, given that the framework's
    own routes never answer 401. *)
Theorem allow_list_bypasses_gate
    (BASE NIM_KEY KEY : string) (backend : backend_call -> backend_reply)
    (py_str : exn -> string) (json_dumps : json -> string)
    (netloc_error : string -> option exn)
    (framework_route : Request -> http_response) (request : Request) (path : string)
    (w : world) :
  Starlette.url_path netloc_error request = Ok path ->
  In path unauthenticated_paths ->
  (forall r, status (framework_route r) <> 401%Z) ->
  (forall call_next,
     auth_middleware KEY netloc_error request call_next w = call_next request w) /\
  status (fst (app BASE NIM_KEY KEY backend py_str json_dumps netloc_error framework_route
                 request w))
    <> 401%Z.
Proof.
  intros Hu Hin Hfw. pose proof (mem_unauthenticated _ Hin) as Hmem. split.
  - intros call_next. by apply gate_bypass with (path := path).
  - assert (Happ : app BASE NIM_KEY KEY backend py_str json_dumps netloc_error
                     framework_route request w =
                   FastAPI.server_error_middleware
                     (router BASE NIM_KEY backend py_str json_dumps framework_route request)
                     w).
    { unfold app, FastAPI.server_error_middleware.
      by rewrite (gate_bypass _ _ _ _ path). }
    rewrite Happ.
    assert (Hroute : forall endpoint,
              (forall w c d w', endpoint w = (Raise (HTTPException c d), w') ->
                                c <> 401%Z) ->
              status (fst (FastAPI.server_error_middleware (FastAPI.route endpoint) w))
                <> 401%Z).
    { intros endpoint Hc. pose proof (route_no_401 endpoint Hc w) as H.
      unfold FastAPI.server_error_middleware.
      destruct (FastAPI.route endpoint w) as [[r|e] w']; [exact H|simpl; lia]. }
    unfold router.
    repeat match goal with
           | |- context [if ?c then _ else _] => destruct c
           end.
    + apply Hroute, literal_no_401.
    + apply Hroute, literal_no_401.
    + apply Hroute, list_models_no_401.
    + rewrite chat_completions_is_relay. apply Hroute, relay_handler_no_401.
    + rewrite completions_is_relay. apply Hroute, relay_handler_no_401.
    + apply Hfw.
Qed.

Lemma allow_list_bypasses_gate_witness :
  (forall call_next,
     auth_middleware proxy_key bracket_check (get_request "/health" None) call_next
       empty_world =
     call_next (get_request "/health" None) empty_world) /\
  status (fst (app base_url "" proxy_key (always (plain_response 200 "" None []))
                 detail_str no_dumps bracket_check not_found (get_request "/health" None)
                 empty_world))
    <> 401%Z.
Proof.
  apply (allow_list_bypasses_gate base_url "" proxy_key
           (always (plain_response 200 "" None [])) detail_str no_dumps bracket_check
           not_found (get_request "/health" None) "/health" empty_world).
  - reflexivity.
  - simpl. auto.
  - intros r. simpl. lia.
Defined.

(** ** A backend document that cannot be written again *)



